(** * Report resolution and presentation engine of report-generator

    A shallow embedding of the TypeScript sources
    - [types.ts]                         (one module per interface),
    - [components/ReportBuilder.tsx]     (module [ReportBuilder]),
    - [components/ReportViewer.tsx]      (module [ReportViewer]),
    - [services/datasourceService.ts]    (module [DatasourceService]),
    - [services/geminiService.ts]        (module [GeminiService]),
    - [components/DataSourceView.tsx]    (module [DataSourceView]),
    together with the few ECMAScript built-ins they rely on (module [Js])
    and what their lookups find, said on the schema (module [Resolution]),
    followed by the properties of the engine that hold on this code and the
    concrete inputs at which documented behaviour and code part ways. *)

From Stdlib Require Import String Ascii List Bool Arith ZArith Lia.
From Stdlib Require Import DecimalString.
Import ListNotations.
Open Scope list_scope.
Open Scope string_scope.

(* ===================================================================== *)
(** ** ECMAScript built-ins used by the sources *)
(* ===================================================================== *)

Module Js.

(** [a === b] on strings. *)
Definition strictEq (a b : string) : bool := String.eqb a b.

(** Truthiness of a string: every string but the empty one. *)
Definition truthy (s : string) : bool := negb (String.eqb s EmptyString).

(** [o || d] for an optional array. *)
Definition orEmpty {A : Type} (o : option (list A)) : list A :=
  match o with
  | Some l => l
  | None => []
  end.

(** [Array.prototype.includes] on an array of strings. *)
Definition includes (l : list string) (x : string) : bool :=
  existsb (strictEq x) l.

(** [Array.from(new Set(xs))]: a [Set] keeps the first occurrence of every
    value, in insertion order. *)
Fixpoint setInsertAll (seen : list string) (xs : list string) : list string :=
  match xs with
  | [] => seen
  | x :: rest =>
      if includes seen x then setInsertAll seen rest
      else setInsertAll (seen ++ [x])%list rest
  end.

Definition Array_from_Set (xs : list string) : list string :=
  setInsertAll [] xs.

(** [xs.join(sep)]. *)
Definition join (sep : string) (xs : list string) : string :=
  String.concat sep xs.

(** [String(n)] for a non-negative integer. *)
Definition Number_toString (n : N) : string :=
  NilZero.string_of_uint (N.to_uint n).

(** [xs.length]. *)
Definition Array_length {A : Type} (xs : list A) : N := N.of_nat (length xs).

(** [hay.includes(needle)]. *)
Definition String_includes (hay needle : string) : bool :=
  match String.index 0 needle hay with
  | Some _ => true
  | None => false
  end.

Definition dot : ascii := "."%char.

(** [s.includes('.')]. *)
Fixpoint includesDot (s : string) : bool :=
  match s with
  | EmptyString => false
  | String c rest => if Ascii.eqb c dot then true else includesDot rest
  end.

(** [s.split('.').pop()]: the segment after the last dot (the whole
    string when there is none).  [acc] is the segment being read. *)
Fixpoint lastSegmentFrom (acc : string) (s : string) : string :=
  match s with
  | EmptyString => acc
  | String c rest =>
      if Ascii.eqb c dot then lastSegmentFrom EmptyString rest
      else lastSegmentFrom (acc ++ String c EmptyString) rest
  end.

Definition splitDotPop (s : string) : string := lastSegmentFrom EmptyString s.

(** *** Values carried by rows *)

(** Rows come out of [JSON.parse], so a cell is a JSON value (or
    [undefined]).  Numbers are modelled by the integers: fractions are not
    represented, and the decimal text printed for a number is the one
    ECMAScript prints for integers below 10^21 in absolute value (beyond,
    it switches to exponent notation). *)
#[local] Set Warnings "-register-all".
Inductive JsValue : Type :=
  | JUndefined
  | JNull
  | JBool (b : bool)
  | JNumber (n : Z)
  | JString (s : string)
  | JArray (items : list JsValue)
  | JObject (props : list (string * JsValue)).

(** A plain object with its own enumerable keys in insertion order. *)
Definition Row : Type := list (string * JsValue).

(** [Object.keys(row)]. *)
Definition Object_keys (row : Row) : list string := map fst row.

(** [Object.values(row)]. *)
Definition Object_values (row : Row) : list JsValue := map snd row.

(** [String(n)] for an integer. *)
Definition Integer_toString (n : Z) : string :=
  NilZero.string_of_int (Z.to_int n).

Definition hexDigit (n : nat) : string :=
  String.substring n 1 "0123456789abcdef".

Definition doubleQuote : string := String (ascii_of_nat 34) EmptyString.

(** One code unit inside a JSON string literal (QuoteJSONString). *)
Definition quoteChar (c : ascii) : string :=
  let n := nat_of_ascii c in
  if Nat.eqb n 34 then "\" ++ doubleQuote
  else if Nat.eqb n 92 then "\\"
  else if Nat.eqb n 8 then "\b"
  else if Nat.eqb n 9 then "\t"
  else if Nat.eqb n 10 then "\n"
  else if Nat.eqb n 12 then "\f"
  else if Nat.eqb n 13 then "\r"
  else if Nat.ltb n 32 then "\u00" ++ hexDigit (n / 16) ++ hexDigit (n mod 16)
  else String c EmptyString.

Fixpoint quoteChars (s : string) : string :=
  match s with
  | EmptyString => EmptyString
  | String c rest => quoteChar c ++ quoteChars rest
  end.

Definition quoteJSONString (s : string) : string :=
  doubleQuote ++ quoteChars s ++ doubleQuote.

(** [JSON.stringify(v)]; [None] stands for the result [undefined].  An
    [undefined] array element prints as [null], an [undefined] property is
    left out. *)
Fixpoint JSON_stringify (v : JsValue) : option string :=
  match v with
  | JUndefined => None
  | JNull => Some "null"
  | JBool b => Some (if b then "true" else "false")
  | JNumber n => Some (Integer_toString n)
  | JString s => Some (quoteJSONString s)
  | JArray items =>
      Some ("[" ++ join ","
              (map (fun item =>
                      match JSON_stringify item with
                      | Some text => text
                      | None => "null"
                      end) items) ++ "]")
  | JObject props =>
      Some ("{" ++ join ","
              (flat_map (fun prop =>
                           match JSON_stringify (snd prop) with
                           | Some text => [quoteJSONString (fst prop) ++ ":" ++ text]
                           | None => []
                           end) props) ++ "}")
  end.

(** [typeof v === 'object']. *)
Definition typeofIsObject (v : JsValue) : bool :=
  match v with
  | JNull | JArray _ | JObject _ => true
  | _ => false
  end.

(** [String(v)] for the values whose [typeof] is not ['object']. *)
Definition String_of (v : JsValue) : string :=
  match v with
  | JUndefined => "undefined"
  | JNull => "null"
  | JBool b => if b then "true" else "false"
  | JNumber n => Integer_toString n
  | JString s => s
  | JArray _ | JObject _ => "[object]"
  end.

(** *** More built-ins: strings, property access, truthiness *)

(** [s.endsWith(suffix)]: some tail of [s] is [suffix]. *)
Fixpoint endsWith (s suffix : string) : bool :=
  String.eqb s suffix
  || match s with
     | EmptyString => false
     | String _ rest => endsWith rest suffix
     end.

(** [s.slice(0, -1)]: [s] without its last code unit. *)
Fixpoint sliceDropLast (s : string) : string :=
  match s with
  | EmptyString => EmptyString
  | String c EmptyString => EmptyString
  | String c rest => String c (sliceDropLast rest)
  end.

(** [s] without the prefix [p], when it starts with it. *)
Fixpoint stripPrefix (p s : string) : option string :=
  match p, s with
  | EmptyString, _ => Some s
  | String a p', String b s' => if Ascii.eqb a b then stripPrefix p' s' else None
  | String _ _, EmptyString => None
  end.

(** [s.replace(/[...]/g, by)] for a character class given by [inClass]. *)
Fixpoint replaceClass (inClass : ascii -> bool) (by_ : ascii) (s : string) : string :=
  match s with
  | EmptyString => EmptyString
  | String c rest =>
      String (if inClass c then by_ else c) (replaceClass inClass by_ rest)
  end.

(** [row[key]]: the value of the property, [undefined] when there is none. *)
Fixpoint get (row : Row) (key : string) : JsValue :=
  match row with
  | [] => JUndefined
  | (k, v) :: rest => if strictEq k key then v else get rest key
  end.

(** [row[key] = v] on a plain object: the value is replaced where the key
    exists, else the property is added last.  Keys that are array indices
    (['0'], ['2024'], ...), which ECMAScript enumerates before the others
    and in ascending order, are not told apart: for such keys the order of
    [Object_keys] is not the engine's, the set of keys and the values are. *)
Fixpoint set (row : Row) (key : string) (v : JsValue) : Row :=
  match row with
  | [] => [(key, v)]
  | (k, old) :: rest =>
      if strictEq k key then (k, v) :: rest else (k, old) :: set rest key v
  end.

(** [typeof v === 'number'] and [typeof v === 'string']. *)
Definition typeofIsNumber (v : JsValue) : bool :=
  match v with
  | JNumber _ => true
  | _ => false
  end.

Definition typeofIsString (v : JsValue) : bool :=
  match v with
  | JString _ => true
  | _ => false
  end.

(** Truthiness of a value. *)
Definition truthyValue (v : JsValue) : bool :=
  match v with
  | JUndefined | JNull => false
  | JBool b => b
  | JNumber n => negb (Z.eqb n 0)
  | JString s => truthy s
  | JArray _ | JObject _ => true
  end.

(** [a || b] where [a] is a string or [undefined] ([None]). *)
Definition orElse (a b : option string) : option string :=
  match a with
  | Some s => if truthy s then Some s else b
  | None => b
  end.

(** *** [Array.prototype.find], said without the function

    [xs.find(test)] returns the first element of [xs] that passes the
    test, and [undefined] when none does.  [FirstWith P l x]: [x] is the
    first element of [l] of which [P] holds; [NoneWith P l]: [P] holds of
    no element of [l]. *)
Definition FirstWith {A : Type} (P : A -> Prop) (l : list A) (x : A) : Prop :=
  exists before after,
    l = (before ++ x :: after)%list /\ Forall (fun y => ~ P y) before /\ P x.

Definition NoneWith {A : Type} (P : A -> Prop) (l : list A) : Prop :=
  Forall (fun y => ~ P y) l.

End Js.

(* ===================================================================== *)
(** ** types.ts *)
(* ===================================================================== *)

(** Only the fields the engine reads are kept.  A column's [type] is kept
    as the string it is at run time: schemas come from JSON, and
    [getOperatorsForType] has a [default] branch for anything outside
    ['string' | 'number' | 'date' | 'boolean' | 'currency']. *)

Module ColumnDef.
Record t : Type := mk {
  id : string;
  name : string;
  type : string;
  alias : option string
}.
End ColumnDef.

(** [TableDef] and [ViewDef] agree on every field the engine reads, and the
    viewer stores either in the same variable, so one record serves both. *)
Module TableDef.
Record t : Type := mk {
  id : string;
  name : string;
  alias : option string;
  columns : list ColumnDef.t;
  exposed : bool
}.
End TableDef.

Module DataSource.
Record t : Type := mk {
  id : string;
  name : string;
  type : string;
  tables : list TableDef.t;
  views : option (list TableDef.t)
}.
End DataSource.

(** [FormattingConfig], as the types.ts that ReportBuilder.tsx imports
    declares it: a union tagged by [type], one variant per column type
    carrying its [DateFormatting], [NumberFormatting], [CurrencyFormatting],
    [BooleanFormatting] or [StringFormatting] as [config], and the variant
    [{ type: 'none' }]. *)
Module FormattingConfig.
Inductive SymbolPosition : Type := before | after.
Inductive t : Type :=
  | date (format : string)
  | number (decimalPlaces : N) (thousandSeparator : bool)
           (prefix suffix : option string)
  | currency (symbol : string) (decimalPlaces : N) (thousandSeparator : bool)
             (symbolPosition : SymbolPosition)
  | boolean (style : string)
  | string_ (case : option string) (truncate : option N)
  | none.
End FormattingConfig.

(** [formatting] is the property ReportBuilder.tsx stores on the columns it
    selects. *)
Module ReportColumn.
Record t : Type := mk {
  tableId : string;
  columnId : string;
  alias : option string;
  formatting : option FormattingConfig.t
}.
End ReportColumn.

(** [value2] is the second bound of a [between] filter. *)
Module FilterCondition.
Record t : Type := mk {
  id : string;
  tableId : string;
  columnId : string;
  operator : string;
  value : string;
  value2 : option string
}.
End FilterCondition.

Module SortDirection.
Inductive t : Type := asc | desc.
End SortDirection.

Module SortCondition.
Record t : Type := mk {
  tableId : string;
  columnId : string;
  direction : SortDirection.t
}.
End SortCondition.

Module VisualizationType.
Inductive t : Type := table | bar | line | pie | area.
End VisualizationType.

Module ReportConfig.
Record t : Type := mk {
  id : string;
  dataSourceId : string;
  name : string;
  selectedColumns : list ReportColumn.t;
  filters : list FilterCondition.t;
  sorts : list SortCondition.t;
  visualization : VisualizationType.t
}.
End ReportConfig.

(* ===================================================================== *)
(** ** components/ReportBuilder.tsx *)
(* ===================================================================== *)

Module ReportBuilder.

(** An entry of the operator drop-down: [{ value, label }]. *)
Record OperatorOption : Type := mkOp {
  value : string;
  label : string
}.

(** [getOperatorsForType]: the operators offered for a column type. *)
Definition getOperatorsForType (columnType : string) : list OperatorOption :=
  if Js.strictEq columnType "string" then
    [ mkOp "equals" "Equals";
      mkOp "not_equals" "Not Equals";
      mkOp "contains" "Contains";
      mkOp "not_contains" "Does Not Contain";
      mkOp "starts_with" "Starts With";
      mkOp "ends_with" "Ends With";
      mkOp "is_empty" "Is Empty";
      mkOp "is_not_empty" "Is Not Empty";
      mkOp "in" "In List" ]
  else if Js.strictEq columnType "number" || Js.strictEq columnType "currency" then
    [ mkOp "equals" "Equals";
      mkOp "not_equals" "Not Equals";
      mkOp "gt" "Greater Than";
      mkOp "gte" "Greater Than or Equal";
      mkOp "lt" "Less Than";
      mkOp "lte" "Less Than or Equal";
      mkOp "between" "Between";
      mkOp "is_null" "Is Null";
      mkOp "is_not_null" "Is Not Null" ]
  else if Js.strictEq columnType "date" then
    [ mkOp "equals" "On Date";
      mkOp "not_equals" "Not On Date";
      mkOp "gt" "After";
      mkOp "gte" "On or After";
      mkOp "lt" "Before";
      mkOp "lte" "On or Before";
      mkOp "between" "Between Dates";
      mkOp "is_null" "Is Null";
      mkOp "is_not_null" "Is Not Null";
      mkOp "today" "Is Today";
      mkOp "this_week" "This Week";
      mkOp "this_month" "This Month";
      mkOp "this_year" "This Year" ]
  else if Js.strictEq columnType "boolean" then
    [ mkOp "equals" "Is";
      mkOp "is_null" "Is Null";
      mkOp "is_not_null" "Is Not Null" ]
  else
    [ mkOp "equals" "Equals";
      mkOp "not_equals" "Not Equals";
      mkOp "contains" "Contains";
      mkOp "is_null" "Is Null";
      mkOp "is_not_null" "Is Not Null" ].

(** The operator names offered for a type. *)
Definition operatorsFor (columnType : string) : list string :=
  map value (getOperatorsForType columnType).

(** [allTablesAndViews]: [[...(ds.tables || []), ...(ds.views || [])]]. *)
Definition allTablesAndViews (selectedDs : option DataSource.t) : list TableDef.t :=
  match selectedDs with
  | Some ds => (DataSource.tables ds ++ Js.orEmpty (DataSource.views ds))%list
  | None => []
  end.

(** [getColumnType]: the type of a column found by table id and column id,
    ['string'] when either lookup fails or the type is empty. *)
Definition getColumnType (selectedDs : option DataSource.t)
    (tableId colId : string) : string :=
  match find (fun t => Js.strictEq (TableDef.id t) tableId)
             (allTablesAndViews selectedDs) with
  | Some t =>
      match find (fun c => Js.strictEq (ColumnDef.id c) colId)
                 (TableDef.columns t) with
      | Some c => if Js.truthy (ColumnDef.type c) then ColumnDef.type c else "string"
      | None => "string"
      end
  | None => "string"
  end.

(** [getDefaultFormatting]: the formatting given to a freshly selected
    column. *)
Definition getDefaultFormatting (columnType : string) : FormattingConfig.t :=
  if Js.strictEq columnType "date" then
    FormattingConfig.date "MM/DD/YYYY"
  else if Js.strictEq columnType "number" then
    FormattingConfig.number 2 true None None
  else if Js.strictEq columnType "currency" then
    FormattingConfig.currency "$" 2 true FormattingConfig.before
  else if Js.strictEq columnType "boolean" then
    FormattingConfig.boolean "true/false"
  else
    FormattingConfig.string_ (Some "none") None.

(** *** The builder's edits of the report configuration *)

(** [selectedDs]: [dataSources.find(d => d.id === config.dataSourceId)]. *)
Definition selectedDsOf (dataSources : list DataSource.t) (config : ReportConfig.t)
  : option DataSource.t :=
  find (fun d => Js.strictEq (DataSource.id d) (ReportConfig.dataSourceId config))
       dataSources.

(** [{ ...config, selectedColumns }] and [{ ...config, filters }]. *)
Definition withSelectedColumns (selected : list ReportColumn.t)
    (config : ReportConfig.t) : ReportConfig.t :=
  ReportConfig.mk (ReportConfig.id config) (ReportConfig.dataSourceId config)
    (ReportConfig.name config) selected (ReportConfig.filters config)
    (ReportConfig.sorts config) (ReportConfig.visualization config).

Definition withFilters (filters : list FilterCondition.t)
    (config : ReportConfig.t) : ReportConfig.t :=
  ReportConfig.mk (ReportConfig.id config) (ReportConfig.dataSourceId config)
    (ReportConfig.name config) (ReportConfig.selectedColumns config) filters
    (ReportConfig.sorts config) (ReportConfig.visualization config).

(** [handleDsChange]: another data source, and no selection left. *)
Definition handleDsChange (dsId : string) (config : ReportConfig.t) : ReportConfig.t :=
  ReportConfig.mk (ReportConfig.id config) dsId (ReportConfig.name config)
    [] [] [] (ReportConfig.visualization config).

(** The test of [toggleColumn]'s [find]:
    [c.tableId === tableId && c.columnId === columnId]. *)
Definition sameColumn (tableId columnId : string) (c : ReportColumn.t) : bool :=
  Js.strictEq (ReportColumn.tableId c) tableId
  && Js.strictEq (ReportColumn.columnId c) columnId.

(** What identifies a selected column: its table id and column id. *)
Definition columnKey (c : ReportColumn.t) : string * string :=
  (ReportColumn.tableId c, ReportColumn.columnId c).

(** [selectedColumns.filter(c => c !== exists)] where [exists] is the
    object [find] returned: the array without that object, which is the
    first one passing the test (the entries of the array are distinct
    objects, each made by an object literal or by [JSON.parse]). *)
Fixpoint withoutFirst {A : Type} (test : A -> bool) (l : list A) : list A :=
  match l with
  | [] => []
  | x :: rest => if test x then rest else x :: withoutFirst test rest
  end.

(** [toggleColumn]. *)
Definition toggleColumn (selectedDs : option DataSource.t) (tableId columnId : string)
    (config : ReportConfig.t) : ReportConfig.t :=
  match find (sameColumn tableId columnId) (ReportConfig.selectedColumns config) with
  | Some _ =>
      withSelectedColumns
        (withoutFirst (sameColumn tableId columnId) (ReportConfig.selectedColumns config))
        config
  | None =>
      let colType := getColumnType selectedDs tableId columnId in
      let defaultFormatting := getDefaultFormatting colType in
      withSelectedColumns
        (ReportConfig.selectedColumns config
           ++ [ReportColumn.mk tableId columnId None (Some defaultFormatting)])%list
        config
  end.

(** [updateColumnFormatting]. *)
Definition updateColumnFormatting (tableId columnId : string)
    (formatting : FormattingConfig.t) (config : ReportConfig.t) : ReportConfig.t :=
  withSelectedColumns
    (map (fun col =>
            if sameColumn tableId columnId col then
              ReportColumn.mk (ReportColumn.tableId col) (ReportColumn.columnId col)
                (ReportColumn.alias col) (Some formatting)
            else col)
         (ReportConfig.selectedColumns config))
    config.

(** How a handler ends: with the next configuration, or with a
    [TypeError] thrown on reading a property of [undefined]. *)
Inductive Outcome : Type :=
  | Done (config : ReportConfig.t)
  | TypeError.

(** [addFilter]; [uuid] is what [crypto.randomUUID()] returns. *)
Definition addFilter (selectedDs : option DataSource.t) (uuid : string)
    (config : ReportConfig.t) : Outcome :=
  match selectedDs with
  | None => Done config
  | Some _ =>
      match find (fun t => TableDef.exposed t) (allTablesAndViews selectedDs) with
      | None => Done config
      | Some firstTable =>
          match TableDef.columns firstTable with
          | [] => TypeError
          | first :: _ =>
              Done (withFilters
                      (ReportConfig.filters config
                         ++ [FilterCondition.mk uuid (TableDef.id firstTable)
                               (ColumnDef.id first) "equals" EmptyString None])%list
                      config)
          end
      end
  end.





(** [newFilters.splice(index, 1)]. *)
Fixpoint splice1 {A : Type} (index : nat) (l : list A) {struct l} : list A :=
  match l, index with
  | [], _ => []
  | _ :: rest, O => rest
  | x :: rest, S i => x :: splice1 i rest
  end.

(** [removeFilter]. *)
Definition removeFilter (index : nat) (config : ReportConfig.t) : ReportConfig.t :=
  withFilters (splice1 index (ReportConfig.filters config)) config.

(** [x.alias || x.name]. *)
Definition aliasOrName (alias : option string) (name : string) : string :=
  match alias with
  | Some a => if Js.truthy a then a else name
  | None => name
  end.

(** [getColName]: the label of a column in the formatting panel. *)
Definition getColName (selectedDs : option DataSource.t) (tableId colId : string)
  : string :=
  let t := find (fun t => Js.strictEq (TableDef.id t) tableId)
                (allTablesAndViews selectedDs) in
  let c := match t with
           | Some t => find (fun c => Js.strictEq (ColumnDef.id c) colId)
                            (TableDef.columns t)
           | None => None
           end in
  let tableLabel := match t with
                    | Some t => aliasOrName (TableDef.alias t) (TableDef.name t)
                    | None => tableId
                    end in
  let colLabel := match c with
                  | Some c => aliasOrName (ColumnDef.alias c) (ColumnDef.name c)
                  | None => colId
                  end in
  tableLabel ++ "." ++ colLabel.

(** The operators that take no value. *)
Definition noValueOperators : list string :=
  ["is_null"; "is_not_null"; "is_empty"; "is_not_empty";
   "today"; "this_week"; "this_month"; "this_year"].

(** [needsValueInput] and [needsTwoValues] of the filter panel. *)
Definition needsValueInput (operator : string) : bool :=
  negb (Js.includes noValueOperators operator).

Definition needsTwoValues (operator : string) : bool :=
  Js.strictEq operator "between".

(** The input elements of the filter panel. *)
Inductive ValueInput : Type :=
  | DateInput | NumberInput | BooleanSelect | TextInput.

(** The value input rendered for a filter, if any. *)
Definition valueInput (columnType operator : string) : option ValueInput :=
  if needsValueInput operator then
    if Js.strictEq columnType "date" then Some DateInput
    else if Js.strictEq columnType "number" || Js.strictEq columnType "currency"
    then Some NumberInput
    else if Js.strictEq columnType "boolean" then Some BooleanSelect
    else if Js.strictEq columnType "string" then Some TextInput
    else None
  else None.

(** The second value input rendered for a filter, if any. *)
Definition secondValueInput (columnType operator : string) : option ValueInput :=
  if needsTwoValues operator then
    if Js.strictEq columnType "date" then Some DateInput
    else if Js.strictEq columnType "number" || Js.strictEq columnType "currency"
    then Some NumberInput
    else None
  else None.

End ReportBuilder.

(* ===================================================================== *)
(** ** services/datasourceService.ts *)
(* ===================================================================== *)

Module DatasourceService.

(** [bodyPayload] of [fetchTableData]: the JSON body posted to
    [/datasources/query]. *)
Record BodyPayload : Type := mkBody {
  table : string;
  columns : list string;
  limit : N;
  dataSourceId : option string;
  dataSource : option DataSource.t
}.

(** [fetchTableData(dataSourceOrId, table, columns, limit = 5000000)] up to
    the [fetch]: the function declares four parameters, so whatever a
    caller passes after [limit] (here [rest]) is not read. *)
Definition fetchTableData_body (dataSourceOrId : string + DataSource.t)
    (table : string) (columns : list string) (limit : option N)
    (rest : list FilterCondition.t) : BodyPayload :=
  let limit := match limit with Some n => n | None => 5000000%N end in
  match dataSourceOrId with
  | inl id => mkBody table columns limit (Some id) None
  | inr ds => mkBody table columns limit None (Some ds)
  end.

(** [apiUrl]: the configured base URL ([raw] is the first non-empty of
    [VITE_API_URL], [API_URL], [process.env.API_URL], else the empty
    string) without one trailing slash. *)
Definition apiUrlOf (raw : string) : string :=
  if negb (Js.truthy raw) then EmptyString
  else if Js.endsWith raw "/" then Js.sliceDropLast raw
  else raw.

Definition slash : ascii := "/"%char.

(** [s.replace(/\/+$/, '')]: [s] without its trailing slashes. *)
Fixpoint stripTrailingSlashes (s : string) : string :=
  match s with
  | EmptyString => EmptyString
  | String c rest =>
      match stripTrailingSlashes rest with
      | EmptyString => if Ascii.eqb c slash then EmptyString else String c EmptyString
      | kept => String c kept
      end
  end.

(** [s.replace(/^\//, '')]: [s] without one leading slash. *)
Definition dropLeadingSlash (s : string) : string :=
  match Js.stripPrefix "/" s with
  | Some rest => rest
  | None => s
  end.

(** [s.replace(/^\/(api\/)?/, '')]: [s] without one leading slash and the
    [api/] that may follow it. *)
Definition dropLeadingSlashApi (s : string) : string :=
  match Js.stripPrefix "/" s with
  | Some rest =>
      match Js.stripPrefix "api/" rest with
      | Some rest' => rest'
      | None => rest
      end
  | None => s
  end.

(** [buildUrl], the helper every function of the service declares. *)
Definition buildUrl (apiUrl path : string) : string :=
  if negb (Js.truthy apiUrl) then "/" ++ dropLeadingSlash path
  else
    let base := stripTrailingSlashes apiUrl in
    if Js.endsWith base "/api" then base ++ "/" ++ dropLeadingSlashApi path
    else base ++ "/api/" ++ dropLeadingSlash path.

(** The URL [fetchTableData] posts to. *)
Definition fetchTableData_url (raw : string) : string :=
  buildUrl (apiUrlOf raw) "/datasources/query".

End DatasourceService.

(* ===================================================================== *)
(** ** components/ReportViewer.tsx *)
(* ===================================================================== *)

Module ReportViewer.

Inductive DataOrigin : Type := live | ai.

(** The component state held by the [useState] hooks.  [lastRun] is a
    timestamp, [executionMs] a number of milliseconds. *)
Record State : Type := mkState {
  data : list Js.Row;
  loading : bool;
  lastRun : option N;
  dataOrigin : option DataOrigin;
  recordsCount : option N;
  executionMs : option N;
  error : option string
}.

Definition initialState : State :=
  mkState [] false None None None None None.

Definition setData (v : list Js.Row) (s : State) : State :=
  mkState v (loading s) (lastRun s) (dataOrigin s) (recordsCount s) (executionMs s) (error s).
Definition setLoading (v : bool) (s : State) : State :=
  mkState (data s) v (lastRun s) (dataOrigin s) (recordsCount s) (executionMs s) (error s).
Definition setLastRun (v : option N) (s : State) : State :=
  mkState (data s) (loading s) v (dataOrigin s) (recordsCount s) (executionMs s) (error s).
Definition setDataOrigin (v : option DataOrigin) (s : State) : State :=
  mkState (data s) (loading s) (lastRun s) v (recordsCount s) (executionMs s) (error s).
Definition setRecordsCount (v : option N) (s : State) : State :=
  mkState (data s) (loading s) (lastRun s) (dataOrigin s) v (executionMs s) (error s).
Definition setExecutionMs (v : option N) (s : State) : State :=
  mkState (data s) (loading s) (lastRun s) (dataOrigin s) (recordsCount s) v (error s).
Definition setError (v : option string) (s : State) : State :=
  mkState (data s) (loading s) (lastRun s) (dataOrigin s) (recordsCount s) (executionMs s) v.

(** How an awaited promise settles. *)
Inductive Settled : Type :=
  | Resolved (rows : list Js.Row)
  | Rejected (reason : string).

(** What surrounds one run of [fetchData]: the two imported services
    ([generateReportData] of geminiService, [fetchTableData] of
    datasourceService, called with the five arguments the viewer passes),
    and the readings of [performance.now()] and [new Date()]. *)
Record Env : Type := mkEnv {
  generateReportData : DataSource.t -> ReportConfig.t -> N -> Settled;
  fetchTableData :
    DataSource.t -> string -> list string -> N -> list FilterCondition.t -> Settled;
  performance_start : N;
  performance_end : N;
  Date_now : N
}.

(** The calls [fetchData] makes to the two services, with their arguments. *)
Inductive Call : Type :=
  | CallGenerateReportData
      (dataSource : DataSource.t) (report : ReportConfig.t) (rowCount : N)
  | CallFetchTableData
      (dsArg : DataSource.t) (table : string) (columns : list string)
      (limit : N) (filters : list FilterCondition.t).

(** How the [try] block ends: by running to its end or to a [return], or
    by a rejected [await] caught by the [catch] clause. *)
Inductive Completion : Type :=
  | Normal (s : State)
  | Thrown (s : State).

(** [Math.round(performance.now() - start)]. *)
Definition elapsed (env : Env) : N := performance_end env - performance_start env.

(** [tableIds]: [Array.from(new Set(report.selectedColumns.map(c => c.tableId)))]. *)
Definition tableIdsOf (report : ReportConfig.t) : list string :=
  Js.Array_from_Set (map ReportColumn.tableId (ReportConfig.selectedColumns report)).

(** The callback of [tableIds.map] at the duplicate-id check: the name of
    the table, else view, whose [id] is the given one, else ['UNKNOWN']. *)
Definition tableViewNameOf (dataSource : DataSource.t) (id : string) : string :=
  match find (fun t => Js.strictEq (TableDef.id t) id) (DataSource.tables dataSource) with
  | Some item => TableDef.name item
  | None =>
      match find (fun v => Js.strictEq (TableDef.id v) id)
                 (Js.orEmpty (DataSource.views dataSource)) with
      | Some item => TableDef.name item
      | None => "UNKNOWN"
      end
  end.

Definition allTableViewNamesOf (dataSource : DataSource.t) (tableIds : list string)
  : list string :=
  map (tableViewNameOf dataSource) tableIds.

(** The message set when the selected columns span several sources. *)
Definition multiSourceMessage (tableIds allTableViewNames : list string) : string :=
  "Live data fetch supports reports which select columns from a single table or view only. Found "
  ++ Js.Number_toString (Js.Array_length tableIds)
  ++ " different sources: " ++ Js.join ", " allTableViewNames.

(** The block guarded by [if (tableIds.length !== 1)]: [Some message] when
    it sets the error and returns, [None] when control goes on. *)
Definition multiSourceCheck (dataSource : DataSource.t) (tableIds : list string)
  : option string :=
  if negb (N.eqb (Js.Array_length tableIds) 1) then
    let allTableViewNames := allTableViewNamesOf dataSource tableIds in
    let uniqueNames := Js.Array_from_Set allTableViewNames in
    match uniqueNames with
    | [only] =>
        if negb (Js.strictEq only "UNKNOWN") then None
        else Some (multiSourceMessage tableIds allTableViewNames)
    | _ => Some (multiSourceMessage tableIds allTableViewNames)
    end
  else None.

(** The variables the lookup loop assigns. *)
Record Target : Type := mkTarget {
  table : option TableDef.t;
  isView : bool;
  foundTableId : option string
}.

(** [for (const tableId of tableIds)]: the first id matched, by [id] or by
    [name], among the tables, else among the views. *)
Fixpoint findTarget (dataSource : DataSource.t) (isView0 : bool)
    (tableIds : list string) : Target :=
  match tableIds with
  | [] => mkTarget None isView0 None
  | tableId :: rest =>
      let byIdOrName t :=
        Js.strictEq (TableDef.id t) tableId || Js.strictEq (TableDef.name t) tableId in
      match find byIdOrName (DataSource.tables dataSource) with
      | Some t => mkTarget (Some t) isView0 (Some tableId)
      | None =>
          match find byIdOrName (Js.orEmpty (DataSource.views dataSource)) with
          | Some v => mkTarget (Some v) true (Some tableId)
          | None => findTarget dataSource false rest
          end
      end
  end.

Definition kindOf (isView : bool) : string := if isView then "view" else "table".

Definition targetMessage (isView : bool) (tableIds : list string) : string :=
  "Target " ++ kindOf isView
  ++ " not found or not exposed in datasource. Looking for IDs: "
  ++ Js.join ", " tableIds.

Definition columnMessage (isView : bool) (t : TableDef.t) (columnId : string) : string :=
  "Column " ++ columnId ++ " not found on " ++ kindOf isView ++ " "
  ++ TableDef.name t ++ ".".

(** [for (const rc of report.selectedColumns)], pushing physical column
    names on [cols]: [inr cols] at the end of the loop, [inl message] when
    a column is not found. *)
Fixpoint resolveColumns (t : TableDef.t) (isView : bool)
    (selected : list ReportColumn.t) (cols : list string) : string + list string :=
  match selected with
  | [] => inr cols
  | rc :: rest =>
      let columnId := ReportColumn.columnId rc in
      match find (fun cc => Js.strictEq (ColumnDef.id cc) columnId
                            || Js.strictEq (ColumnDef.name cc) columnId)
                 (TableDef.columns t) with
      | Some col => resolveColumns t isView rest (cols ++ [ColumnDef.name col])%list
      | None =>
          match find (fun cc => Js.strictEq (ColumnDef.name cc) columnId)
                     (TableDef.columns t) with
          | Some colByName =>
              resolveColumns t isView rest (cols ++ [ColumnDef.name colByName])%list
          | None => inl (columnMessage isView t columnId)
          end
      end
  end.

Definition fail (message : string) (s : State) : Completion * list Call :=
  (Normal (setData [] (setError (Some message) s)), []).

(** The body of the [try] block of [fetchData]. *)
Definition fetchDataTry (env : Env) (report : ReportConfig.t)
    (dataSource : option DataSource.t) (s : State) : Completion * list Call :=
  let isAiDatasource :=
    match dataSource with
    | Some ds => Js.strictEq (DataSource.type ds) "custom"
    | None => false
    end in
  match dataSource with
  | Some ds =>
      if isAiDatasource then
        let call := CallGenerateReportData ds report 100 in
        match generateReportData env ds report 100 with
        | Resolved result =>
            (Normal (setExecutionMs (Some (elapsed env))
                      (setRecordsCount (Some (Js.Array_length result))
                        (setLastRun (Some (Date_now env))
                          (setDataOrigin (Some ai)
                            (setData result s))))), [call])
        | Rejected _ => (Thrown s, [call])
        end
      else if N.eqb (Js.Array_length (ReportConfig.selectedColumns report)) 0 then
        fail "No columns selected for this report." s
      else
        let tableIds := tableIdsOf report in
        match multiSourceCheck ds tableIds with
        | Some message => fail message s
        | None =>
            let target := findTarget ds false tableIds in
            match table target with
            | None => fail (targetMessage (isView target) tableIds) s
            | Some t =>
                if negb (TableDef.exposed t) then
                  fail (targetMessage (isView target) tableIds) s
                else
                  match resolveColumns t (isView target)
                          (ReportConfig.selectedColumns report) [] with
                  | inl message => fail message s
                  | inr cols =>
                      let filters := ReportConfig.filters report in
                      let dsArg := ds in
                      let call :=
                        CallFetchTableData dsArg (TableDef.name t) cols 1000000 filters in
                      match fetchTableData env dsArg (TableDef.name t) cols 1000000 filters with
                      | Resolved rows =>
                          (Normal (setExecutionMs (Some (elapsed env))
                                    (setRecordsCount (Some (Js.Array_length rows))
                                      (setLastRun (Some (Date_now env))
                                        (setDataOrigin (Some live)
                                          (setData rows s))))), [call])
                      | Rejected _ => (Thrown s, [call])
                      end
                  end
            end
        end
  | None => fail "No data source configured for this report." s
  end.

(** [fetchData]: the state after the run and the service calls made. *)
Definition fetchData (env : Env) (report : ReportConfig.t)
    (dataSource : option DataSource.t) (s0 : State) : State * list Call :=
  let s := setExecutionMs None (setRecordsCount None (setError None (setLoading true s0))) in
  let '(completion, calls) := fetchDataTry env report dataSource s in
  let afterCatch :=
    match completion with
    | Normal s1 => s1
    | Thrown s1 => setData [] (setError (Some "Failed to fetch live data for this report.") s1)
    end in
  (setLoading false afterCatch, calls).

(** [x?.alias] used as a condition and then returned: the alias when it is
    present and not the empty string. *)
Definition truthyAlias (alias : option string) : option string :=
  match alias with
  | Some a => if Js.truthy a then Some a else None
  | None => None
  end.

(** [simpleName] of [getAliasForField]. *)
Definition simpleNameOf (fieldName : string) : string :=
  if Js.includesDot fieldName then Js.splitDotPop fieldName else fieldName.

(** [reportCol] of [getAliasForField]. *)
Definition reportColOf (report : ReportConfig.t) (fieldName : string)
  : option ReportColumn.t :=
  let simpleName := simpleNameOf fieldName in
  find (fun rc => Js.strictEq (ReportColumn.columnId rc) simpleName
                  || Js.strictEq (ReportColumn.columnId rc) fieldName)
       (ReportConfig.selectedColumns report).

(** [table] of [getAliasForField]: looked up only when the report's columns
    carry exactly one (non-empty) table id and a data source is present. *)
Definition aliasTableOf (report : ReportConfig.t) (dataSource : option DataSource.t)
  : option TableDef.t :=
  let tableIds := tableIdsOf report in
  let tableId := match tableIds with [only] => Some only | _ => None end in
  match dataSource, tableId with
  | Some ds, Some tid =>
      if Js.truthy tid then
        let byIdOrName t :=
          Js.strictEq (TableDef.id t) tid || Js.strictEq (TableDef.name t) tid in
        match find byIdOrName (DataSource.tables ds) with
        | Some t => Some t
        | None => find byIdOrName (Js.orEmpty (DataSource.views ds))
        end
      else None
  | _, _ => None
  end.

(** [col] of [getAliasForField]. *)
Definition schemaColOf (t : TableDef.t) (fieldName : string) : option ColumnDef.t :=
  let simpleName := simpleNameOf fieldName in
  find (fun cc => Js.strictEq (ColumnDef.name cc) simpleName
                  || Js.strictEq (ColumnDef.id cc) simpleName
                  || Js.strictEq (TableDef.name t ++ "." ++ ColumnDef.name cc) fieldName)
       (TableDef.columns t).

(** [getAliasForField]: the label shown for a raw field name. *)
Definition getAliasForField (report : ReportConfig.t) (dataSource : option DataSource.t)
    (fieldName : string) : string :=
  let simpleName := simpleNameOf fieldName in
  let reportCol := reportColOf report fieldName in
  match truthyAlias (match reportCol with
                     | Some rc => ReportColumn.alias rc
                     | None => None
                     end) with
  | Some alias => alias
  | None =>
      let fallback := if Js.truthy simpleName then simpleName else fieldName in
      match aliasTableOf report dataSource with
      | Some t =>
          match schemaColOf t fieldName with
          | Some col =>
              match truthyAlias (ColumnDef.alias col) with
              | Some alias => alias
              | None => fallback
              end
          | None => fallback
          end
      | None => fallback
      end
  end.

(** The content of a table cell:
    [typeof val === 'object' ? JSON.stringify(val) : String(val)]. *)
Definition renderCell (val : Js.JsValue) : string :=
  if Js.typeofIsObject val then
    match Js.JSON_stringify val with
    | Some text => text
    | None => EmptyString
    end
  else Js.String_of val.

(** What [renderVisuals] shows: a placeholder text, a chart drawn by the
    chart library from [data], or the table of its [default] branch. *)
Inductive Visual : Type :=
  | Placeholder (text : string)
  | Chart (kind : VisualizationType.t)
  | TableView (head : list string) (body : list (list string)).

(** [renderVisuals]. *)
Definition renderVisuals (report : ReportConfig.t) (dataSource : option DataSource.t)
    (s : State) : Visual :=
  if loading s then
    Placeholder (match dataOrigin s with
                 | Some ai => "Generating Report Data..."
                 | _ => "Fetching Live Data..."
                 end)
  else if N.eqb (Js.Array_length (data s)) 0 then
    Placeholder (match error s with
                 | Some message => if Js.truthy message then message else "No Data Available"
                 | None => "No Data Available"
                 end)
  else
    match ReportConfig.visualization report with
    | VisualizationType.bar => Chart VisualizationType.bar
    | VisualizationType.line => Chart VisualizationType.line
    | VisualizationType.pie => Chart VisualizationType.pie
    | _ =>
        TableView
          (map (getAliasForField report dataSource) (Js.Object_keys (hd [] (data s))))
          (map (fun row => map renderCell (Js.Object_values row)) (data s))
    end.

(** The state [fetchData] leaves, and the service calls it makes. *)
Definition stateAfter (env : Env) (report : ReportConfig.t)
    (dataSource : option DataSource.t) (s0 : State) : State :=
  fst (fetchData env report dataSource s0).

Definition callsOf (env : Env) (report : ReportConfig.t)
    (dataSource : option DataSource.t) (s0 : State) : list Call :=
  snd (fetchData env report dataSource s0).

Definition isLiveCall (c : Call) : bool :=
  match c with
  | CallFetchTableData _ _ _ _ _ => true
  | CallGenerateReportData _ _ _ => false
  end.

(** The checks a report passes on its way to the live fetch: some column
    is selected, the single-source check lets it through, the lookup loop
    finds [t], [t] is exposed, and every selected column resolves, giving
    the names [cols]. *)
Definition PassesValidation (dataSource : DataSource.t) (report : ReportConfig.t)
    (t : TableDef.t) (cols : list string) : Prop :=
  ReportConfig.selectedColumns report <> []
  /\ multiSourceCheck dataSource (tableIdsOf report) = None
  /\ table (findTarget dataSource false (tableIdsOf report)) = Some t
  /\ TableDef.exposed t = true
  /\ resolveColumns t (isView (findTarget dataSource false (tableIdsOf report)))
       (ReportConfig.selectedColumns report) [] = inr cols.

(** What a call asks the live service for, the data source set aside:
    table, columns, limit and filters ([None] for a generative call). *)
Definition requestOf (c : Call)
  : option (string * list string * N * list FilterCondition.t) :=
  match c with
  | CallFetchTableData _ t cols lim filters => Some (t, cols, lim, filters)
  | CallGenerateReportData _ _ _ => None
  end.

(** *** Chart keys and the Excel export *)

(** [getNumericKey]; [None] stands for [undefined] (a first row without
    keys). *)
Definition getNumericKey (data : list Js.Row) : option string :=
  match data with
  | [] => Some EmptyString
  | first :: _ =>
      let keys := Js.Object_keys first in
      Js.orElse
        (Js.orElse (find (fun k => Js.typeofIsNumber (Js.get first k)) keys)
                   (nth_error keys 1))
        (nth_error keys 0)
  end.

(** [getLabelKey]. *)
Definition getLabelKey (data : list Js.Row) : option string :=
  match data with
  | [] => Some EmptyString
  | first :: _ =>
      let keys := Js.Object_keys first in
      Js.orElse (find (fun k => Js.typeofIsString (Js.get first k)) keys)
                (nth_error keys 0)
  end.

(** [isEphemeral]: [!!dataSource && !dataSource.id]. *)
Definition isEphemeral (dataSource : option DataSource.t) : bool :=
  match dataSource with
  | Some ds => negb (Js.truthy (DataSource.id ds))
  | None => false
  end.

(** The value [handleExportToExcel] writes for a cell. *)
Definition exportValue (value : Js.JsValue) : Js.JsValue :=
  match value with
  | Js.JArray _ | Js.JObject _ =>
      Js.JString (match Js.JSON_stringify value with
                  | Some text => text
                  | None => EmptyString
                  end)
  | Js.JNull | Js.JUndefined => Js.JString EmptyString
  | _ => value
  end.

(** The callback of [data.map] in [handleExportToExcel]: a row with its
    keys replaced by their labels. *)
Definition exportRow (report : ReportConfig.t) (dataSource : option DataSource.t)
    (row : Js.Row) : Js.Row :=
  fold_left
    (fun formattedRow key =>
       Js.set formattedRow (getAliasForField report dataSource key)
              (exportValue (Js.get row key)))
    (Js.Object_keys row) [].

Definition exportDataOf (report : ReportConfig.t) (dataSource : option DataSource.t)
    (data : list Js.Row) : list Js.Row :=
  map (exportRow report dataSource) data.

(** [String(row[key] || '').length], in characters of [string]. *)
Definition cellLength (row : Js.Row) (key : string) : nat :=
  let v := Js.get row key in
  String.length (Js.String_of (if Js.truthyValue v then v else Js.JString EmptyString)).

(** [wch] of a column:
    [Math.min(Math.max(key.length, ...lengths of the first 100 rows) + 2, 50)]. *)
Definition columnWidth (exportData : list Js.Row) (key : string) : nat :=
  let maxLength :=
    fold_left Nat.max
      (map (fun row => cellLength row key) (firstn 100 exportData))
      (String.length key) in
  Nat.min (maxLength + 2) 50.

Definition colWidthsOf (exportData : list Js.Row) : list nat :=
  map (columnWidth exportData) (Js.Object_keys (hd [] exportData)).

(** The character class [[\\/?*[\]]] of the two [replace] calls. *)
Definition forbiddenInSheetName (c : ascii) : bool :=
  existsb (Ascii.eqb c) ["\"%char; "/"%char; "?"%char; "*"%char; "["%char; "]"%char].

Definition sanitizeName (s : string) : string :=
  Js.replaceClass forbiddenInSheetName "_"%char s.

(** [sheetName] and [filename]; [timestamp] is the formatted current time.
    Lengths and positions count the characters of [string], which are the
    UTF-16 code units of the source for names in ASCII. *)
Definition sheetNameOf (report : ReportConfig.t) : string :=
  sanitizeName (String.substring 0 31 (ReportConfig.name report)).

Definition filenameOf (report : ReportConfig.t) (timestamp : string) : string :=
  sanitizeName (ReportConfig.name report) ++ "_" ++ timestamp ++ ".xlsx".

(** What [handleExportToExcel] hands to the spreadsheet library. *)
Record Workbook : Type := mkWorkbook {
  sheetName : string;
  filename : string;
  rows : list Js.Row;
  cols : list nat
}.

Inductive ExportOutcome : Type :=
  | Alerted (message : string)
  | Written (workbook : Workbook).

(** [handleExportToExcel], the calls into the spreadsheet library taken to
    succeed. *)
Definition handleExportToExcel (report : ReportConfig.t)
    (dataSource : option DataSource.t) (timestamp : string) (data : list Js.Row)
  : ExportOutcome :=
  if N.eqb (Js.Array_length data) 0 then Alerted "No data available to export"
  else
    let exportData := exportDataOf report dataSource data in
    Written (mkWorkbook (sheetNameOf report) (filenameOf report timestamp)
               exportData (colWidthsOf exportData)).

End ReportViewer.

(* ===================================================================== *)
(** ** What the lookups of the viewer and of the builder find *)
(* ===================================================================== *)

(** Tables, views and columns are looked up with [Array.prototype.find].
    The predicates below say which element such a lookup finds, in terms
    of the schema and of the report alone. *)
Module Resolution.

(** A table or view answers to a reference by its [id] or by its [name]. *)
Definition NamedBy (tableId : string) (t : TableDef.t) : Prop :=
  TableDef.id t = tableId \/ TableDef.name t = tableId.

(** What a reference [tableId] leads to in a data source: the first table
    it names, or, when it names no table, the first view it names
    ([isView]). *)
Definition Found (ds : DataSource.t) (tableId : string) (t : TableDef.t)
    (isView : bool) : Prop :=
  (isView = false /\ Js.FirstWith (NamedBy tableId) (DataSource.tables ds) t)
  \/ (isView = true
      /\ Js.NoneWith (NamedBy tableId) (DataSource.tables ds)
      /\ Js.FirstWith (NamedBy tableId) (Js.orEmpty (DataSource.views ds)) t).

(** The report selects at least one column and all its selected columns
    carry the table id [tableId]. *)
Definition SingleSource (report : ReportConfig.t) (tableId : string) : Prop :=
  ReportConfig.selectedColumns report <> []
  /\ Forall (fun rc => ReportColumn.tableId rc = tableId)
            (ReportConfig.selectedColumns report).

(** A selected column answers to a raw field name when its [columnId] is
    that name or its trailing segment. *)
Definition Answers (fieldName : string) (rc : ReportColumn.t) : Prop :=
  ReportColumn.columnId rc = ReportViewer.simpleNameOf fieldName
  \/ ReportColumn.columnId rc = fieldName.

(** A column of the table [t] stands for a raw field name when its [name]
    or its [id] is the trailing segment, or when the table's name, a dot
    and the column's name make up the whole field name. *)
Definition StandsFor (t : TableDef.t) (fieldName : string) (cc : ColumnDef.t) : Prop :=
  ColumnDef.name cc = ReportViewer.simpleNameOf fieldName
  \/ ColumnDef.id cc = ReportViewer.simpleNameOf fieldName
  \/ TableDef.name t ++ "." ++ ColumnDef.name cc = fieldName.

(** [a] is the alias the report gives the field: the non-empty alias of
    the first selected column that answers to it. *)
Definition ReportAlias (report : ReportConfig.t) (fieldName a : string) : Prop :=
  exists rc,
    Js.FirstWith (Answers fieldName) (ReportConfig.selectedColumns report) rc
    /\ ReportColumn.alias rc = Some a
    /\ a <> EmptyString.

(** [a] is the alias the schema gives the field: the selected columns
    carry one, non-empty, table id, that id leads to a table or view of
    the data source, and [a] is the non-empty alias of the first column of
    it that stands for the field. *)
Definition SchemaAlias (report : ReportConfig.t) (dataSource : option DataSource.t)
    (fieldName a : string) : Prop :=
  exists ds tableId t isView col,
    dataSource = Some ds
    /\ SingleSource report tableId
    /\ tableId <> EmptyString
    /\ Found ds tableId t isView
    /\ Js.FirstWith (StandsFor t fieldName) (TableDef.columns t) col
    /\ ColumnDef.alias col = Some a
    /\ a <> EmptyString.

End Resolution.

(* ===================================================================== *)
(** ** services/geminiService.ts *)
(* ===================================================================== *)

Module GeminiService.

Definition GEMINI_MODEL : string := "gemini-2.5-flash".

Definition nl : string := String (ascii_of_nat 10) EmptyString.

(** How [ai.models.generateContent] settles: with a response whose [text]
    may be missing, or by rejecting. *)
Inductive Response : Type :=
  | ResponseText (text : option string)
  | ResponseError.

(** What surrounds one call: the configured API key ([getApiKey]), the
    model endpoint applied to [model] and [contents], and [JSON.parse]
    ([None] when it throws).  The parsed text is taken to be an array of
    rows, which is what the declared result [Promise<any[]>] and the
    prompt ask for; [generateReportData] itself does not look at what
    [JSON.parse] returns. *)
Record Env : Type := mkEnv {
  getApiKey : string;
  generateContent : string -> string -> Response;
  JSON_parse : string -> option (list Js.Row)
}.

(** [schemaDescription]. *)
Definition schemaDescription (dataSource : DataSource.t) : string :=
  Js.join (nl ++ nl)
    (map (fun t =>
            let cols :=
              Js.join ", "
                (map (fun c => ColumnDef.name c ++ " (" ++ ColumnDef.type c ++ ")")
                     (TableDef.columns t)) in
            "Table: " ++ TableDef.name t ++ nl ++ "Columns: " ++ cols)
         (filter (fun t => TableDef.exposed t) (DataSource.tables dataSource))).

(** [`${x?.name}`]: the name, or the text [undefined]. *)
Definition nameOrUndefined {A : Type} (name : A -> string) (x : option A) : string :=
  match x with
  | Some a => name a
  | None => "undefined"
  end.

(** The callback of [reportConfig.selectedColumns.map] in the prompt. *)
Definition columnNeeded (dataSource : DataSource.t) (c : ReportColumn.t) : string :=
  let table :=
    find (fun t => Js.strictEq (TableDef.id t) (ReportColumn.tableId c))
         (DataSource.tables dataSource) in
  let col :=
    match table with
    | Some t =>
        find (fun col => Js.strictEq (ColumnDef.id col) (ReportColumn.columnId c))
             (TableDef.columns t)
    | None => None
    end in
  nameOrUndefined TableDef.name table ++ "." ++ nameOrUndefined ColumnDef.name col.

(** Filters and sorts as the objects [JSON.stringify] sees, their keys in
    the order of the interface declarations, which is the order in which
    the builder creates them; a filter without [value2] has no such key. *)
Definition filterValue (f : FilterCondition.t) : Js.JsValue :=
  Js.JObject
    ([ ("id", Js.JString (FilterCondition.id f));
       ("tableId", Js.JString (FilterCondition.tableId f));
       ("columnId", Js.JString (FilterCondition.columnId f));
       ("operator", Js.JString (FilterCondition.operator f));
       ("value", Js.JString (FilterCondition.value f)) ]
     ++ match FilterCondition.value2 f with
        | Some v => [("value2", Js.JString v)]
        | None => []
        end)%list.

Definition sortValue (o : SortCondition.t) : Js.JsValue :=
  Js.JObject
    [ ("tableId", Js.JString (SortCondition.tableId o));
      ("columnId", Js.JString (SortCondition.columnId o));
      ("direction", Js.JString (match SortCondition.direction o with
                                | SortDirection.asc => "asc"
                                | SortDirection.desc => "desc"
                                end)) ].

Definition stringifyArray (items : list Js.JsValue) : string :=
  match Js.JSON_stringify (Js.JArray items) with
  | Some text => text
  | None => "undefined"
  end.

(** [queryDescription]: the prompt sent to the model. *)
Definition queryDescription (dataSource : DataSource.t) (reportConfig : ReportConfig.t)
    (rowCount : N) : string :=
  nl ++ "    Generate " ++ Js.Number_toString rowCount
     ++ " rows of realistic mock data for a report." ++ nl
  ++ "    " ++ nl
  ++ "    Data Source Schema:" ++ nl
  ++ "    " ++ schemaDescription dataSource ++ nl
  ++ nl
  ++ "    Report Requirements:" ++ nl
  ++ "    - Columns needed: "
     ++ Js.join ", " (map (columnNeeded dataSource) (ReportConfig.selectedColumns reportConfig))
     ++ nl
  ++ "    - Filters to apply (simulated): "
     ++ stringifyArray (map filterValue (ReportConfig.filters reportConfig)) ++ nl
  ++ "    - Sorting: "
     ++ stringifyArray (map sortValue (ReportConfig.sorts reportConfig)) ++ nl
  ++ "    " ++ nl
  ++ "    Return ONLY a JSON array of objects. Keys should match the requested columns." ++ nl
  ++ "    Make the data consistent and realistic." ++ nl
  ++ "  ".

(** [generateReportData]: the rows returned, and the prompts sent to the
    model on the way. *)
Definition generateReportData (env : Env) (dataSource : DataSource.t)
    (reportConfig : ReportConfig.t) (rowCount : N) : list Js.Row * list string :=
  let apiKey := getApiKey env in
  if negb (Js.truthy apiKey) then ([], [])
  else
    let prompt := queryDescription dataSource reportConfig rowCount in
    match generateContent env GEMINI_MODEL prompt with
    | ResponseText (Some text) =>
        if negb (Js.truthy text) then ([], [prompt])
        else
          match JSON_parse env text with
          | Some rows => (rows, [prompt])
          | None => ([], [prompt])
          end
    | ResponseText None => ([], [prompt])
    | ResponseError => ([], [prompt])
    end.

(** *** Schema discovery *)

(** A table and a column as the model returns them. *)
Module RawColumn.
Record t : Type := mk {
  name : string;
  type : string;
  alias : option string
}.
End RawColumn.

Module RawTable.
Record t : Type := mk {
  name : string;
  alias : option string;
  columns : list RawColumn.t
}.
End RawTable.

(** What surrounds one call of [discoverSchema]: the API key, the model
    endpoint, [JSON.parse] of its text ([None] when it throws or the
    result has not the shape read below), and the values
    [crypto.randomUUID()] returns, in the order of the calls. *)
Record DiscoveryEnv : Type := mkDiscoveryEnv {
  discoveryApiKey : string;
  discoveryContent : string -> string -> Response;
  parseTables : string -> option (list RawTable.t);
  randomUUID : nat -> string
}.

(** [x.alias || x.name]. *)
Definition aliasOrName (alias : option string) (name : string) : string :=
  match alias with
  | Some a => if Js.truthy a then a else name
  | None => name
  end.

(** [t.columns.map(c => ({ id: crypto.randomUUID(), ... }))], from the
    [next]-th identifier on. *)
Fixpoint hydrateColumns (uuid : nat -> string) (next : nat)
    (columns : list RawColumn.t) : list ColumnDef.t * nat :=
  match columns with
  | [] => ([], next)
  | c :: rest =>
      let col := ColumnDef.mk (uuid next) (RawColumn.name c) (RawColumn.type c)
                   (Some (aliasOrName (RawColumn.alias c) (RawColumn.name c))) in
      let '(cols, next') := hydrateColumns uuid (S next) rest in
      (col :: cols, next')
  end.

(** [rawTables.map(t => ({ id: crypto.randomUUID(), ..., exposed: true,
    columns: ... }))]. *)
Fixpoint hydrateTables (uuid : nat -> string) (next : nat)
    (rawTables : list RawTable.t) : list TableDef.t * nat :=
  match rawTables with
  | [] => ([], next)
  | t :: rest =>
      let '(cols, next') := hydrateColumns uuid (S next) (RawTable.columns t) in
      let tbl := TableDef.mk (uuid next) (RawTable.name t)
                   (Some (aliasOrName (RawTable.alias t) (RawTable.name t)))
                   cols true in
      let '(tables, next'') := hydrateTables uuid next' rest in
      (tbl :: tables, next'')
  end.

(** The prompt of [discoverSchema]. *)
Definition schemaPrompt (type dbName context : string) : string :=
  nl ++ "      You are a database architect." ++ nl
  ++ "      Generate a schema for a '" ++ type ++ "' database named '" ++ dbName ++ "'." ++ nl
  ++ "      Context: "
     ++ (if Js.truthy context then context else "General business database") ++ "." ++ nl
  ++ nl
  ++ "      Constraints:" ++ nl
  ++ "      1. Generate EXACTLY 3 tables." ++ nl
  ++ "      2. Each table has MAX 5 columns." ++ nl
  ++ "      3. Descriptions must be concise (< 10 words)." ++ nl
  ++ "      4. sampleValues must be short strings." ++ nl
  ++ "      5. Output valid JSON." ++ nl
  ++ "      " ++ nl
  ++ "      For each table/column include: name, alias, description, sampleValue." ++ nl
  ++ "      Column types must be one of: "
     ++ Js.join ", " (map Js.quoteJSONString ["string"; "number"; "date"; "boolean"; "currency"])
     ++ "." ++ nl
  ++ "    ".

(** [discoverSchema]: the tables returned, and the prompts sent. *)
Definition discoverSchema (env : DiscoveryEnv) (type dbName context : string)
  : list TableDef.t * list string :=
  if negb (Js.truthy (discoveryApiKey env)) then ([], [])
  else
    let prompt := schemaPrompt type dbName context in
    match discoveryContent env GEMINI_MODEL prompt with
    | ResponseText (Some text) =>
        if negb (Js.truthy text) then ([], [prompt])
        else
          match parseTables env text with
          | Some rawTables => (fst (hydrateTables (randomUUID env) 0 rawTables), [prompt])
          | None => ([], [prompt])
          end
    | ResponseText None => ([], [prompt])
    | ResponseError => ([], [prompt])
    end.

(** [generateSchemaFromDescription]. *)
Definition generateSchemaFromDescription (env : DiscoveryEnv) (description : string)
  : list TableDef.t * list string :=
  discoverSchema env "custom" "CustomDB" description.

End GeminiService.

(* ===================================================================== *)
(** ** components/DataSourceView.tsx *)
(* ===================================================================== *)

Module DataSourceView.

(** [formData], a [Partial<DataSource>]: the fields the handlers read. *)
Record FormData : Type := mkFormData {
  name : option string;
  type : option string;
  tables : option (list TableDef.t)
}.

Definition withTables (newTables : option (list TableDef.t)) (formData : FormData)
  : FormData :=
  mkFormData (name formData) (type formData) newTables.

(** [toggleTableExposure]. *)
Definition toggleTableExposure (tableId : string) (formData : FormData) : FormData :=
  withTables
    (option_map
       (map (fun t =>
               if Js.strictEq (TableDef.id t) tableId then
                 TableDef.mk (TableDef.id t) (TableDef.name t) (TableDef.alias t)
                   (TableDef.columns t) (negb (TableDef.exposed t))
               else t))
       (tables formData))
    formData.

(** The fields [updateTableMetadata] and [updateColumnMetadata] may set.
    Of these the embedding of the schema keeps [alias]; setting another
    one leaves the embedded record as it is. *)
Inductive TableField : Type := table_alias | table_description.
Inductive ColumnField : Type := column_alias | column_description | column_sampleValue.

(** [updateTableMetadata]. *)
Definition updateTableMetadata (id : string) (field : TableField) (value : string)
    (formData : FormData) : FormData :=
  withTables
    (option_map
       (map (fun t =>
               if Js.strictEq (TableDef.id t) id then
                 match field with
                 | table_alias =>
                     TableDef.mk (TableDef.id t) (TableDef.name t) (Some value)
                       (TableDef.columns t) (TableDef.exposed t)
                 | table_description => t
                 end
               else t))
       (tables formData))
    formData.

(** [updateColumnMetadata]. *)
Definition updateColumnMetadata (tableId colId : string) (field : ColumnField)
    (value : string) (formData : FormData) : FormData :=
  withTables
    (option_map
       (map (fun t =>
               if negb (Js.strictEq (TableDef.id t) tableId) then t
               else
                 TableDef.mk (TableDef.id t) (TableDef.name t) (TableDef.alias t)
                   (map (fun c =>
                           if Js.strictEq (ColumnDef.id c) colId then
                             match field with
                             | column_alias =>
                                 ColumnDef.mk (ColumnDef.id c) (ColumnDef.name c)
                                   (ColumnDef.type c) (Some value)
                             | _ => c
                             end
                           else c)
                        (TableDef.columns t))
                   (TableDef.exposed t)))
       (tables formData))
    formData.

(** The data source [handleSave] builds and hands to [onUpdate] or
    [onAdd]; [None] when the form has no name.  [uuid] is what
    [crypto.randomUUID()] returns.  The object has no [views] property. *)
Definition dataSourceToSave (editingId : option string) (uuid : string)
    (formData : FormData) : option DataSource.t :=
  match name formData with
  | Some n =>
      if Js.truthy n then
        Some (DataSource.mk
                (match editingId with
                 | Some id => if Js.truthy id then id else uuid
                 | None => uuid
                 end)
                n
                (match type formData with
                 | Some ty => if Js.truthy ty then ty else "custom"
                 | None => "custom"
                 end)
                (Js.orEmpty (tables formData))
                None)
      else None
  | None => None
  end.

(** [startEdit(ds)]: [setFormData({ ...ds })]. *)
Definition startEdit (ds : DataSource.t) : FormData :=
  mkFormData (Some (DataSource.name ds)) (Some (DataSource.type ds))
    (Some (DataSource.tables ds)).

End DataSourceView.

(* ===================================================================== *)
(** ** The type-operator table of the specification (section 4.2) *)
(* ===================================================================== *)

Module OperatorTable.

Definition knownTypes : list string :=
  ["string"; "number"; "currency"; "date"; "boolean"].

Definition stringOperators : list string :=
  ["equals"; "not_equals"; "contains"; "not_contains"; "starts_with";
   "ends_with"; "is_empty"; "is_not_empty"; "in"].

Definition numericOperators : list string :=
  ["equals"; "not_equals"; "gt"; "gte"; "lt"; "lte"; "between";
   "is_null"; "is_not_null"].

Definition dateOperators : list string :=
  ["equals"; "not_equals"; "gt"; "gte"; "lt"; "lte"; "between";
   "is_null"; "is_not_null"; "today"; "this_week"; "this_month"; "this_year"].

Definition booleanOperators : list string :=
  ["equals"; "is_null"; "is_not_null"].

Definition defaultOperators : list string :=
  ["equals"; "not_equals"; "contains"; "is_null"; "is_not_null"].

Definition relativeDateOperators : list string :=
  ["today"; "this_week"; "this_month"; "this_year"].

End OperatorTable.

(* ===================================================================== *)
(** ** Sample schemas and reports (those of the viewer's test-suite) *)
(* ===================================================================== *)

Module Samples.
Import ReportViewer.

Definition usersTable : TableDef.t :=
  TableDef.mk "table1" "users" None
    [ ColumnDef.mk "col1" "id" "number" None;
      ColumnDef.mk "col2" "name" "string" None;
      ColumnDef.mk "col3" "email" "string" None ]
    true.

Definition mockDataSource : DataSource.t :=
  DataSource.mk "ds1" "Test Database" "postgres" [usersTable] (Some []).

Definition aiDataSource : DataSource.t :=
  DataSource.mk "ds1" "Test Database" "custom" [usersTable] (Some []).

Definition reportOf (selected : list ReportColumn.t)
    (filters : list FilterCondition.t) (sorts : list SortCondition.t)
  : ReportConfig.t :=
  ReportConfig.mk "report1" "ds1" "Test Report" selected filters sorts
    VisualizationType.table.

Definition mockColumns : list ReportColumn.t :=
  [ ReportColumn.mk "table1" "col1" None None;
    ReportColumn.mk "table1" "col2" None None ].

Definition mockReport : ReportConfig.t := reportOf mockColumns [] [].

Definition reportNoColumns : ReportConfig.t := reportOf [] [] [].

Definition sortByName : SortCondition.t :=
  SortCondition.mk "table1" "col2" SortDirection.asc.

Definition reportWithSorts : ReportConfig.t := reportOf mockColumns [] [sortByName].

(** A filter whose operator the builder offers for [string] columns only,
    put on the [number] column [id]. *)
Definition startsWithOnNumber : FilterCondition.t :=
  FilterCondition.mk "f1" "table1" "col1" "starts_with" "A" None.

Definition reportWithBadFilter : ReportConfig.t :=
  reportOf mockColumns [startsWithOnNumber] [].

Definition alice : Js.Row :=
  [ ("id", Js.JNumber 1); ("name", Js.JString "Alice");
    ("email", Js.JString "alice@test.com") ].

Definition bob : Js.Row :=
  [ ("id", Js.JNumber 2); ("name", Js.JString "Bob");
    ("email", Js.JString "bob@test.com") ].

(** Both services resolve: the live one with two rows, the generative one
    with a single generated row. *)
Definition envRows : Env :=
  mkEnv (fun _ _ _ => Resolved [[("id", Js.JNumber 1); ("name", Js.JString "Generated")]])
        (fun _ _ _ _ _ => Resolved [alice; bob])
        0 12 1700000000000.

(** A schema with a table switched off for reporting. *)
Definition salariesTable : TableDef.t :=
  TableDef.mk "table2" "salaries" None
    [ ColumnDef.mk "c9" "ssn" "string" None ]
    false.

Definition dsWithHidden : DataSource.t :=
  DataSource.mk "ds1" "Test Database" "postgres" [usersTable; salariesTable] (Some []).

Definition aiWithHidden : DataSource.t :=
  DataSource.mk "ds1" "Test Database" "custom" [usersTable; salariesTable] (Some []).

Definition reportOnHidden : ReportConfig.t :=
  reportOf [ReportColumn.mk "table2" "c9" None None] [] [].

(** Two tables that share a name under different ids, the artifact the
    duplicate-id check of the viewer is written for. *)
Definition twinTables (name : string) : list TableDef.t :=
  [ TableDef.mk "t-1" name None
      [ ColumnDef.mk "c1" "id" "number" None;
        ColumnDef.mk "c2" "total" "currency" None ] true;
    TableDef.mk "t-2" name None
      [ ColumnDef.mk "c1" "id" "number" None;
        ColumnDef.mk "c2" "total" "currency" None ] true ].

Definition dsTwins (name : string) : DataSource.t :=
  DataSource.mk "ds2" "Orders Database" "postgres" (twinTables name) (Some []).

Definition reportOnTwins : ReportConfig.t :=
  reportOf [ ReportColumn.mk "t-1" "c1" None None;
             ReportColumn.mk "t-2" "c2" None None ] [] [].

(** The table [users] referred to once by its id and once by its name. *)
Definition reportByIdAndName : ReportConfig.t :=
  reportOf [ ReportColumn.mk "table1" "col1" None None;
             ReportColumn.mk "users" "col2" None None ] [] [].

(** The date column and report of the test [applies date formatting to date
    columns], with the row its live service resolves to. *)
Definition dsWithDate : DataSource.t :=
  DataSource.mk "ds1" "Test Database" "postgres"
    [ TableDef.mk "table1" "users" None
        [ ColumnDef.mk "col1" "created_at" "date" None ] true ]
    (Some []).

Definition reportWithDate : ReportConfig.t :=
  reportOf [ ReportColumn.mk "table1" "col1" None
               (Some (FormattingConfig.date "MM/DD/YYYY")) ] [] [].

Definition envDate : Env :=
  mkEnv (fun _ _ _ => Resolved [])
        (fun _ _ _ _ _ => Resolved [[("created_at", Js.JString "2024-01-15")]])
        0 12 1700000000000.

Definition stateWithDate : State :=
  stateAfter envDate reportWithDate (Some dsWithDate) initialState.

(** The same report with the [formatting] of every column removed. *)
Definition withoutFormatting (report : ReportConfig.t) : ReportConfig.t :=
  ReportConfig.mk (ReportConfig.id report) (ReportConfig.dataSourceId report)
    (ReportConfig.name report)
    (map (fun rc => ReportColumn.mk (ReportColumn.tableId rc) (ReportColumn.columnId rc)
                      (ReportColumn.alias rc) None)
         (ReportConfig.selectedColumns report))
    (ReportConfig.filters report) (ReportConfig.sorts report)
    (ReportConfig.visualization report).

(** A model endpoint that answers with an empty JSON array. *)
Definition geminiEnv : GeminiService.Env :=
  GeminiService.mkEnv "test-key"
    (fun _ _ => GeminiService.ResponseText (Some "[]"))
    (fun _ => Some []).

(** The same report with other sort conditions. *)
Definition withSorts (sorts : list SortCondition.t) (report : ReportConfig.t)
  : ReportConfig.t :=
  ReportConfig.mk (ReportConfig.id report) (ReportConfig.dataSourceId report)
    (ReportConfig.name report) (ReportConfig.selectedColumns report)
    (ReportConfig.filters report) sorts (ReportConfig.visualization report).

End Samples.

(* ===================================================================== *)
(** ** More sample inputs *)
(* ===================================================================== *)

Module MoreSamples.
Import ReportViewer Samples.

(** Both services reject. *)
Definition envFailing : Env :=
  mkEnv (fun _ _ _ => Rejected "quota exceeded")
        (fun _ _ _ _ _ => Rejected "Database connection failed")
        0 12 1700000000000.

(** The report of the test [displays error for multiple tables/views]. *)
Definition reportMultipleTables : ReportConfig.t :=
  reportOf [ ReportColumn.mk "table1" "col1" None None;
             ReportColumn.mk "table2" "col1" None None ] [] [].

(** A report with a column the table [users] does not have. *)
Definition reportUnknownColumn : ReportConfig.t :=
  reportOf [ ReportColumn.mk "table1" "col1" None None;
             ReportColumn.mk "table1" "col9" None None ] [] [].

(** A schema with aliases, and a view. *)
Definition ordersTable : TableDef.t :=
  TableDef.mk "t-orders" "orders" (Some "Orders")
    [ ColumnDef.mk "c-id" "id" "number" (Some "Order No");
      ColumnDef.mk "c-total" "total" "currency" None ]
    true.

Definition recentOrdersView : TableDef.t :=
  TableDef.mk "v-recent" "recent_orders" None
    [ ColumnDef.mk "c-id" "id" "number" None ]
    true.

Definition dsOrders : DataSource.t :=
  DataSource.mk "ds3" "Orders Database" "postgres" [ordersTable]
    (Some [recentOrdersView]).

Definition reportOnOrders : ReportConfig.t :=
  reportOf [ ReportColumn.mk "t-orders" "c-id" None None;
             ReportColumn.mk "t-orders" "c-total" None None ] [] [].

Definition reportOnView : ReportConfig.t :=
  reportOf [ ReportColumn.mk "v-recent" "c-id" None None ] [] [].

(** A row with a structured and a missing value, and a long text. *)
Definition oddRow : Js.Row :=
  [ ("id", Js.JNumber 7);
    ("tags", Js.JArray [Js.JString "a"; Js.JString "b"]);
    ("note", Js.JNull);
    ("total",
     Js.JString "a rather long text that takes more than fifty characters to write down") ].

(** A schema as the model may return it. *)
Definition rawSchema : list GeminiService.RawTable.t :=
  [ GeminiService.RawTable.mk "employees" (Some "Staff")
      [ GeminiService.RawColumn.mk "id" "number" None;
        GeminiService.RawColumn.mk "hired" "date" (Some "Hired on") ];
    GeminiService.RawTable.mk "departments" None
      [ GeminiService.RawColumn.mk "name" "string" None ] ].

(** Identifiers that never repeat: the [n]-th is made of [n] letters. *)
Fixpoint tally (n : nat) : string :=
  match n with
  | O => EmptyString
  | S k => String "i"%char (tally k)
  end.

Definition discoveryEnv : GeminiService.DiscoveryEnv :=
  GeminiService.mkDiscoveryEnv "test-key"
    (fun _ _ => GeminiService.ResponseText (Some "[...]"))
    (fun _ => Some rawSchema)
    (fun n => "uuid-" ++ tally n).

(** A report under construction, with nothing selected yet. *)
Definition newReport : ReportConfig.t := reportOf [] [] [].

(** Two tables named [orders], the second one hidden. *)
Definition dsHiddenTwin : DataSource.t :=
  DataSource.mk "ds2" "Orders Database" "postgres"
    [ TableDef.mk "t-1" "orders" None
        [ ColumnDef.mk "c1" "id" "number" None;
          ColumnDef.mk "c2" "total" "currency" None ] true;
      TableDef.mk "t-2" "orders" None
        [ ColumnDef.mk "c1" "id" "number" None;
          ColumnDef.mk "c2" "total" "currency" None ] false ]
    (Some []).

(** The sample report with a filter on the hidden table [salaries]. *)
Definition reportFilteringHidden : ReportConfig.t :=
  reportOf mockColumns
    [FilterCondition.mk "f1" "table2" "c9" "equals" "123-45-6789" None] [].

(** A report on [orders] that refers to the table and to its columns by
    name, and gives the column [total] an alias of its own. *)
Definition reportAliased : ReportConfig.t :=
  reportOf [ ReportColumn.mk "orders" "total" (Some "Amount") None;
             ReportColumn.mk "orders" "id" None None ] [] [].

End MoreSamples.

(* ===================================================================== *)
(** * Properties *)
(* ===================================================================== *)

(* ===================================================================== *)
(** ** [Array.prototype.find] and the first element with a property *)
(* ===================================================================== *)

Module FindFacts.

Section Reflected.
Context {A : Type} (p : A -> bool) (P : A -> Prop).
Hypothesis p_spec : forall y, p y = true <-> P y.

(** [find] returns the first element of which the property holds. *)
Lemma find_first_iff (l : list A) (x : A) :
  find p l = Some x <-> Js.FirstWith P l x.
Proof.
  split.
  - induction l as [| a rest IH]; simpl; [discriminate |].
    destruct (p a) eqn:E.
    + intros H. injection H as <-. exists [], rest.
      split; [reflexivity |]. split; [constructor | apply p_spec; exact E].
    + intros H. destruct (IH H) as (before & after & -> & Hnone & Hx).
      exists (a :: before), after.
      split; [reflexivity |]. split; [| exact Hx].
      constructor; [| exact Hnone].
      intros HP. apply p_spec in HP. congruence.
  - intros (before & after & -> & Hnone & Hx).
    induction before as [| a rest IH]; simpl.
    + apply p_spec in Hx. rewrite Hx. reflexivity.
    + inversion Hnone as [| ? ? Ha Hrest]; subst.
      destruct (p a) eqn:E; [apply p_spec in E; contradiction |].
      apply IH. exact Hrest.
Qed.

(** [find] returns nothing exactly when the property holds nowhere. *)
Lemma find_none_iff (l : list A) : find p l = None <-> Js.NoneWith P l.
Proof.
  unfold Js.NoneWith. induction l as [| a rest IH]; simpl.
  - split; [constructor | reflexivity].
  - destruct (p a) eqn:E.
    + split; [discriminate |].
      intros H. inversion H as [| ? ? Ha _]; subst.
      apply p_spec in E. contradiction.
    + rewrite IH. split.
      * intros H. constructor; [| exact H].
        intros HP. apply p_spec in HP. congruence.
      * intros H. inversion H; assumption.
Qed.

End Reflected.

(** The tests the viewer passes to [find], and what they decide. *)
Lemma namedBy_spec (tableId : string) (t : TableDef.t) :
  Js.strictEq (TableDef.id t) tableId || Js.strictEq (TableDef.name t) tableId = true
  <-> Resolution.NamedBy tableId t.
Proof.
  unfold Resolution.NamedBy, Js.strictEq.
  rewrite orb_true_iff, !String.eqb_eq. reflexivity.
Qed.

Lemma answers_spec (fieldName : string) (rc : ReportColumn.t) :
  Js.strictEq (ReportColumn.columnId rc) (ReportViewer.simpleNameOf fieldName)
  || Js.strictEq (ReportColumn.columnId rc) fieldName = true
  <-> Resolution.Answers fieldName rc.
Proof.
  unfold Resolution.Answers, Js.strictEq.
  rewrite orb_true_iff, !String.eqb_eq. reflexivity.
Qed.

Lemma standsFor_spec (t : TableDef.t) (fieldName : string) (cc : ColumnDef.t) :
  Js.strictEq (ColumnDef.name cc) (ReportViewer.simpleNameOf fieldName)
  || Js.strictEq (ColumnDef.id cc) (ReportViewer.simpleNameOf fieldName)
  || Js.strictEq (TableDef.name t ++ "." ++ ColumnDef.name cc) fieldName = true
  <-> Resolution.StandsFor t fieldName cc.
Proof.
  unfold Resolution.StandsFor, Js.strictEq.
  rewrite !orb_true_iff, !String.eqb_eq. tauto.
Qed.

End FindFacts.

(* ===================================================================== *)
(** ** The type-operator matrix *)
(* ===================================================================== *)

Module OperatorMatrix.
Import ReportBuilder OperatorTable.

(** The five shapes the result can take, one per branch of the [switch]. *)
Lemma operatorsFor_cases (T : string) :
  (T = "string" /\ operatorsFor T = stringOperators)
  \/ ((T = "number" \/ T = "currency") /\ operatorsFor T = numericOperators)
  \/ (T = "date" /\ operatorsFor T = dateOperators)
  \/ (T = "boolean" /\ operatorsFor T = booleanOperators)
  \/ (~ In T knownTypes /\ operatorsFor T = defaultOperators).
Proof.
  unfold operatorsFor, getOperatorsForType, Js.strictEq.
  destruct (String.eqb_spec T "string") as [E1 | N1]; [left; now split |].
  destruct (String.eqb_spec T "number") as [E2 | N2];
    [right; left; split; [now left | reflexivity] |].
  destruct (String.eqb_spec T "currency") as [E3 | N3];
    [right; left; split; [now right | reflexivity] |].
  destruct (String.eqb_spec T "date") as [E4 | N4];
    [right; right; left; now split |].
  destruct (String.eqb_spec T "boolean") as [E5 | N5];
    [right; right; right; left; now split |].
  right; right; right; right. split; [| reflexivity].
  simpl. intros [H | [H | [H | [H | [H | []]]]]]; congruence.
Qed.

Lemma NoDup_by_nodup (l : list string) : nodup string_dec l = l -> NoDup l.
Proof. intros E. rewrite <- E. apply NoDup_nodup. Qed.

(** C8: for each of the five column types and for any other type name the
    operators returned are exactly those of the type-operator table; the
    list is never empty and never repeats an operator; [starts_with] is
    returned for [string] only and the relative-date shorthands for [date]
    only. *)
Theorem getOperatorsForType_matches_table :
  operatorsFor "string" = stringOperators
  /\ operatorsFor "number" = numericOperators
  /\ operatorsFor "currency" = numericOperators
  /\ operatorsFor "date" = dateOperators
  /\ operatorsFor "boolean" = booleanOperators
  /\ (forall T, ~ In T knownTypes -> operatorsFor T = defaultOperators)
  /\ (forall T, operatorsFor T <> [] /\ NoDup (operatorsFor T))
  /\ (forall T, In "starts_with" (operatorsFor T) <-> T = "string")
  /\ (forall T op, In op relativeDateOperators ->
        (In op (operatorsFor T) <-> T = "date")).
Proof.
  split; [reflexivity |]. split; [reflexivity |]. split; [reflexivity |].
  split; [reflexivity |]. split; [reflexivity |].
  split; [| split; [| split]].
  - intros T H.
    destruct (operatorsFor_cases T)
      as [[E _] | [[E _] | [[E _] | [[E _] | [_ R]]]]]; try exact R;
      exfalso; apply H; simpl; intuition.
  - intros T.
    destruct (operatorsFor_cases T)
      as [[_ R] | [[_ R] | [[_ R] | [[_ R] | [_ R]]]]];
      rewrite R; (split; [discriminate | apply NoDup_by_nodup; reflexivity]).
  - intros T. split.
    + destruct (operatorsFor_cases T)
        as [[E R] | [[E R] | [[E R] | [[E R] | [E R]]]]];
        rewrite R; simpl; intros H; try exact E;
        repeat (destruct H as [H | H]; [discriminate H |]); contradiction.
    + intros ->. simpl. tauto.
  - intros T op H. split.
    + destruct (operatorsFor_cases T)
        as [[E R] | [[E R] | [[E R] | [[E R] | [E R]]]]];
        rewrite R; intros Hin; try exact E; exfalso;
        simpl in H, Hin;
        repeat (destruct H as [H | H]; [subst op |]); try contradiction;
        repeat (destruct Hin as [Hin | Hin]; [discriminate Hin |]); contradiction.
    + intros ->. simpl in *. tauto.
Qed.

(** The statement above at a type name outside the five ([integer], as
    schema discovery may report it) and at the operator [today]. *)
Lemma getOperatorsForType_matches_table_witness :
  operatorsFor "integer" = defaultOperators
  /\ (In "today" (operatorsFor "date") <-> "date" = "date").
Proof.
  destruct getOperatorsForType_matches_table
    as (_ & _ & _ & _ & _ & Hdefault & _ & _ & Hrel).
  split.
  - apply Hdefault. simpl.
    intros [H | [H | [H | [H | [H | []]]]]]; discriminate H.
  - apply Hrel. simpl. tauto.
Defined.

End OperatorMatrix.

(* ===================================================================== *)
(** ** The data acquisition dispatcher ([fetchData]) *)
(* ===================================================================== *)

Module Dispatch.
Import ReportViewer Samples.

Lemma not_custom (ds : DataSource.t) :
  DataSource.type ds <> "custom" -> Js.strictEq (DataSource.type ds) "custom" = false.
Proof. intros H. apply String.eqb_neq. exact H. Qed.

Lemma is_custom (ds : DataSource.t) :
  DataSource.type ds = "custom" -> Js.strictEq (DataSource.type ds) "custom" = true.
Proof. intros H. apply String.eqb_eq. exact H. Qed.

Lemma length_is_zero {A : Type} (l : list A) :
  N.eqb (Js.Array_length l) 0 = true <-> l = [].
Proof.
  destruct l as [| x l]; simpl.
  - split; reflexivity.
  - split; discriminate.
Qed.

Lemma length_not_zero {A : Type} (l : list A) :
  l <> [] -> N.eqb (Js.Array_length l) 0 = false.
Proof.
  intros H. destruct (N.eqb (Js.Array_length l) 0) eqn:E; [| reflexivity].
  apply length_is_zero in E. contradiction.
Qed.

(** Opens [fetchData] on a source known not to be ['custom']. *)
Ltac enter_live_path Hty :=
  unfold stateAfter, callsOf, fetchData, fetchDataTry;
  rewrite (not_custom _ Hty).

(** A custom source: exactly one call, to the generative service. *)
Lemma fetchData_custom env report ds s :
  DataSource.type ds = "custom" ->
  callsOf env report (Some ds) s = [CallGenerateReportData ds report 100].
Proof.
  intros H. unfold callsOf, fetchData, fetchDataTry.
  rewrite (is_custom ds H).
  destruct (generateReportData env ds report 100); reflexivity.
Qed.

(** No data source: no call. *)
Lemma fetchData_no_source env report s :
  callsOf env report None s = []
  /\ error (stateAfter env report None s)
     = Some "No data source configured for this report.".
Proof. split; reflexivity. Qed.

(** A live source whose report passes the checks: exactly one call, to the
    live service, for the table found, the column names resolved, the
    fixed limit and the report's filters. *)
Lemma fetchData_live_call env report ds s t cols :
  DataSource.type ds <> "custom" ->
  PassesValidation ds report t cols ->
  callsOf env report (Some ds) s
  = [CallFetchTableData ds (TableDef.name t) cols 1000000 (ReportConfig.filters report)].
Proof.
  intros Hty (Hsel & Hmulti & Htab & Hexp & Hcols).
  enter_live_path Hty.
  rewrite (length_not_zero _ Hsel), Hmulti, Htab, Hexp.
  cbn [negb]. rewrite Hcols.
  destruct (fetchTableData env ds (TableDef.name t) cols 1000000
              (ReportConfig.filters report)); reflexivity.
Qed.

(** Conversely, a live source is only ever called that way. *)
Lemma fetchData_live_call_inv env report ds s c :
  DataSource.type ds <> "custom" ->
  In c (callsOf env report (Some ds) s) ->
  exists t cols,
    PassesValidation ds report t cols
    /\ c = CallFetchTableData ds (TableDef.name t) cols 1000000
             (ReportConfig.filters report).
Proof.
  intros Hty. enter_live_path Hty.
  destruct (N.eqb (Js.Array_length (ReportConfig.selectedColumns report)) 0) eqn:Hsel;
    [intros [] |].
  destruct (multiSourceCheck ds (tableIdsOf report)) eqn:Hmulti; [intros [] |].
  destruct (table (findTarget ds false (tableIdsOf report))) as [t |] eqn:Htab;
    [| intros []].
  destruct (TableDef.exposed t) eqn:Hexp; cbn [negb]; [| intros []].
  destruct (resolveColumns t (isView (findTarget ds false (tableIdsOf report)))
              (ReportConfig.selectedColumns report) []) as [msg | cols] eqn:Hcols;
    [intros [] |].
  intros Hin. exists t, cols. split.
  - repeat split; try assumption.
    intros E. rewrite E in Hsel. discriminate Hsel.
  - destruct (fetchTableData env ds (TableDef.name t) cols 1000000
                (ReportConfig.filters report));
      destruct Hin as [<- | []]; reflexivity.
Qed.

(** A live source whose report does not reach the fetch leaves an error
    message and no rows. *)
Lemma fetchData_live_failure env report ds s :
  DataSource.type ds <> "custom" ->
  callsOf env report (Some ds) s = [] ->
  data (stateAfter env report (Some ds) s) = []
  /\ error (stateAfter env report (Some ds) s) <> None.
Proof.
  intros Hty. enter_live_path Hty.
  destruct (N.eqb (Js.Array_length (ReportConfig.selectedColumns report)) 0);
    [intros _; split; [reflexivity | discriminate] |].
  destruct (multiSourceCheck ds (tableIdsOf report));
    [intros _; split; [reflexivity | discriminate] |].
  destruct (table (findTarget ds false (tableIdsOf report))) as [t |];
    [| intros _; split; [reflexivity | discriminate]].
  destruct (TableDef.exposed t); cbn [negb];
    [| intros _; split; [reflexivity | discriminate]].
  destruct (resolveColumns t (isView (findTarget ds false (tableIdsOf report)))
              (ReportConfig.selectedColumns report) []) as [msg | cols];
    [intros _; split; [reflexivity | discriminate] |].
  destruct (fetchTableData env ds (TableDef.name t) cols 1000000
              (ReportConfig.filters report)); discriminate.
Qed.

(** C3: a ['custom'] data source makes [fetchData] call the generative
    service (once) and never the live one; any other type never makes it
    call the generative service, whatever call it makes is a live one. *)
Theorem fetchData_routes_by_type env report ds s :
  (DataSource.type ds = "custom" ->
     callsOf env report (Some ds) s = [CallGenerateReportData ds report 100])
  /\ (DataSource.type ds <> "custom" ->
     forall c, In c (callsOf env report (Some ds) s) -> isLiveCall c = true).
Proof.
  split.
  - apply fetchData_custom.
  - intros Hty c Hin.
    destruct (fetchData_live_call_inv env report ds s c Hty Hin)
      as (t & cols & _ & ->).
    reflexivity.
Qed.

(** The routing at the custom sample source and at the live one, whose
    one call is a live call. *)
Lemma fetchData_routes_by_type_witness :
  callsOf envRows mockReport (Some aiDataSource) initialState
  = [CallGenerateReportData aiDataSource mockReport 100]
  /\ isLiveCall
       (CallFetchTableData mockDataSource "users" ["id"; "name"] 1000000 []) = true.
Proof.
  split.
  - apply (proj1 (fetchData_routes_by_type envRows mockReport aiDataSource initialState)).
    reflexivity.
  - apply (proj2 (fetchData_routes_by_type envRows mockReport mockDataSource initialState)).
    + discriminate.
    + vm_compute. left. reflexivity.
Defined.

(** C2, as stated for every type of source, does not hold: with a
    ['custom'] source the generative service is called before the selected
    columns are looked at. *)
Lemma no_columns_check_skipped_for_custom :
  ~ (forall env report ds s,
       ReportConfig.selectedColumns report = [] ->
       error (stateAfter env report (Some ds) s)
       = Some "No columns selected for this report."
       /\ callsOf env report (Some ds) s = []).
Proof.
  intros H.
  destruct (H envRows reportNoColumns aiDataSource initialState eq_refl) as [_ Hcalls].
  vm_compute in Hcalls. discriminate Hcalls.
Qed.

(** C2, amended: with no column selected, a source of any type but
    ['custom'] gets the no-columns error, no rows and no service call; a
    ['custom'] source gets its one call to the generative service. *)
Theorem fetchData_no_columns env report ds s :
  ReportConfig.selectedColumns report = [] ->
  (DataSource.type ds <> "custom" ->
     error (stateAfter env report (Some ds) s)
     = Some "No columns selected for this report."
     /\ data (stateAfter env report (Some ds) s) = []
     /\ callsOf env report (Some ds) s = [])
  /\ (DataSource.type ds = "custom" ->
     callsOf env report (Some ds) s = [CallGenerateReportData ds report 100]).
Proof.
  intros Hsel. split.
  - intros Hty. enter_live_path Hty. rewrite Hsel. cbn. repeat split.
  - apply fetchData_custom.
Qed.

Lemma fetchData_no_columns_witness :
  error (stateAfter envRows reportNoColumns (Some mockDataSource) initialState)
  = Some "No columns selected for this report."
  /\ data (stateAfter envRows reportNoColumns (Some mockDataSource) initialState) = []
  /\ callsOf envRows reportNoColumns (Some mockDataSource) initialState = [].
Proof.
  apply (proj1 (fetchData_no_columns envRows reportNoColumns mockDataSource
                  initialState eq_refl)).
  discriminate.
Defined.

Lemma findTarget_nil ds isView0 : table (findTarget ds isView0 []) = None.
Proof. reflexivity. Qed.

Lemma target_needs_columns ds report t :
  table (findTarget ds false (tableIdsOf report)) = Some t ->
  ReportConfig.selectedColumns report <> [].
Proof.
  intros Htab E. unfold tableIdsOf in Htab. rewrite E in Htab.
  discriminate Htab.
Qed.

(** C6, as stated, does not hold: a filter whose operator is outside the
    operators of its column's type ([starts_with] on the [number] column
    [id]) is handed to the live service and no error is raised. *)
Lemma illegal_operator_is_forwarded :
  ~ (forall env report ds s f,
       In f (ReportConfig.filters report) ->
       ~ In (FilterCondition.operator f)
            (ReportBuilder.operatorsFor
               (ReportBuilder.getColumnType (Some ds)
                  (FilterCondition.tableId f) (FilterCondition.columnId f))) ->
       error (stateAfter env report (Some ds) s) <> None
       /\ (forall dsArg tname cols limit filters,
             In (CallFetchTableData dsArg tname cols limit filters)
                (callsOf env report (Some ds) s) ->
             ~ In f filters)).
Proof.
  intros H.
  destruct (H envRows reportWithBadFilter mockDataSource initialState startsWithOnNumber)
    as [Herr _].
  - left. reflexivity.
  - vm_compute.
    intros Hin.
    repeat (destruct Hin as [Hin | Hin]; [discriminate Hin |]). exact Hin.
  - apply Herr. reflexivity.
Qed.

(** C6, amended: [fetchData] does not look at filter operators.  Whatever
    the filters [fs] of a report on a live source, once the table and
    column checks are passed the live service is called, once, with exactly
    [fs]. *)
Theorem fetchData_forwards_filters_unchecked env report ds s t cols fs :
  DataSource.type ds <> "custom" ->
  PassesValidation ds report t cols ->
  ReportConfig.filters report = fs ->
  callsOf env report (Some ds) s
  = [CallFetchTableData ds (TableDef.name t) cols 1000000 fs].
Proof.
  intros Hty Hok <-. apply fetchData_live_call; assumption.
Qed.

Lemma mockReport_passes (filters : list FilterCondition.t)
    (sorts : list SortCondition.t) :
  PassesValidation mockDataSource (reportOf mockColumns filters sorts)
    usersTable ["id"; "name"].
Proof.
  unfold PassesValidation. repeat split. discriminate.
Qed.

Lemma fetchData_forwards_filters_unchecked_witness :
  callsOf envRows reportWithBadFilter (Some mockDataSource) initialState
  = [CallFetchTableData mockDataSource "users" ["id"; "name"] 1000000
       [startsWithOnNumber]].
Proof.
  apply (fetchData_forwards_filters_unchecked envRows reportWithBadFilter
           mockDataSource initialState usersTable ["id"; "name"] [startsWithOnNumber]).
  - discriminate.
  - apply mockReport_passes.
  - reflexivity.
Defined.

(** The sort conditions of a report never reach the live service: changing
    them changes neither the call made nor the state left. *)
Lemma fetchData_ignores_sorts env report ds s sorts :
  DataSource.type ds <> "custom" ->
  fetchData env (withSorts sorts report) (Some ds) s = fetchData env report (Some ds) s.
Proof.
  intros Hty. destruct report as [rid dsid rname sel fs so viz].
  unfold withSorts, fetchData, fetchDataTry, tableIdsOf. cbn.
  rewrite (not_custom ds Hty). reflexivity.
Qed.

(** The column names handed to the live service are physical names: each
    is the [name] of a column of the table, found by [id] or by [name]
    from the selected column at the same position. *)
Lemma resolveColumns_physical t isView selected : forall acc cols,
  resolveColumns t isView selected acc = inr cols ->
  exists names,
    cols = (acc ++ names)%list
    /\ Forall2 (fun rc n =>
                  exists col, In col (TableDef.columns t)
                    /\ (ColumnDef.id col = ReportColumn.columnId rc
                        \/ ColumnDef.name col = ReportColumn.columnId rc)
                    /\ n = ColumnDef.name col)
               selected names.
Proof.
  induction selected as [| rc rest IH]; intros acc cols H; simpl in H.
  - injection H as <-. exists []. rewrite app_nil_r. split; constructor.
  - destruct (find _ (TableDef.columns t)) as [col |] eqn:Hfind in H.
    + destruct (IH _ _ H) as (names & -> & Hall).
      exists (ColumnDef.name col :: names). rewrite <- app_assoc. split; [reflexivity |].
      constructor; [| exact Hall].
      apply find_some in Hfind. destruct Hfind as [Hin Hmatch].
      exists col. repeat split; try assumption.
      apply orb_true_iff in Hmatch. unfold Js.strictEq in Hmatch.
      destruct Hmatch as [E | E]; apply String.eqb_eq in E; auto.
    + destruct (find _ (TableDef.columns t)) as [col |] eqn:Hfind2 in H;
        [| discriminate H].
      destruct (IH _ _ H) as (names & -> & Hall).
      exists (ColumnDef.name col :: names). rewrite <- app_assoc. split; [reflexivity |].
      constructor; [| exact Hall].
      apply find_some in Hfind2. destruct Hfind2 as [Hin Hmatch].
      exists col. repeat split; try assumption.
      unfold Js.strictEq in Hmatch. apply String.eqb_eq in Hmatch. auto.
Qed.

(** C1 at the report of the test [passes sorts to fetchTableData]: the
    report carries a sort condition, yet the one call made to the live
    service names the table, the columns, the limit and the (empty) filter
    list and nothing else; it is the very call made for the same report
    without sorts.  The body [fetchTableData] then posts keeps the table,
    the columns, the limit and the data source, not the filters it was
    handed. *)
Theorem fetchData_live_request_has_no_sorts :
  ReportConfig.sorts reportWithSorts = [sortByName]
  /\ callsOf envRows reportWithSorts (Some mockDataSource) initialState
     = [CallFetchTableData mockDataSource "users" ["id"; "name"] 1000000 []]
  /\ callsOf envRows reportWithSorts (Some mockDataSource) initialState
     = callsOf envRows mockReport (Some mockDataSource) initialState
  /\ DatasourceService.fetchTableData_body (inr mockDataSource) "users"
       ["id"; "name"] (Some 1000000%N) [startsWithOnNumber]
     = DatasourceService.mkBody "users" ["id"; "name"] 1000000 None
         (Some mockDataSource).
Proof. repeat split. Qed.

(** *** The single-source check *)

Lemma includes_In (l : list string) (x : string) :
  Js.includes l x = true <-> In x l.
Proof.
  unfold Js.includes, Js.strictEq. rewrite existsb_exists. split.
  - intros (y & Hin & E). apply String.eqb_eq in E. subst y. exact Hin.
  - intros Hin. exists x. split; [exact Hin | apply String.eqb_refl].
Qed.

Lemma setInsertAll_keeps (xs : list string) : forall seen x,
  In x seen -> In x (Js.setInsertAll seen xs).
Proof.
  induction xs as [| a rest IH]; intros seen x Hin; simpl; [exact Hin |].
  destruct (Js.includes seen a); apply IH; [exact Hin |].
  apply in_or_app. left. exact Hin.
Qed.

Lemma setInsertAll_adds (xs : list string) : forall seen x,
  In x xs -> In x (Js.setInsertAll seen xs).
Proof.
  induction xs as [| a rest IH]; intros seen x Hin; simpl; [destruct Hin |].
  destruct Hin as [-> | Hin].
  - destruct (Js.includes seen x) eqn:E; apply setInsertAll_keeps.
    + apply includes_In. exact E.
    + apply in_or_app. right. left. reflexivity.
  - destruct (Js.includes seen a); apply IH; exact Hin.
Qed.

Lemma setInsertAll_same (n : string) (xs : list string) :
  (forall x, In x xs -> x = n) -> Js.setInsertAll [n] xs = [n].
Proof.
  induction xs as [| a rest IH]; intros Hall; simpl; [reflexivity |].
  rewrite (Hall a (or_introl eq_refl)).
  unfold Js.includes, Js.strictEq. simpl. rewrite String.eqb_refl. simpl.
  apply IH. intros x Hin. apply Hall. right. exact Hin.
Qed.

(** A non-empty array of equal strings has a one-element [Set]. *)
Lemma Array_from_Set_same (n : string) (xs : list string) :
  xs <> [] -> (forall x, In x xs -> x = n) -> Js.Array_from_Set xs = [n].
Proof.
  intros Hne Hall. destruct xs as [| a rest]; [contradiction |].
  unfold Js.Array_from_Set. simpl.
  rewrite (Hall a (or_introl eq_refl)).
  apply setInsertAll_same. intros x Hin. apply Hall. right. exact Hin.
Qed.

(** A one-element [Set] comes from an array of equal strings. *)
Lemma Array_from_Set_single (only : string) (xs : list string) :
  Js.Array_from_Set xs = [only] -> forall x, In x xs -> x = only.
Proof.
  intros E x Hin.
  pose proof (setInsertAll_adds xs [] x Hin) as H.
  unfold Js.Array_from_Set in E. rewrite E in H.
  destruct H as [H | []]. symmetry. exact H.
Qed.

(** Ids that all lead, by [id], to one name other than ['UNKNOWN'] pass the
    single-source check. *)
Lemma multiSourceCheck_same_name ds tableIds n :
  tableIds <> [] ->
  (forall id, In id tableIds -> tableViewNameOf ds id = n) ->
  n <> "UNKNOWN" ->
  multiSourceCheck ds tableIds = None.
Proof.
  intros Hne Hall Hn. unfold multiSourceCheck.
  destruct (negb (N.eqb (Js.Array_length tableIds) 1)); [| reflexivity].
  rewrite (Array_from_Set_same n).
  - unfold Js.strictEq. apply String.eqb_neq in Hn. rewrite Hn. reflexivity.
  - unfold allTableViewNamesOf. destruct tableIds; [contradiction | discriminate].
  - unfold allTableViewNamesOf. intros x Hin. apply in_map_iff in Hin.
    destruct Hin as (id & <- & Hid). apply Hall. exact Hid.
Qed.

(** Ids that lead to two different names fail it, with a message that
    lists the name found for every id. *)
Lemma multiSourceCheck_distinct_names ds tableIds id1 id2 :
  In id1 tableIds -> In id2 tableIds ->
  tableViewNameOf ds id1 <> tableViewNameOf ds id2 ->
  multiSourceCheck ds tableIds
  = Some (multiSourceMessage tableIds (allTableViewNamesOf ds tableIds)).
Proof.
  intros H1 H2 Hdiff. unfold multiSourceCheck.
  destruct (negb (N.eqb (Js.Array_length tableIds) 1)) eqn:Hlen.
  - destruct (Js.Array_from_Set (allTableViewNamesOf ds tableIds))
      as [| only [| other more]] eqn:E; try reflexivity.
    exfalso. apply Hdiff.
    rewrite (Array_from_Set_single only _ E (tableViewNameOf ds id1)),
            (Array_from_Set_single only _ E (tableViewNameOf ds id2));
      [reflexivity | |]; unfold allTableViewNamesOf; apply in_map; assumption.
  - exfalso. apply Hdiff.
    apply negb_false_iff, N.eqb_eq in Hlen. unfold Js.Array_length in Hlen.
    assert (Hone : length tableIds = 1%nat) by lia.
    destruct tableIds as [| a [| b rest]]; try discriminate Hone.
    destruct H1 as [<- | []], H2 as [<- | []]. reflexivity.
Qed.

(** A failed single-source check ends [fetchData] with its message, no
    rows and no service call. *)
Lemma fetchData_multi_source env report ds s message :
  DataSource.type ds <> "custom" ->
  ReportConfig.selectedColumns report <> [] ->
  multiSourceCheck ds (tableIdsOf report) = Some message ->
  error (stateAfter env report (Some ds) s) = Some message
  /\ data (stateAfter env report (Some ds) s) = []
  /\ callsOf env report (Some ds) s = [].
Proof.
  intros Hty Hsel Hmulti. enter_live_path Hty.
  rewrite (length_not_zero _ Hsel), Hmulti.
  repeat split.
Qed.

Lemma find_weaken {A : Type} (p q : A -> bool) (l : list A) (x : A) :
  (forall y, p y = true -> q y = true) ->
  find p l = Some x -> exists z, find q l = Some z.
Proof.
  intros Hpq. induction l as [| a rest IH]; simpl; [discriminate |].
  destruct (q a) eqn:Hq; [intros _; exists a; reflexivity |].
  destruct (p a) eqn:Hp; [| exact IH].
  rewrite (Hpq a Hp) in Hq. discriminate Hq.
Qed.

(** The lookup loop stops at the first id when a table or a view carries
    it as its [id]. *)
Lemma findTarget_first_id ds isView0 id rest item :
  (find (fun t => Js.strictEq (TableDef.id t) id) (DataSource.tables ds) = Some item
   \/ find (fun v => Js.strictEq (TableDef.id v) id)
           (Js.orEmpty (DataSource.views ds)) = Some item) ->
  foundTableId (findTarget ds isView0 (id :: rest)) = Some id
  /\ table (findTarget ds isView0 (id :: rest)) <> None.
Proof.
  intros H. simpl.
  set (byIdOrName := fun t : TableDef.t =>
         Js.strictEq (TableDef.id t) id || Js.strictEq (TableDef.name t) id).
  assert (Hweak : forall y, Js.strictEq (TableDef.id y) id = true ->
                            byIdOrName y = true).
  { intros y Hy. unfold byIdOrName. rewrite Hy. reflexivity. }
  destruct (find byIdOrName (DataSource.tables ds)) as [t |] eqn:Ht;
    [split; [reflexivity | discriminate] |].
  destruct (find byIdOrName (Js.orEmpty (DataSource.views ds))) as [v |] eqn:Hv;
    [split; [reflexivity | discriminate] |].
  exfalso.
  destruct H as [H | H];
    apply (find_weaken _ byIdOrName _ _ Hweak) in H;
    destruct H as (z & Hz); congruence.
Qed.

(** C4 at two tables that share the name [UNKNOWN] under the ids [t-1] and
    [t-2]: both ids are found, by [id], and lead to the same name, yet
    [fetchData] stops with the several-sources message and calls no
    service; with any other shared name, [orders] say, the same report is
    fetched from the first id's table. *)
Theorem fetchData_same_name_UNKNOWN_rejected :
  tableIdsOf reportOnTwins = ["t-1"; "t-2"]
  /\ map (fun id => option_map TableDef.name
                      (find (fun t => Js.strictEq (TableDef.id t) id)
                            (DataSource.tables (dsTwins "UNKNOWN"))))
         (tableIdsOf reportOnTwins)
     = [Some "UNKNOWN"; Some "UNKNOWN"]
  /\ error (stateAfter envRows reportOnTwins (Some (dsTwins "UNKNOWN")) initialState)
     = Some (multiSourceMessage ["t-1"; "t-2"] ["UNKNOWN"; "UNKNOWN"])
  /\ callsOf envRows reportOnTwins (Some (dsTwins "UNKNOWN")) initialState = []
  /\ error (stateAfter envRows reportOnTwins (Some (dsTwins "orders")) initialState)
     = None
  /\ callsOf envRows reportOnTwins (Some (dsTwins "orders")) initialState
     = [CallFetchTableData (dsTwins "orders") "orders" ["id"; "total"] 1000000 []].
Proof. repeat split. Qed.

(** The same check when one table is referred to by its id in one column
    and by its name in another, which the lookup loop and the column
    resolution both accept: the name is not found among the ids, stands as
    [UNKNOWN], and the report is refused as spanning two sources. *)
Lemma fetchData_id_and_name_rejected :
  table (findTarget mockDataSource false ["table1"]) = Some usersTable
  /\ table (findTarget mockDataSource false ["users"]) = Some usersTable
  /\ error (stateAfter envRows reportByIdAndName (Some mockDataSource) initialState)
     = Some (multiSourceMessage ["table1"; "users"] ["users"; "UNKNOWN"])
  /\ callsOf envRows reportByIdAndName (Some mockDataSource) initialState = [].
Proof. repeat split. Qed.

(** One table id on every selected column gives a one-element [tableIds],
    and conversely. *)
Lemma tableIdsOf_single report tableId :
  Resolution.SingleSource report tableId <-> tableIdsOf report = [tableId].
Proof.
  split.
  - intros [Hne Hall]. unfold tableIdsOf. apply Array_from_Set_same.
    + destruct (ReportConfig.selectedColumns report); [contradiction | discriminate].
    + intros x Hin. apply in_map_iff in Hin. destruct Hin as (rc & <- & Hrc).
      rewrite Forall_forall in Hall. apply Hall. exact Hrc.
  - intros E. split.
    + intros Hnil. unfold tableIdsOf in E. rewrite Hnil in E. discriminate E.
    + apply Forall_forall. intros rc Hin.
      apply (Array_from_Set_single tableId _ E). apply in_map. exact Hin.
Qed.

(** The lookup loop on one table id finds what the id leads to. *)
Lemma findTarget_found ds tableId t isView :
  Resolution.Found ds tableId t isView <->
  findTarget ds false [tableId] = mkTarget (Some t) isView (Some tableId).
Proof.
  simpl.
  set (byIdOrName := fun t0 : TableDef.t =>
         Js.strictEq (TableDef.id t0) tableId || Js.strictEq (TableDef.name t0) tableId).
  pose proof (FindFacts.find_first_iff byIdOrName _ (FindFacts.namedBy_spec tableId))
    as Hfirst.
  pose proof (FindFacts.find_none_iff byIdOrName _ (FindFacts.namedBy_spec tableId))
    as Hnone.
  split.
  - intros [[-> H] | (-> & Hn & H)].
    + apply Hfirst in H. rewrite H. reflexivity.
    + apply Hnone in Hn. apply Hfirst in H. rewrite Hn, H. reflexivity.
  - destruct (find byIdOrName (DataSource.tables ds)) as [t0 |] eqn:Ht.
    + intros E. injection E as <- <-. left. split; [reflexivity |].
      apply Hfirst. exact Ht.
    + destruct (find byIdOrName (Js.orEmpty (DataSource.views ds))) as [v |] eqn:Hv;
        [| discriminate].
      intros E. injection E as <- <-. right. split; [reflexivity |].
      split; [apply Hnone; exact Ht | apply Hfirst; exact Hv].
Qed.

(** Whatever the lookup loop finds is a table or a view of the source. *)
Lemma findTarget_in ds : forall tableIds isView0 t,
  table (findTarget ds isView0 tableIds) = Some t ->
  In t (DataSource.tables ds ++ Js.orEmpty (DataSource.views ds))%list.
Proof.
  induction tableIds as [| tableId rest IH]; intros isView0 t; simpl; [discriminate |].
  set (byIdOrName := fun t0 : TableDef.t =>
         Js.strictEq (TableDef.id t0) tableId || Js.strictEq (TableDef.name t0) tableId).
  destruct (find byIdOrName (DataSource.tables ds)) as [t0 |] eqn:Ht.
  - simpl. intros E. injection E as <-. apply in_or_app. left.
    apply (find_some _ _ Ht).
  - destruct (find byIdOrName (Js.orEmpty (DataSource.views ds))) as [v |] eqn:Hv.
    + simpl. intros E. injection E as <-. apply in_or_app. right.
      apply (find_some _ _ Hv).
    + apply IH.
Qed.

(** A report on the hidden table [salaries] of a ['custom'] source: no
    error, the generated row is stored, and the generative service has
    been handed the report. *)
Lemma custom_source_serves_hidden_table :
  Resolution.SingleSource reportOnHidden "table2"
  /\ Resolution.Found aiWithHidden "table2" salariesTable false
  /\ TableDef.exposed salariesTable = false
  /\ error (stateAfter envRows reportOnHidden (Some aiWithHidden) initialState) = None
  /\ data (stateAfter envRows reportOnHidden (Some aiWithHidden) initialState)
     = [[("id", Js.JNumber 1); ("name", Js.JString "Generated")]]
  /\ callsOf envRows reportOnHidden (Some aiWithHidden) initialState
     = [CallGenerateReportData aiWithHidden reportOnHidden 100].
Proof.
  split; [apply tableIdsOf_single; reflexivity |].
  split; [apply findTarget_found; reflexivity |].
  repeat split.
Qed.

(** On a live source the exposure test bears on the one table the lookup
    loop stops at.  A selected column whose table id is that of a hidden
    table, reconciled by name with an exposed table met first, is fetched
    from the exposed one; and a filter on a hidden table is handed to the
    live service as it is. *)
Lemma unreached_references_are_not_checked :
  callsOf envRows reportOnTwins (Some MoreSamples.dsHiddenTwin) initialState
  = [CallFetchTableData MoreSamples.dsHiddenTwin "orders" ["id"; "total"] 1000000 []]
  /\ error (stateAfter envRows reportOnTwins (Some MoreSamples.dsHiddenTwin) initialState)
     = None
  /\ callsOf envRows MoreSamples.reportFilteringHidden (Some dsWithHidden) initialState
     = [CallFetchTableData dsWithHidden "users" ["id"; "name"] 1000000
          (ReportConfig.filters MoreSamples.reportFilteringHidden)]
  /\ error (stateAfter envRows MoreSamples.reportFilteringHidden (Some dsWithHidden)
              initialState) = None.
Proof. repeat split. Qed.

(** C5, as stated for every data source, does not hold: a report whose
    only column lies in the table [salaries], which has [exposed = false],
    is answered without any error when the source is ['custom'], the
    report being handed to the generative service as it is. *)
Lemma hidden_table_served_on_custom_source :
  ~ (forall env report ds s tableId t isView,
       Resolution.SingleSource report tableId ->
       Resolution.Found ds tableId t isView ->
       TableDef.exposed t = false ->
       error (stateAfter env report (Some ds) s) <> None).
Proof.
  intros H.
  destruct custom_source_serves_hidden_table as (Hsingle & Hfound & Hexp & Herr & _).
  exact (H envRows reportOnHidden aiWithHidden initialState "table2" salariesTable false
           Hsingle Hfound Hexp Herr).
Qed.

(** C5, amended: on a source of any type but ['custom'], a report whose
    selected columns all carry one table id is refused when the table (or,
    no table answering, the view) that id leads to, by [id] or by [name],
    has [exposed = false]: whatever its column references, [fetchData]
    sets the not-found-or-not-exposed message for that id, keeps no rows
    and calls no service.  With several table ids the same holds of the
    table the lookup loop finds, the message being the one of the
    single-source check when that check fails.  And the table named in a
    call to the live service is always the table or view of the source the
    lookup found, with [exposed = true]. *)
Theorem fetchData_rejects_unexposed env report ds s :
  (DataSource.type ds <> "custom" ->
   forall tableId t isView,
     Resolution.SingleSource report tableId ->
     Resolution.Found ds tableId t isView ->
     TableDef.exposed t = false ->
     error (stateAfter env report (Some ds) s)
     = Some ("Target " ++ (if isView then "view" else "table")
             ++ " not found or not exposed in datasource. Looking for IDs: "
             ++ tableId)
     /\ data (stateAfter env report (Some ds) s) = []
     /\ callsOf env report (Some ds) s = [])
  /\ (DataSource.type ds <> "custom" ->
      forall t,
        table (findTarget ds false (tableIdsOf report)) = Some t ->
        TableDef.exposed t = false ->
        callsOf env report (Some ds) s = []
        /\ data (stateAfter env report (Some ds) s) = []
        /\ error (stateAfter env report (Some ds) s) <> None
        /\ (multiSourceCheck ds (tableIdsOf report) = None ->
            error (stateAfter env report (Some ds) s)
            = Some (targetMessage (isView (findTarget ds false (tableIdsOf report)))
                      (tableIdsOf report))))
  /\ (forall dsArg tname cols limit filters,
        In (CallFetchTableData dsArg tname cols limit filters)
           (callsOf env report (Some ds) s) ->
        exists t,
          table (findTarget ds false (tableIdsOf report)) = Some t
          /\ In t (DataSource.tables ds ++ Js.orEmpty (DataSource.views ds))%list
          /\ TableDef.exposed t = true
          /\ tname = TableDef.name t).
Proof.
  split; [| split].
  - intros Hty tableId t isView Hsingle Hfound Hexp.
    pose proof (proj1 Hsingle) as Hsel.
    apply tableIdsOf_single in Hsingle. apply findTarget_found in Hfound.
    enter_live_path Hty.
    rewrite (length_not_zero _ Hsel), Hsingle.
    change (multiSourceCheck ds [tableId]) with (@None string).
    cbv iota. rewrite Hfound. cbn [table ReportViewer.isView]. rewrite Hexp.
    unfold targetMessage, kindOf. destruct isView; repeat split.
  - intros Hty t Htab Hexp.
    assert (Hcalls : callsOf env report (Some ds) s = []).
    { destruct (callsOf env report (Some ds) s) as [| c rest] eqn:E; [reflexivity |].
      destruct (fetchData_live_call_inv env report ds s c Hty)
        as (t' & cols & (_ & _ & Htab' & Hexp' & _) & _).
      - rewrite E. left. reflexivity.
      - rewrite Htab in Htab'. injection Htab' as <-. congruence. }
    destruct (fetchData_live_failure env report ds s Hty Hcalls) as [Hdata Herr].
    repeat split; try assumption.
    intros Hmulti. enter_live_path Hty.
    rewrite (length_not_zero _ (target_needs_columns ds report t Htab)),
      Hmulti, Htab, Hexp.
    reflexivity.
  - intros dsArg tname cols limit filters Hin.
    destruct (String.eqb_spec (DataSource.type ds) "custom") as [Hty | Hty].
    + rewrite (fetchData_custom env report ds s Hty) in Hin.
      destruct Hin as [Hin | []]. discriminate Hin.
    + destruct (fetchData_live_call_inv env report ds s _ Hty Hin)
        as (t & cols' & (_ & _ & Htab & Hexp & _) & E).
      exists t. injection E as _ -> _ _ _.
      repeat split; try assumption.
      apply (findTarget_in ds _ _ _ Htab).
Qed.

(** A report on the hidden table [salaries] of a live source. *)
Lemma fetchData_rejects_unexposed_witness :
  error (stateAfter envRows reportOnHidden (Some dsWithHidden) initialState)
  = Some "Target table not found or not exposed in datasource. Looking for IDs: table2"
  /\ data (stateAfter envRows reportOnHidden (Some dsWithHidden) initialState) = []
  /\ callsOf envRows reportOnHidden (Some dsWithHidden) initialState = [].
Proof.
  apply (proj1 (fetchData_rejects_unexposed envRows reportOnHidden dsWithHidden
                  initialState)
           ltac:(discriminate) "table2" salariesTable false).
  - split; [discriminate | repeat constructor].
  - left. split; [reflexivity |].
    exists [usersTable], []. split; [reflexivity |]. split; [| left; reflexivity].
    constructor; [| constructor]. intros [E | E]; discriminate E.
  - reflexivity.
Defined.

End Dispatch.

(* ===================================================================== *)
(** ** The label resolver ([getAliasForField]) *)
(* ===================================================================== *)

Module Labels.
Import ReportViewer Samples MoreSamples.

Lemma lastSegmentFrom_no_dot (s : string) : forall acc,
  Js.includesDot s = false -> Js.lastSegmentFrom acc s = acc ++ s.
Proof.
  induction s as [| c rest IH]; intros acc H; simpl in *.
  - induction acc as [| a acc' IHacc]; simpl; [reflexivity | now rewrite <- IHacc].
  - destruct (Ascii.eqb c Js.dot); [discriminate H |].
    rewrite (IH _ H).
    clear. induction acc as [| a acc' IHacc]; simpl; [reflexivity | now rewrite IHacc].
Qed.

Lemma lastSegmentFrom_qualified (prefix segment : string) : forall acc,
  Js.includesDot segment = false ->
  Js.lastSegmentFrom acc (prefix ++ "." ++ segment) = segment.
Proof.
  induction prefix as [| c rest IH]; intros acc H; simpl.
  - apply (lastSegmentFrom_no_dot segment EmptyString H).
  - destruct (Ascii.eqb c Js.dot); apply IH; exact H.
Qed.

Lemma includesDot_qualified (prefix segment : string) :
  Js.includesDot (prefix ++ "." ++ segment) = true.
Proof.
  induction prefix as [| c rest IH]; simpl; [reflexivity |].
  destruct (Ascii.eqb c Js.dot); [reflexivity | exact IH].
Qed.

(** A qualified name is reduced to its trailing segment. *)
Lemma simpleNameOf_qualified (prefix segment : string) :
  Js.includesDot segment = false ->
  simpleNameOf (prefix ++ "." ++ segment) = segment.
Proof.
  intros H. unfold simpleNameOf, Js.splitDotPop.
  rewrite includesDot_qualified. apply lastSegmentFrom_qualified. exact H.
Qed.

Lemma simpleNameOf_unqualified (fieldName : string) :
  Js.includesDot fieldName = false -> simpleNameOf fieldName = fieldName.
Proof. intros H. unfold simpleNameOf. rewrite H. reflexivity. Qed.

Lemma truthyAlias_Some (a : string) : a <> EmptyString -> truthyAlias (Some a) = Some a.
Proof.
  intros H. unfold truthyAlias, Js.truthy.
  apply String.eqb_neq in H. rewrite H. reflexivity.
Qed.

(** With no usable alias on the report column nor on the schema column,
    the label is the trailing segment, or the whole name when the segment
    is empty. *)
Lemma getAliasForField_fallback report ds fieldName :
  (forall rc, reportColOf report fieldName = Some rc ->
              truthyAlias (ReportColumn.alias rc) = None) ->
  (forall t col, aliasTableOf report ds = Some t ->
                 schemaColOf t fieldName = Some col ->
                 truthyAlias (ColumnDef.alias col) = None) ->
  getAliasForField report ds fieldName
  = if String.eqb (simpleNameOf fieldName) EmptyString
    then fieldName else simpleNameOf fieldName.
Proof.
  intros Hnone Hschema. unfold getAliasForField.
  assert (E : truthyAlias (match reportColOf report fieldName with
                           | Some rc => ReportColumn.alias rc
                           | None => None
                           end) = None).
  { destruct (reportColOf report fieldName) as [rc |];
      [apply Hnone; reflexivity | reflexivity]. }
  rewrite E. unfold Js.truthy.
  destruct (aliasTableOf report ds) as [t |] eqn:Ht;
    [| now destruct (String.eqb _ _)].
  destruct (schemaColOf t fieldName) as [col |] eqn:Hcol;
    [| now destruct (String.eqb _ _)].
  rewrite (Hschema t col eq_refl Hcol). now destruct (String.eqb _ _).
Qed.

Lemma truthyAlias_inv (alias : option string) (a : string) :
  truthyAlias alias = Some a -> alias = Some a /\ a <> EmptyString.
Proof.
  unfold truthyAlias, Js.truthy. destruct alias as [x |]; [| discriminate].
  destruct (String.eqb_spec x EmptyString) as [E | N]; cbn [negb]; [discriminate |].
  intros H. injection H as <-. split; [reflexivity | exact N].
Qed.

(** The report-level lookup of [getAliasForField] gives the alias the
    report gives the field. *)
Lemma reportAlias_iff report fieldName a :
  Resolution.ReportAlias report fieldName a
  <-> truthyAlias (match reportColOf report fieldName with
                   | Some rc => ReportColumn.alias rc
                   | None => None
                   end) = Some a.
Proof.
  unfold Resolution.ReportAlias, reportColOf. cbv zeta.
  set (test := fun rc : ReportColumn.t =>
         Js.strictEq (ReportColumn.columnId rc) (simpleNameOf fieldName)
         || Js.strictEq (ReportColumn.columnId rc) fieldName).
  pose proof (FindFacts.find_first_iff test _ (FindFacts.answers_spec fieldName)
                (ReportConfig.selectedColumns report)) as Hfirst.
  split.
  - intros (rc & H & Halias & Ha). apply Hfirst in H.
    rewrite H, Halias. apply truthyAlias_Some. exact Ha.
  - destruct (find test (ReportConfig.selectedColumns report)) as [rc |] eqn:E;
      [| discriminate].
    intros H. apply truthyAlias_inv in H. destruct H as [Halias Ha].
    exists rc. split; [apply Hfirst; reflexivity |]. split; assumption.
Qed.

(** The table [getAliasForField] searches is the one the single table id
    of the report leads to. *)
Lemma aliasTableOf_iff report dataSource t :
  aliasTableOf report dataSource = Some t
  <-> exists ds tableId isView,
        dataSource = Some ds
        /\ Resolution.SingleSource report tableId
        /\ tableId <> EmptyString
        /\ Resolution.Found ds tableId t isView.
Proof.
  unfold aliasTableOf. cbv zeta. split.
  - destruct dataSource as [ds |];
      [| destruct (tableIdsOf report) as [| ? [| ? ?]]; discriminate].
    destruct (tableIdsOf report) as [| tableId [| other more]] eqn:Hids;
      try discriminate.
    unfold Js.truthy.
    destruct (String.eqb_spec tableId EmptyString) as [E | N]; cbn [negb];
      [discriminate |].
    set (byIdOrName := fun t0 : TableDef.t =>
           Js.strictEq (TableDef.id t0) tableId
           || Js.strictEq (TableDef.name t0) tableId).
    intros H.
    assert (Htarget : findTarget ds false [tableId]
                      = mkTarget (Some t)
                          (match find byIdOrName (DataSource.tables ds) with
                           | Some _ => false
                           | None => true
                           end) (Some tableId)).
    { simpl. fold byIdOrName.
      destruct (find byIdOrName (DataSource.tables ds)) as [t0 |].
      - injection H as <-. reflexivity.
      - rewrite H. reflexivity. }
    apply Dispatch.findTarget_found in Htarget.
    eexists ds, tableId, _. split; [reflexivity |].
    split; [apply Dispatch.tableIdsOf_single; exact Hids |].
    split; [exact N | exact Htarget].
  - intros (ds & tableId & isView & -> & Hsingle & N & Hfound).
    apply Dispatch.tableIdsOf_single in Hsingle. rewrite Hsingle.
    unfold Js.truthy. apply String.eqb_neq in N. rewrite N. cbn [negb].
    apply Dispatch.findTarget_found in Hfound. simpl in Hfound.
    set (byIdOrName := fun t0 : TableDef.t =>
           Js.strictEq (TableDef.id t0) tableId
           || Js.strictEq (TableDef.name t0) tableId) in *.
    destruct (find byIdOrName (DataSource.tables ds)) as [t0 |].
    + injection Hfound as <- _. reflexivity.
    + destruct (find byIdOrName (Js.orEmpty (DataSource.views ds))) as [v |];
        [| discriminate Hfound].
      injection Hfound as <- _. reflexivity.
Qed.

(** The schema-level lookup of [getAliasForField] gives the alias the
    schema gives the field. *)
Lemma schemaAlias_iff report dataSource fieldName a :
  Resolution.SchemaAlias report dataSource fieldName a
  <-> match aliasTableOf report dataSource with
      | Some t =>
          match schemaColOf t fieldName with
          | Some col => truthyAlias (ColumnDef.alias col)
          | None => None
          end
      | None => None
      end = Some a.
Proof.
  assert (Hcol : forall t col,
            schemaColOf t fieldName = Some col
            <-> Js.FirstWith (Resolution.StandsFor t fieldName) (TableDef.columns t) col).
  { intros t col. unfold schemaColOf. cbv zeta.
    apply (FindFacts.find_first_iff _ _ (FindFacts.standsFor_spec t fieldName)). }
  unfold Resolution.SchemaAlias. split.
  - intros (ds & tableId & t & isView & col & Hds & Hsingle & N & Hfound & Hfirst
            & Halias & Ha).
    rewrite (proj2 (aliasTableOf_iff report dataSource t)).
    + rewrite (proj2 (Hcol t col) Hfirst), Halias. apply truthyAlias_Some. exact Ha.
    + exists ds, tableId, isView.
      split; [exact Hds |]. split; [exact Hsingle |]. split; [exact N | exact Hfound].
  - destruct (aliasTableOf report dataSource) as [t |] eqn:Ht; [| discriminate].
    destruct (schemaColOf t fieldName) as [col |] eqn:E; [| discriminate].
    intros H. apply truthyAlias_inv in H. destruct H as [Halias Ha].
    apply aliasTableOf_iff in Ht.
    destruct Ht as (ds & tableId & isView & Hds & Hsingle & N & Hfound).
    exists ds, tableId, t, isView, col.
    split; [exact Hds |]. split; [exact Hsingle |]. split; [exact N |].
    split; [exact Hfound |]. split; [apply Hcol; exact E |]. split; assumption.
Qed.

(** [getAliasForField] as the two lookups and the fallback. *)
Lemma getAliasForField_cases report dataSource fieldName :
  getAliasForField report dataSource fieldName
  = match truthyAlias (match reportColOf report fieldName with
                       | Some rc => ReportColumn.alias rc
                       | None => None
                       end) with
    | Some a => a
    | None =>
        match match aliasTableOf report dataSource with
              | Some t =>
                  match schemaColOf t fieldName with
                  | Some col => truthyAlias (ColumnDef.alias col)
                  | None => None
                  end
              | None => None
              end with
        | Some a => a
        | None => if String.eqb (simpleNameOf fieldName) EmptyString
                  then fieldName else simpleNameOf fieldName
        end
    end.
Proof.
  unfold getAliasForField, Js.truthy. cbv zeta.
  destruct (truthyAlias _); [reflexivity |].
  destruct (aliasTableOf report dataSource) as [t |];
    [| now destruct (String.eqb _ _)].
  destruct (schemaColOf t fieldName) as [col |];
    [| now destruct (String.eqb _ _)].
  destruct (truthyAlias (ColumnDef.alias col)); [reflexivity |].
  now destruct (String.eqb _ _).
Qed.

(** C9, as stated, does not hold for every raw field name: for a name that
    ends in a dot, with no alias anywhere (no selected column, no data
    source), the label is the whole name, not its (empty) trailing
    segment. *)
Lemma label_of_trailing_dot_is_whole_name :
  ~ (forall fieldName,
       getAliasForField reportNoColumns None fieldName = simpleNameOf fieldName).
Proof.
  intros H. specialize (H "orders."). vm_compute in H. discriminate H.
Qed.

(** C9, amended: [getAliasForField] is a total function to strings.  The
    lookup key of a qualified [table.column] name is its trailing segment.
    (1) When the first selected column of the report whose [columnId] is
    the raw name or its trailing segment has a non-empty alias, the label
    is that alias.  (2) Otherwise, when the selected columns carry exactly
    one, non-empty, table id, a data source is present, and the first
    column that stands for the field in the table (else view) that id
    leads to has a non-empty alias, the label is that alias.  (3) In every
    other case the label is the trailing segment, or the whole raw name
    when that segment is empty. *)
Theorem getAliasForField_resolution report dataSource fieldName :
  let simple := simpleNameOf fieldName in
  let label := getAliasForField report dataSource fieldName in
  (Js.includesDot fieldName = false -> simple = fieldName)
  /\ (forall prefix segment,
        fieldName = prefix ++ "." ++ segment -> Js.includesDot segment = false ->
        simple = segment)
  /\ (forall a, Resolution.ReportAlias report fieldName a -> label = a)
  /\ (forall a,
        (forall b, ~ Resolution.ReportAlias report fieldName b) ->
        Resolution.SchemaAlias report dataSource fieldName a ->
        label = a)
  /\ ((forall b, ~ Resolution.ReportAlias report fieldName b) ->
      (forall b, ~ Resolution.SchemaAlias report dataSource fieldName b) ->
      label = if String.eqb simple EmptyString then fieldName else simple).
Proof.
  cbv zeta. rewrite getAliasForField_cases.
  split; [apply simpleNameOf_unqualified |].
  split; [intros prefix segment -> H; apply simpleNameOf_qualified; exact H |].
  split; [| split].
  - intros a H. apply reportAlias_iff in H. rewrite H. reflexivity.
  - intros a Hnone H.
    destruct (truthyAlias _) as [b |] eqn:E;
      [exfalso; apply (Hnone b); apply reportAlias_iff; exact E |].
    apply schemaAlias_iff in H. rewrite H. reflexivity.
  - intros Hnone Hschema.
    destruct (truthyAlias _) as [b |] eqn:E;
      [exfalso; apply (Hnone b); apply reportAlias_iff; exact E |].
    destruct (match aliasTableOf report dataSource with
              | Some t => _
              | None => None
              end) as [b |] eqn:E';
      [exfalso; apply (Hschema b); apply schemaAlias_iff; exact E' |].
    reflexivity.
Qed.

(** The three cases at the schema [orders]: the qualified field
    [orders.total] takes the alias the report gives [total]; the field
    [id], to which the report gives no alias, takes the alias of the schema
    column; the unknown field [orders.margin] keeps its trailing
    segment. *)
Lemma getAliasForField_resolution_witness :
  getAliasForField reportAliased (Some dsOrders) "orders.total" = "Amount"
  /\ getAliasForField reportAliased (Some dsOrders) "id" = "Order No"
  /\ getAliasForField reportAliased (Some dsOrders) "orders.margin" = "margin".
Proof.
  split; [| split].
  - apply (proj1 (proj2 (proj2 (getAliasForField_resolution reportAliased
                                  (Some dsOrders) "orders.total")))).
    exists (ReportColumn.mk "orders" "total" (Some "Amount") None).
    split; [| split; [reflexivity | discriminate]].
    exists [], [ReportColumn.mk "orders" "id" None None].
    split; [reflexivity |]. split; [constructor | left; reflexivity].
  - apply (proj1 (proj2 (proj2 (proj2 (getAliasForField_resolution reportAliased
                                         (Some dsOrders) "id"))))).
    + intros b H. apply reportAlias_iff in H. vm_compute in H. discriminate H.
    + exists dsOrders, "orders", ordersTable, false,
        (ColumnDef.mk "c-id" "id" "number" (Some "Order No")).
      split; [reflexivity |].
      split; [split; [discriminate | repeat constructor] |].
      split; [discriminate |].
      split; [left; split; [reflexivity |]; exists [], [];
              split; [reflexivity |]; split; [constructor | right; reflexivity] |].
      split; [exists [], [ColumnDef.mk "c-total" "total" "currency" None];
              split; [reflexivity |]; split; [constructor | left; reflexivity] |].
      split; [reflexivity | discriminate].
  - apply (proj2 (proj2 (proj2 (proj2 (getAliasForField_resolution reportAliased
                                         (Some dsOrders) "orders.margin"))))).
    + intros b H. apply reportAlias_iff in H. vm_compute in H. discriminate H.
    + intros b H. apply schemaAlias_iff in H. vm_compute in H. discriminate H.
Defined.

(** A selected column answers by its [columnId] alone: the alias of a
    column the report refers to by id ([col2]) is not the label of the
    field the live service returns under the column's name ([name]); a
    report that refers to the column by name shows it. *)
Lemma alias_on_id_reference_is_not_shown :
  getAliasForField
    (reportOf [ReportColumn.mk "table1" "col2" (Some "Full name") None] [] [])
    (Some mockDataSource) "name" = "name"
  /\ getAliasForField
       (reportOf [ReportColumn.mk "table1" "name" (Some "Full name") None] [] [])
       (Some mockDataSource) "name" = "Full name".
Proof. split; reflexivity. Qed.

(** A raw field name no selected column and no schema column answers to
    gets the fallback label. *)
Lemma getAliasForField_unknown report ds fieldName :
  (forall rc, In rc (ReportConfig.selectedColumns report) ->
              ReportColumn.columnId rc <> simpleNameOf fieldName
              /\ ReportColumn.columnId rc <> fieldName) ->
  (forall t col, aliasTableOf report ds = Some t -> In col (TableDef.columns t) ->
                 ColumnDef.name col <> simpleNameOf fieldName
                 /\ ColumnDef.id col <> simpleNameOf fieldName
                 /\ TableDef.name t ++ "." ++ ColumnDef.name col <> fieldName) ->
  getAliasForField report ds fieldName
  = if String.eqb (simpleNameOf fieldName) EmptyString
    then fieldName else simpleNameOf fieldName.
Proof.
  intros Hreport Hschema.
  apply getAliasForField_fallback.
  - intros rc H. unfold reportColOf in H. apply find_some in H.
    destruct H as [Hin Hmatch]. destruct (Hreport rc Hin) as [N1 N2].
    apply orb_true_iff in Hmatch. unfold Js.strictEq in Hmatch.
    destruct Hmatch as [E | E]; apply String.eqb_eq in E; contradiction.
  - intros t col Ht H. unfold schemaColOf in H. apply find_some in H.
    destruct H as [Hin Hmatch]. destruct (Hschema t col Ht Hin) as (N1 & N2 & N3).
    unfold Js.strictEq in Hmatch.
    apply orb_true_iff in Hmatch. destruct Hmatch as [Hmatch | E].
    + apply orb_true_iff in Hmatch.
      destruct Hmatch as [E | E]; apply String.eqb_eq in E; contradiction.
    + apply String.eqb_eq in E. contradiction.
Qed.

End Labels.

(* ===================================================================== *)
(** ** The presentation of rows ([renderVisuals]) *)
(* ===================================================================== *)

Module Rendering.
Import ReportViewer Samples.

(** A string cell is shown as it is. *)
Lemma renderCell_string (s : string) : renderCell (Js.JString s) = s.
Proof. reflexivity. Qed.

Lemma find_map_same {A : Type} (p : A -> bool) (f : A -> A) (l : list A) :
  (forall x, p (f x) = p x) ->
  find p (map f l) = option_map f (find p l).
Proof.
  intros H. induction l as [| a rest IH]; simpl; [reflexivity |].
  rewrite H. destruct (p a); [reflexivity | exact IH].
Qed.

Lemma tableIdsOf_withoutFormatting report :
  tableIdsOf (withoutFormatting report) = tableIdsOf report.
Proof.
  unfold tableIdsOf, withoutFormatting. cbn. rewrite map_map. reflexivity.
Qed.

(** Labels do not depend on the [formatting] of the selected columns. *)
Lemma getAliasForField_withoutFormatting report ds fieldName :
  getAliasForField (withoutFormatting report) ds fieldName
  = getAliasForField report ds fieldName.
Proof.
  unfold getAliasForField, aliasTableOf.
  rewrite tableIdsOf_withoutFormatting.
  replace (match reportColOf (withoutFormatting report) fieldName with
           | Some rc => ReportColumn.alias rc
           | None => None
           end)
    with (match reportColOf report fieldName with
          | Some rc => ReportColumn.alias rc
          | None => None
          end); [reflexivity |].
  unfold reportColOf, withoutFormatting. cbn.
  rewrite find_map_same by reflexivity.
  destruct (find _ (ReportConfig.selectedColumns report)); reflexivity.
Qed.

(** [renderVisuals] never reads a column's [formatting]: a report and the
    same report stripped of all formatting are shown alike. *)
Lemma renderVisuals_ignores_formatting report ds s :
  renderVisuals (withoutFormatting report) ds s = renderVisuals report ds s.
Proof.
  unfold renderVisuals.
  destruct (loading s); [reflexivity |].
  destruct (N.eqb (Js.Array_length (data s)) 0); [reflexivity |].
  change (ReportConfig.visualization (withoutFormatting report))
    with (ReportConfig.visualization report).
  destruct (ReportConfig.visualization report); try reflexivity;
    f_equal; apply map_ext; intros key; apply getAliasForField_withoutFormatting.
Qed.

(** C7 at the report of the test [applies date formatting to date columns]:
    the selected column carries the date format [MM/DD/YYYY] (the default
    the builder gives a date column) and the live
    service returns the row [{ created_at: '2024-01-15' }]; the table shows
    the raw text [2024-01-15], as it does for the report without any
    formatting, and not [01/15/2024]. *)
Theorem renderVisuals_shows_raw_date :
  map ReportColumn.formatting (ReportConfig.selectedColumns reportWithDate)
  = [Some (ReportBuilder.getDefaultFormatting "date")]
  /\ ReportBuilder.getDefaultFormatting "date" = FormattingConfig.date "MM/DD/YYYY"
  /\ data stateWithDate = [[("created_at", Js.JString "2024-01-15")]]
  /\ renderVisuals reportWithDate (Some dsWithDate) stateWithDate
     = TableView ["created_at"] [["2024-01-15"]]
  /\ renderVisuals reportWithDate (Some dsWithDate) stateWithDate
     = renderVisuals (withoutFormatting reportWithDate) (Some dsWithDate) stateWithDate
  /\ renderVisuals reportWithDate (Some dsWithDate) stateWithDate
     <> TableView ["created_at"] [["01/15/2024"]].
Proof.
  split; [reflexivity |]. split; [reflexivity |]. split; [reflexivity |].
  split; [reflexivity |]. split; [reflexivity |]. vm_compute. discriminate.
Qed.

End Rendering.

(* ===================================================================== *)
(** ** The prompt of the generative service ([generateReportData]) *)
(* ===================================================================== *)

Module Prompt.
Import GeminiService Samples.

(** The schema description is a function of the exposed tables alone: two
    data sources with the same exposed tables get the same description. *)
Lemma schemaDescription_exposed_only ds1 ds2 :
  filter (fun t => TableDef.exposed t) (DataSource.tables ds1)
  = filter (fun t => TableDef.exposed t) (DataSource.tables ds2) ->
  schemaDescription ds1 = schemaDescription ds2.
Proof. intros H. unfold schemaDescription. rewrite H. reflexivity. Qed.

(** With an API key configured, the prompt sent is [queryDescription]. *)
Lemma generateReportData_prompt env ds report rowCount :
  getApiKey env <> EmptyString ->
  snd (generateReportData env ds report rowCount)
  = [queryDescription ds report rowCount].
Proof.
  intros H. unfold generateReportData, Js.truthy.
  apply String.eqb_neq in H. rewrite H. cbn [negb].
  destruct (generateContent env GEMINI_MODEL (queryDescription ds report rowCount))
    as [[text |] |]; try reflexivity.
  destruct (negb (negb (text =? EmptyString))); [reflexivity |].
  destruct (JSON_parse env text); reflexivity.
Qed.

(** C10 at a custom source with the hidden table [salaries] and a report
    that selects its column [ssn]: the table is not exposed and the schema
    description leaves it out (it is the description of the source without
    that table), but the prompt sent to the model names [salaries.ssn] in
    its list of needed columns, and differs from the prompt for the source
    without the hidden table. *)
Theorem queryDescription_names_hidden_table :
  TableDef.exposed salariesTable = false
  /\ In salariesTable (DataSource.tables aiWithHidden)
  /\ schemaDescription aiWithHidden = schemaDescription aiDataSource
  /\ Js.String_includes (schemaDescription aiWithHidden) "salaries" = false
  /\ snd (generateReportData geminiEnv aiWithHidden reportOnHidden 100)
     = [queryDescription aiWithHidden reportOnHidden 100]
  /\ Js.String_includes (queryDescription aiWithHidden reportOnHidden 100)
       "salaries.ssn" = true
  /\ queryDescription aiWithHidden reportOnHidden 100
     <> queryDescription aiDataSource reportOnHidden 100.
Proof.
  split; [reflexivity |]. split; [right; left; reflexivity |].
  split; [reflexivity |]. split; [vm_compute; reflexivity |].
  split; [reflexivity |]. split; [vm_compute; reflexivity |].
  vm_compute. discriminate.
Qed.

End Prompt.

(* ===================================================================== *)
(** ** More on the dispatcher *)
(* ===================================================================== *)

Module DispatchFacts.
Import ReportViewer Samples MoreSamples.

(** X1: on a live source, a report that passes the checks gives one call
    to the live service, for the name of the table found, the fixed limit
    of 1000000 rows, the report's filters and one column name per selected
    column, in order, each the physical [name] of a column of that table
    whose [id] or [name] is the selected [columnId]. *)
Theorem live_request_names_physical_columns env report ds s t cols :
  DataSource.type ds <> "custom" ->
  PassesValidation ds report t cols ->
  callsOf env report (Some ds) s
  = [CallFetchTableData ds (TableDef.name t) cols 1000000 (ReportConfig.filters report)]
  /\ Forall2 (fun rc n =>
                exists col, In col (TableDef.columns t)
                  /\ (ColumnDef.id col = ReportColumn.columnId rc
                      \/ ColumnDef.name col = ReportColumn.columnId rc)
                  /\ n = ColumnDef.name col)
             (ReportConfig.selectedColumns report) cols.
Proof.
  intros Hty Hok. split.
  - apply Dispatch.fetchData_live_call; assumption.
  - destruct Hok as (_ & _ & _ & _ & Hcols).
    destruct (Dispatch.resolveColumns_physical _ _ _ _ _ Hcols) as (names & E & Hall).
    simpl in E. subst cols. exact Hall.
Qed.

Lemma live_request_names_physical_columns_witness :
  callsOf envRows mockReport (Some mockDataSource) initialState
  = [CallFetchTableData mockDataSource "users" ["id"; "name"] 1000000 []]
  /\ Forall2 (fun rc n =>
                exists col, In col (TableDef.columns usersTable)
                  /\ (ColumnDef.id col = ReportColumn.columnId rc
                      \/ ColumnDef.name col = ReportColumn.columnId rc)
                  /\ n = ColumnDef.name col)
             (ReportConfig.selectedColumns mockReport) ["id"; "name"].
Proof.
  apply (live_request_names_physical_columns envRows mockReport mockDataSource
           initialState usersTable ["id"; "name"]).
  - discriminate.
  - apply Dispatch.mockReport_passes.
Defined.

(** X2: whatever the inputs, [fetchData] ends with [loading] off and in
    one of two states.  Either an error message is set: then there are no
    rows, the record count and execution time are cleared, and the data
    origin and last-run time are those of before the run.  Or no error is
    set: then exactly one service call was made and resolved, the rows are
    its rows, the record count is their number, and origin, last-run time
    and execution time are set. *)
Theorem fetchData_outcome env report dataSource s :
  let st := stateAfter env report dataSource s in
  loading st = false
  /\ ((error st <> None
       /\ data st = []
       /\ recordsCount st = None /\ executionMs st = None
       /\ dataOrigin st = dataOrigin s /\ lastRun st = lastRun s)
      \/ (error st = None
          /\ recordsCount st = Some (Js.Array_length (data st))
          /\ executionMs st = Some (elapsed env)
          /\ lastRun st = Some (Date_now env)
          /\ exists ds, dataSource = Some ds
             /\ ((dataOrigin st = Some ai
                  /\ generateReportData env ds report 100 = Resolved (data st)
                  /\ callsOf env report dataSource s
                     = [CallGenerateReportData ds report 100])
                 \/ (dataOrigin st = Some live
                     /\ exists t cols,
                          fetchTableData env ds (TableDef.name t) cols 1000000
                            (ReportConfig.filters report) = Resolved (data st)
                          /\ callsOf env report dataSource s
                             = [CallFetchTableData ds (TableDef.name t) cols 1000000
                                  (ReportConfig.filters report)])))).
Proof.
  unfold stateAfter, callsOf, fetchData, fetchDataTry.
  destruct dataSource as [ds |]; [| cbn; split; [reflexivity | left; repeat split; discriminate]].
  destruct (Js.strictEq (DataSource.type ds) "custom").
  - destruct (generateReportData env ds report 100) as [rows | reason] eqn:Hgen; cbn.
    + split; [reflexivity |]. right. repeat split.
      exists ds. split; [reflexivity |]. left. repeat split. exact Hgen.
    + split; [reflexivity |]. left. repeat split. discriminate.
  - destruct (N.eqb (Js.Array_length (ReportConfig.selectedColumns report)) 0);
      [cbn; split; [reflexivity | left; repeat split; discriminate] |].
    destruct (multiSourceCheck ds (tableIdsOf report));
      [cbn; split; [reflexivity | left; repeat split; discriminate] |].
    destruct (table (findTarget ds false (tableIdsOf report))) as [t |];
      [| cbn; split; [reflexivity | left; repeat split; discriminate]].
    destruct (TableDef.exposed t); cbn [negb];
      [| cbn; split; [reflexivity | left; repeat split; discriminate]].
    destruct (resolveColumns t (isView (findTarget ds false (tableIdsOf report)))
                (ReportConfig.selectedColumns report) []) as [msg | cols];
      [cbn; split; [reflexivity | left; repeat split; discriminate] |].
    destruct (fetchTableData env ds (TableDef.name t) cols 1000000
                (ReportConfig.filters report)) as [rows | reason] eqn:Hfetch; cbn.
    + split; [reflexivity |]. right. repeat split.
      exists ds. split; [reflexivity |]. right. split; [reflexivity |].
      exists t, cols. split; [exact Hfetch | reflexivity].
    + split; [reflexivity |]. left. repeat split. discriminate.
Qed.

(** X3: when the service called rejects, whatever its reason, the error
    shown is the fixed text [Failed to fetch live data for this report.]
    and no rows are kept; this holds for the generative service of a
    custom source as for the live one. *)
Theorem rejection_gives_generic_message env report ds s reason :
  (DataSource.type ds = "custom" ->
   generateReportData env ds report 100 = Rejected reason ->
   error (stateAfter env report (Some ds) s)
   = Some "Failed to fetch live data for this report."
   /\ data (stateAfter env report (Some ds) s) = [])
  /\ (forall t cols,
        DataSource.type ds <> "custom" ->
        PassesValidation ds report t cols ->
        fetchTableData env ds (TableDef.name t) cols 1000000
          (ReportConfig.filters report) = Rejected reason ->
        error (stateAfter env report (Some ds) s)
        = Some "Failed to fetch live data for this report."
        /\ data (stateAfter env report (Some ds) s) = []).
Proof.
  split.
  - intros Hty Hrej. unfold stateAfter, fetchData, fetchDataTry.
    rewrite (Dispatch.is_custom ds Hty), Hrej. split; reflexivity.
  - intros t cols Hty (Hsel & Hmulti & Htab & Hexp & Hcols) Hrej.
    unfold stateAfter, fetchData, fetchDataTry.
    rewrite (Dispatch.not_custom ds Hty), (Dispatch.length_not_zero _ Hsel),
      Hmulti, Htab, Hexp.
    cbn [negb]. rewrite Hcols, Hrej. split; reflexivity.
Qed.

Lemma rejection_gives_generic_message_witness :
  (error (stateAfter envFailing mockReport (Some aiDataSource) initialState)
   = Some "Failed to fetch live data for this report."
   /\ data (stateAfter envFailing mockReport (Some aiDataSource) initialState) = [])
  /\ (error (stateAfter envFailing mockReport (Some mockDataSource) initialState)
      = Some "Failed to fetch live data for this report."
      /\ data (stateAfter envFailing mockReport (Some mockDataSource) initialState) = []).
Proof.
  split.
  - apply (proj1 (rejection_gives_generic_message envFailing mockReport aiDataSource
                    initialState "quota exceeded")); reflexivity.
  - apply (proj2 (rejection_gives_generic_message envFailing mockReport mockDataSource
                    initialState "Database connection failed")
             usersTable ["id"; "name"]).
    + discriminate.
    + apply Dispatch.mockReport_passes.
    + reflexivity.
Defined.

Lemma tableIds_need_columns report id :
  In id (tableIdsOf report) -> ReportConfig.selectedColumns report <> [].
Proof.
  intros Hin E. unfold tableIdsOf in Hin. rewrite E in Hin. destruct Hin.
Qed.

(** X4: on a live source, when two of the report's table ids lead (by
    [id], through tables then views) to different names, [fetchData] stops
    with the several-sources message, which gives the number of ids and
    the name found for each id in order, keeps no rows and calls no
    service. *)
Theorem distinct_sources_refused env report ds s id1 id2 :
  DataSource.type ds <> "custom" ->
  In id1 (tableIdsOf report) -> In id2 (tableIdsOf report) ->
  tableViewNameOf ds id1 <> tableViewNameOf ds id2 ->
  error (stateAfter env report (Some ds) s)
  = Some ("Live data fetch supports reports which select columns from a single table or view only. Found "
          ++ Js.Number_toString (Js.Array_length (tableIdsOf report))
          ++ " different sources: "
          ++ Js.join ", " (map (tableViewNameOf ds) (tableIdsOf report)))
  /\ data (stateAfter env report (Some ds) s) = []
  /\ callsOf env report (Some ds) s = [].
Proof.
  intros Hty H1 H2 Hdiff.
  apply Dispatch.fetchData_multi_source; try assumption.
  - apply (tableIds_need_columns report id1 H1).
  - apply (Dispatch.multiSourceCheck_distinct_names ds _ id1 id2); assumption.
Qed.

Lemma distinct_sources_refused_witness :
  error (stateAfter envRows reportMultipleTables (Some dsWithHidden) initialState)
  = Some "Live data fetch supports reports which select columns from a single table or view only. Found 2 different sources: users, salaries"
  /\ data (stateAfter envRows reportMultipleTables (Some dsWithHidden) initialState) = []
  /\ callsOf envRows reportMultipleTables (Some dsWithHidden) initialState = [].
Proof.
  apply (distinct_sources_refused envRows reportMultipleTables dsWithHidden initialState
           "table1" "table2").
  - discriminate.
  - left. reflexivity.
  - right. left. reflexivity.
  - discriminate.
Defined.

Lemma named_id_is_found ds id :
  tableViewNameOf ds id <> "UNKNOWN" ->
  exists item,
    find (fun t => Js.strictEq (TableDef.id t) id) (DataSource.tables ds) = Some item
    \/ find (fun v => Js.strictEq (TableDef.id v) id)
            (Js.orEmpty (DataSource.views ds)) = Some item.
Proof.
  unfold tableViewNameOf. intros H.
  destruct (find _ (DataSource.tables ds)) as [t |]; [exists t; left; reflexivity |].
  destruct (find _ (Js.orEmpty (DataSource.views ds))) as [v |];
    [exists v; right; reflexivity |].
  contradiction.
Qed.

(** X5: on a live source, when all the table ids of a report lead (by
    [id]) to one and the same name, other than [UNKNOWN], the report passes
    the single-source check however many ids there are, the target is
    looked up with the first id, and once that target is exposed and the
    columns resolve on it the live service is called for it. *)
Theorem duplicate_ids_reconciled env report ds s id0 rest n :
  DataSource.type ds <> "custom" ->
  tableIdsOf report = id0 :: rest ->
  (forall id, In id (tableIdsOf report) -> tableViewNameOf ds id = n) ->
  n <> "UNKNOWN" ->
  multiSourceCheck ds (tableIdsOf report) = None
  /\ foundTableId (findTarget ds false (tableIdsOf report)) = Some id0
  /\ (forall t cols,
        table (findTarget ds false (tableIdsOf report)) = Some t ->
        TableDef.exposed t = true ->
        resolveColumns t (isView (findTarget ds false (tableIdsOf report)))
          (ReportConfig.selectedColumns report) [] = inr cols ->
        callsOf env report (Some ds) s
        = [CallFetchTableData ds (TableDef.name t) cols 1000000
             (ReportConfig.filters report)]).
Proof.
  intros Hty Hids Hall Hn.
  assert (Hmulti : multiSourceCheck ds (tableIdsOf report) = None).
  { apply (Dispatch.multiSourceCheck_same_name ds _ n); try assumption.
    rewrite Hids. discriminate. }
  split; [exact Hmulti |]. split.
  - rewrite Hids.
    destruct (named_id_is_found ds id0) as (item & Hitem).
    + rewrite (Hall id0); [exact Hn | rewrite Hids; left; reflexivity].
    + apply (Dispatch.findTarget_first_id ds false id0 rest item Hitem).
  - intros t cols Htab Hexp Hcols.
    apply Dispatch.fetchData_live_call; [exact Hty |].
    repeat split; try assumption.
    apply (tableIds_need_columns report id0). rewrite Hids. left. reflexivity.
Qed.

Lemma duplicate_ids_reconciled_witness :
  multiSourceCheck (dsTwins "orders") (tableIdsOf reportOnTwins) = None
  /\ foundTableId (findTarget (dsTwins "orders") false (tableIdsOf reportOnTwins))
     = Some "t-1"
  /\ (forall t cols,
        table (findTarget (dsTwins "orders") false (tableIdsOf reportOnTwins)) = Some t ->
        TableDef.exposed t = true ->
        resolveColumns t
          (isView (findTarget (dsTwins "orders") false (tableIdsOf reportOnTwins)))
          (ReportConfig.selectedColumns reportOnTwins) [] = inr cols ->
        callsOf envRows reportOnTwins (Some (dsTwins "orders")) initialState
        = [CallFetchTableData (dsTwins "orders") (TableDef.name t) cols 1000000
             (ReportConfig.filters reportOnTwins)]).
Proof.
  apply (duplicate_ids_reconciled envRows reportOnTwins (dsTwins "orders") initialState
           "t-1" ["t-2"] "orders").
  - discriminate.
  - reflexivity.
  - intros id [<- | [<- | []]]; reflexivity.
  - discriminate.
Defined.

Lemma find_none_of {A : Type} (p : A -> bool) (l : list A) :
  (forall x, In x l -> p x = false) -> find p l = None.
Proof.
  induction l as [| a rest IH]; intros H; simpl; [reflexivity |].
  rewrite (H a (or_introl eq_refl)). apply IH. intros x Hin. apply H. right. exact Hin.
Qed.

Lemma find_some_of {A : Type} (p : A -> bool) (l : list A) (x : A) :
  In x l -> p x = true -> exists y, find p l = Some y.
Proof.
  induction l as [| a rest IH]; intros Hin Hp; simpl; [destruct Hin |].
  destruct (p a) eqn:E; [exists a; reflexivity |].
  destruct Hin as [-> | Hin]; [congruence | apply IH; assumption].
Qed.

Lemma resolveColumns_stops t isView pre rc post : forall acc,
  (forall x, In x pre ->
     exists col, In col (TableDef.columns t)
       /\ (ColumnDef.id col = ReportColumn.columnId x
           \/ ColumnDef.name col = ReportColumn.columnId x)) ->
  (forall col, In col (TableDef.columns t) ->
     ColumnDef.id col <> ReportColumn.columnId rc
     /\ ColumnDef.name col <> ReportColumn.columnId rc) ->
  resolveColumns t isView (pre ++ rc :: post) acc
  = inl (columnMessage isView t (ReportColumn.columnId rc)).
Proof.
  induction pre as [| x pre' IH]; intros acc Hpre Hrc; simpl.
  - rewrite find_none_of.
    + rewrite find_none_of; [reflexivity |].
      intros col Hin. destruct (Hrc col Hin) as [_ N2].
      unfold Js.strictEq. apply String.eqb_neq. exact N2.
    + intros col Hin. destruct (Hrc col Hin) as [N1 N2].
      unfold Js.strictEq. apply orb_false_iff.
      split; apply String.eqb_neq; assumption.
  - destruct (Hpre x (or_introl eq_refl)) as (col & Hin & Hmatch).
    destruct (find_some_of
                (fun cc => Js.strictEq (ColumnDef.id cc) (ReportColumn.columnId x)
                           || Js.strictEq (ColumnDef.name cc) (ReportColumn.columnId x))
                (TableDef.columns t) col Hin) as (y & Hy).
    { unfold Js.strictEq. apply orb_true_iff.
      destruct Hmatch as [E | E]; [left | right]; apply String.eqb_eq; exact E. }
    rewrite Hy. apply IH; [| exact Hrc].
    intros z Hz. apply Hpre. right. exact Hz.
Qed.

(** X6: on a live source whose target table is found and exposed, the
    first selected column that matches no column of the table, neither by
    [id] nor by [name], ends the run: the error names that column and the
    table, no rows are kept and no service is called, even when every
    other column resolves. *)
Theorem unknown_column_refused env report ds s t pre rc post :
  DataSource.type ds <> "custom" ->
  multiSourceCheck ds (tableIdsOf report) = None ->
  table (findTarget ds false (tableIdsOf report)) = Some t ->
  TableDef.exposed t = true ->
  ReportConfig.selectedColumns report = (pre ++ rc :: post)%list ->
  (forall x, In x pre ->
     exists col, In col (TableDef.columns t)
       /\ (ColumnDef.id col = ReportColumn.columnId x
           \/ ColumnDef.name col = ReportColumn.columnId x)) ->
  (forall col, In col (TableDef.columns t) ->
     ColumnDef.id col <> ReportColumn.columnId rc
     /\ ColumnDef.name col <> ReportColumn.columnId rc) ->
  error (stateAfter env report (Some ds) s)
  = Some ("Column " ++ ReportColumn.columnId rc ++ " not found on "
          ++ (if isView (findTarget ds false (tableIdsOf report)) then "view" else "table")
          ++ " " ++ TableDef.name t ++ ".")
  /\ data (stateAfter env report (Some ds) s) = []
  /\ callsOf env report (Some ds) s = [].
Proof.
  intros Hty Hmulti Htab Hexp Hsel Hpre Hrc.
  unfold stateAfter, callsOf, fetchData, fetchDataTry.
  rewrite (Dispatch.not_custom ds Hty), Hmulti, Htab, Hexp.
  rewrite Dispatch.length_not_zero
    by (rewrite Hsel; destruct pre; discriminate).
  cbn [negb]. rewrite Hsel, (resolveColumns_stops t _ pre rc post [] Hpre Hrc).
  repeat split.
Qed.

Lemma unknown_column_refused_witness :
  error (stateAfter envRows reportUnknownColumn (Some mockDataSource) initialState)
  = Some "Column col9 not found on table users."
  /\ data (stateAfter envRows reportUnknownColumn (Some mockDataSource) initialState) = []
  /\ callsOf envRows reportUnknownColumn (Some mockDataSource) initialState = [].
Proof.
  apply (unknown_column_refused envRows reportUnknownColumn mockDataSource initialState
           usersTable [ReportColumn.mk "table1" "col1" None None]
           (ReportColumn.mk "table1" "col9" None None) []).
  - discriminate.
  - reflexivity.
  - reflexivity.
  - reflexivity.
  - reflexivity.
  - intros x [<- | []]. exists (ColumnDef.mk "col1" "id" "number" None).
    split; [left; reflexivity | left; reflexivity].
  - intros col [<- | [<- | [<- | []]]]; split; discriminate.
Defined.

(** X7: the schema is consulted for a label only when the selected columns
    of the report carry exactly one table id: with none or several, the
    label of any field is what it would be without a data source (the
    report column's own alias, else the bare field name), whatever aliases
    the schema holds. *)
Theorem label_ignores_schema_without_single_table report ds fieldName :
  length (tableIdsOf report) <> 1%nat ->
  getAliasForField report ds fieldName = getAliasForField report None fieldName.
Proof.
  intros Hlen. unfold getAliasForField, aliasTableOf.
  destruct (tableIdsOf report) as [| a [| b more]]; try reflexivity.
  - destruct ds; reflexivity.
  - contradiction Hlen. reflexivity.
  - destruct ds; reflexivity.
Qed.

Lemma label_ignores_schema_without_single_table_witness :
  getAliasForField reportOnTwins (Some dsOrders) "id"
  = getAliasForField reportOnTwins None "id".
Proof.
  apply (label_ignores_schema_without_single_table reportOnTwins (Some dsOrders) "id").
  vm_compute. discriminate.
Defined.

End DispatchFacts.

(* ===================================================================== *)
(** ** More on the generative service *)
(* ===================================================================== *)

Module GenerativeFacts.
Import GeminiService Samples MoreSamples.

(** X8: the schema description sent to the model is blind to hidden tables
    and to views: adding a table with [exposed = false] anywhere among the
    tables, or changing the views in any way, leaves it unchanged. *)
Theorem schemaDescription_blind_to_hidden_and_views
    id name type before hidden after views id' name' type' views' :
  TableDef.exposed hidden = false ->
  schemaDescription (DataSource.mk id name type (before ++ hidden :: after) views)
  = schemaDescription (DataSource.mk id' name' type' (before ++ after) views').
Proof.
  intros H. unfold schemaDescription. cbn [DataSource.tables].
  rewrite !filter_app. cbn [filter]. rewrite H. reflexivity.
Qed.

Lemma schemaDescription_blind_to_hidden_and_views_witness :
  schemaDescription aiWithHidden = schemaDescription aiDataSource.
Proof.
  apply (schemaDescription_blind_to_hidden_and_views
           "ds1" "Test Database" "custom" [usersTable] salariesTable [] (Some [])
           "ds1" "Test Database" "custom" (Some [])).
  reflexivity.
Defined.

(** X9: [generateReportData] never fails and never sends more than one
    prompt.  Without an API key it sends none and returns no rows; with a
    key it sends [queryDescription] once; and it returns rows only when the
    model answered with a non-empty text that parses to those rows (a
    rejected call, a missing or empty text and unparsable text all give
    the empty array). *)
Theorem generateReportData_degrades_to_empty env ds report rowCount :
  (getApiKey env = EmptyString ->
   generateReportData env ds report rowCount = ([], []))
  /\ (getApiKey env <> EmptyString ->
      snd (generateReportData env ds report rowCount)
      = [queryDescription ds report rowCount])
  /\ (fst (generateReportData env ds report rowCount) <> [] ->
      exists text,
        text <> EmptyString
        /\ generateContent env GEMINI_MODEL (queryDescription ds report rowCount)
           = ResponseText (Some text)
        /\ JSON_parse env text = Some (fst (generateReportData env ds report rowCount))).
Proof.
  split; [| split].
  - intros H. unfold generateReportData. rewrite H. reflexivity.
  - apply Prompt.generateReportData_prompt.
  - unfold generateReportData, Js.truthy.
    destruct (String.eqb_spec (getApiKey env) EmptyString) as [E | N];
      cbn [negb fst]; [intros H; contradiction |].
    destruct (generateContent env GEMINI_MODEL (queryDescription ds report rowCount))
      as [[text |] |] eqn:Hresp; cbn [fst]; try (intros H; contradiction).
    destruct (String.eqb_spec text EmptyString) as [E | Ntext];
      cbn [negb fst]; [intros H; contradiction |].
    destruct (JSON_parse env text) as [rows |] eqn:Hparse; cbn [fst];
      [| intros H; contradiction].
    intros _. exists text. repeat split; assumption.
Qed.

Lemma generateReportData_degrades_to_empty_witness :
  snd (generateReportData geminiEnv aiDataSource mockReport 100)
  = [queryDescription aiDataSource mockReport 100].
Proof.
  apply (proj1 (proj2 (generateReportData_degrades_to_empty geminiEnv aiDataSource
                         mockReport 100))).
  discriminate.
Defined.

Lemma hydrateColumns_shape uuid (columns : list RawColumn.t) : forall next,
  map ColumnDef.name (fst (hydrateColumns uuid next columns))
  = map RawColumn.name columns
  /\ map ColumnDef.type (fst (hydrateColumns uuid next columns))
     = map RawColumn.type columns
  /\ map ColumnDef.id (fst (hydrateColumns uuid next columns))
     = map uuid (seq next (length columns))
  /\ snd (hydrateColumns uuid next columns) = (next + length columns)%nat.
Proof.
  induction columns as [| c rest IH]; intros next; simpl.
  - repeat split. lia.
  - specialize (IH (S next)).
    destruct (hydrateColumns uuid (S next) rest) as [cols next'].
    simpl in *. destruct IH as (H1 & H2 & H3 & H4).
    rewrite H1, H2, H3, H4. repeat split. lia.
Qed.




Lemma hydrateColumns_ids uuid (columns : list RawColumn.t) : forall next,
  map ColumnDef.id (fst (hydrateColumns uuid next columns))
  = map uuid (seq next (length columns))
  /\ snd (hydrateColumns uuid next columns) = (next + length columns)%nat.
Proof.
  intros next. destruct (hydrateColumns_shape uuid columns next) as (_ & _ & H3 & H4).
  split; assumption.
Qed.

Lemma hydrateTables_ids uuid (rawTables : list RawTable.t) : forall next,
  (next <= snd (hydrateTables uuid next rawTables))%nat
  /\ flat_map (fun t => TableDef.id t :: map ColumnDef.id (TableDef.columns t))
              (fst (hydrateTables uuid next rawTables))
     = map uuid (seq next (snd (hydrateTables uuid next rawTables) - next)).
Proof.
  induction rawTables as [| t rest IH]; intros next; simpl.
  - split; [lia |]. rewrite Nat.sub_diag. reflexivity.
  - destruct (hydrateColumns_ids uuid (RawTable.columns t) (S next)) as [Hids Hnext].
    destruct (hydrateColumns uuid (S next) (RawTable.columns t)) as [cols next'].
    cbn [fst snd] in Hids, Hnext.
    destruct (IH next') as [Hle Hrest].
    destruct (hydrateTables uuid next' rest) as [tables next''].
    cbn [fst snd] in *. split; [lia |].
    cbn [flat_map TableDef.id TableDef.columns]. rewrite Hids, Hrest.
    replace (next'' - next)%nat
      with (S (length (RawTable.columns t)) + (next'' - next'))%nat by lia.
    rewrite seq_app, map_app. cbn [seq map app].
    replace (next + S (length (RawTable.columns t)))%nat with next' by lia.
    reflexivity.
Qed.

Lemma NoDup_map_injective {A B : Type} (f : A -> B) (l : list A) :
  (forall a b, f a = f b -> a = b) -> NoDup l -> NoDup (map f l).
Proof.
  intros Hinj Hl. induction Hl as [| x l Hnotin Hl IH]; simpl; constructor; [| exact IH].
  intros Hin. apply in_map_iff in Hin. destruct Hin as (y & E & Hy).
  apply Hinj in E. subst y. contradiction.
Qed.

(** X29: provided [crypto.randomUUID()] never returns the same value
    twice, every table and every column of a discovered schema gets an
    identifier of its own: no two tables, no two columns (of one table or
    of different tables) and no table and column share an id. *)
Theorem discoverSchema_gives_fresh_ids env type dbName context :
  (forall a b, randomUUID env a = randomUUID env b -> a = b) ->
  NoDup (flat_map (fun t => TableDef.id t :: map ColumnDef.id (TableDef.columns t))
                  (fst (discoverSchema env type dbName context))).
Proof.
  intros Hinj. unfold discoverSchema.
  destruct (negb (Js.truthy (discoveryApiKey env))); [constructor |].
  destruct (discoveryContent env GEMINI_MODEL (schemaPrompt type dbName context))
    as [[text |] |]; try constructor.
  destruct (negb (Js.truthy text)); [constructor |].
  destruct (parseTables env text) as [rawTables |]; [| constructor].
  cbn [fst].
  destruct (hydrateTables_ids (randomUUID env) rawTables 0) as [_ ->].
  apply NoDup_map_injective; [exact Hinj | apply seq_NoDup].
Qed.

Lemma tally_length (n : nat) : String.length (tally n) = n.
Proof. induction n as [| k IH]; simpl; [reflexivity | now rewrite IH]. Qed.

Lemma discoverSchema_gives_fresh_ids_witness :
  NoDup (flat_map (fun t => TableDef.id t :: map ColumnDef.id (TableDef.columns t))
                  (fst (discoverSchema discoveryEnv "custom" "CustomDB" "HR system"))).
Proof.
  apply (discoverSchema_gives_fresh_ids discoveryEnv "custom" "CustomDB" "HR system").
  intros a b E. cbn in E. injection E as E.
  rewrite <- (tally_length a), <- (tally_length b), E. reflexivity.
Defined.

End GenerativeFacts.

(* ===================================================================== *)
(** ** The report builder's edits *)
(* ===================================================================== *)

Module BuilderFacts.
Import ReportBuilder Samples MoreSamples.

Lemma sameColumn_key tableId columnId c :
  sameColumn tableId columnId c = true <-> columnKey c = (tableId, columnId).
Proof.
  unfold sameColumn, columnKey, Js.strictEq. rewrite andb_true_iff, !String.eqb_eq.
  split; [intros [-> ->]; reflexivity | intros E; injection E; auto].
Qed.

Lemma withSelectedColumns_same config :
  withSelectedColumns (ReportConfig.selectedColumns config) config = config.
Proof. destruct config. reflexivity. Qed.

Lemma withoutFirst_last {A : Type} (test : A -> bool) (l : list A) (x : A) :
  find test l = None -> test x = true -> withoutFirst test (l ++ [x]) = l.
Proof.
  induction l as [| a rest IH]; simpl; intros Hnone Hx.
  - rewrite Hx. reflexivity.
  - destruct (test a); [discriminate Hnone |]. rewrite IH; auto.
Qed.

Lemma find_app_none {A : Type} (test : A -> bool) (l : list A) (x : A) :
  find test l = None -> find test (l ++ [x]) = if test x then Some x else None.
Proof.
  induction l as [| a rest IH]; simpl; intros Hnone; [reflexivity |].
  destruct (test a); [discriminate Hnone | apply IH; exact Hnone].
Qed.

(** X11: ticking a column that is not selected appends it, with no alias
    and the default formatting of its type, and leaves filters, sorts and
    the other columns alone; ticking it again gives back exactly the
    configuration one started from. *)
Theorem toggleColumn_twice_restores selectedDs tableId columnId config :
  find (sameColumn tableId columnId) (ReportConfig.selectedColumns config) = None ->
  ReportConfig.selectedColumns (toggleColumn selectedDs tableId columnId config)
  = (ReportConfig.selectedColumns config
       ++ [ReportColumn.mk tableId columnId None
             (Some (getDefaultFormatting (getColumnType selectedDs tableId columnId)))])%list
  /\ ReportConfig.filters (toggleColumn selectedDs tableId columnId config)
     = ReportConfig.filters config
  /\ toggleColumn selectedDs tableId columnId
       (toggleColumn selectedDs tableId columnId config) = config.
Proof.
  intros Hnone.
  assert (Hself : sameColumn tableId columnId
                    (ReportColumn.mk tableId columnId None
                       (Some (getDefaultFormatting
                                (getColumnType selectedDs tableId columnId)))) = true).
  { apply sameColumn_key. reflexivity. }
  unfold toggleColumn at 1 2. rewrite Hnone. cbn [ReportConfig.selectedColumns
    ReportConfig.filters withSelectedColumns].
  split; [reflexivity |]. split; [reflexivity |].
  unfold toggleColumn. rewrite Hnone.
  cbn [ReportConfig.selectedColumns withSelectedColumns].
  rewrite (find_app_none _ _ _ Hnone), Hself.
  rewrite (withoutFirst_last _ _ _ Hnone Hself).
  destruct config. reflexivity.
Qed.

Lemma toggleColumn_twice_restores_witness :
  toggleColumn (Some mockDataSource) "table1" "col3"
    (toggleColumn (Some mockDataSource) "table1" "col3" mockReport) = mockReport.
Proof.
  apply (proj2 (proj2 (toggleColumn_twice_restores (Some mockDataSource)
                         "table1" "col3" mockReport eq_refl))).
Defined.

Lemma withoutFirst_keys test (l : list ReportColumn.t) :
  forall k, In k (map columnKey (withoutFirst test l)) -> In k (map columnKey l).
Proof.
  induction l as [| a rest IH]; simpl; intros k H; [exact H |].
  destruct (test a); [right; exact H |].
  destruct H as [H | H]; [left; exact H | right; apply IH; exact H].
Qed.

Lemma withoutFirst_NoDup test (l : list ReportColumn.t) :
  NoDup (map columnKey l) -> NoDup (map columnKey (withoutFirst test l)).
Proof.
  induction l as [| a rest IH]; simpl; intros H; [exact H |].
  inversion H as [| k ks Hnotin Hrest]; subst.
  destruct (test a); [exact Hrest |].
  simpl. constructor; [| apply IH; exact Hrest].
  intros Hin. apply Hnotin. apply (withoutFirst_keys test rest). exact Hin.
Qed.

Lemma find_none_key tableId columnId (l : list ReportColumn.t) :
  find (sameColumn tableId columnId) l = None <->
  ~ In (tableId, columnId) (map columnKey l).
Proof.
  induction l as [| a rest IH]; simpl; [tauto |].
  destruct (sameColumn tableId columnId a) eqn:E.
  - apply sameColumn_key in E. split; [discriminate | intros H; exfalso; apply H; auto].
  - rewrite IH. split.
    + intros H [Ha | Hin]; [| exact (H Hin)].
      apply sameColumn_key in Ha. congruence.
    + intros H Hin. apply H. right. exact Hin.
Qed.

(** X12: [toggleColumn] keeps the selection free of repeated columns: if
    no two selected columns share table id and column id before, none do
    after; and then ticking a selected column really deselects it (no
    entry for it is left), while every other column stays selected. *)
Theorem toggleColumn_keeps_columns_unique selectedDs tableId columnId config :
  NoDup (map columnKey (ReportConfig.selectedColumns config)) ->
  NoDup (map columnKey
           (ReportConfig.selectedColumns (toggleColumn selectedDs tableId columnId config)))
  /\ (In (tableId, columnId) (map columnKey (ReportConfig.selectedColumns config)) ->
      ~ In (tableId, columnId)
           (map columnKey
              (ReportConfig.selectedColumns
                 (toggleColumn selectedDs tableId columnId config))))
  /\ (forall c, columnKey c <> (tableId, columnId) ->
        (In c (ReportConfig.selectedColumns
                 (toggleColumn selectedDs tableId columnId config))
         <-> In c (ReportConfig.selectedColumns config))).
Proof.
  intros Hnodup. unfold toggleColumn.
  destruct (find (sameColumn tableId columnId) (ReportConfig.selectedColumns config))
    as [found |] eqn:Hfind; cbn [ReportConfig.selectedColumns withSelectedColumns].
  - split; [apply withoutFirst_NoDup; exact Hnodup |]. split.
    + intros _. clear Hfind found.
      induction (ReportConfig.selectedColumns config) as [| a rest IH]; simpl; [tauto |].
      inversion Hnodup as [| k ks Hnotin Hrest]; subst.
      destruct (sameColumn tableId columnId a) eqn:E.
      * apply sameColumn_key in E. rewrite <- E. exact Hnotin.
      * simpl. intros [Ha | Hin]; [| exact (IH Hrest Hin)].
        apply sameColumn_key in Ha. congruence.
    + intros c Hc. clear Hfind found Hnodup.
      induction (ReportConfig.selectedColumns config) as [| a rest IH]; simpl; [tauto |].
      destruct (sameColumn tableId columnId a) eqn:E.
      * apply sameColumn_key in E. split; [auto |].
        intros [-> | H]; [contradiction | exact H].
      * simpl. rewrite IH. tauto.
  - apply find_none_key in Hfind. split; [| split].
    + rewrite map_app. simpl.
      apply NoDup_app; [exact Hnodup | repeat constructor; intros [] |].
      intros k Hk [<- | []]. exact (Hfind Hk).
    + intros H. contradiction.
    + intros c Hc. rewrite in_app_iff. simpl. split; [| auto].
      intros [H | [<- | []]]; [exact H |]. exfalso. apply Hc. reflexivity.
Qed.

Lemma toggleColumn_keeps_columns_unique_witness :
  NoDup (map columnKey
           (ReportConfig.selectedColumns
              (toggleColumn (Some mockDataSource) "table1" "col1" mockReport)))
  /\ ~ In ("table1", "col1")
          (map columnKey
             (ReportConfig.selectedColumns
                (toggleColumn (Some mockDataSource) "table1" "col1" mockReport))).
Proof.
  pose proof (toggleColumn_keeps_columns_unique (Some mockDataSource) "table1" "col1"
                mockReport) as H.
  destruct H as (H1 & H2 & _).
  - repeat constructor; simpl; intuition discriminate.
  - split; [exact H1 | apply H2; left; reflexivity].
Defined.

(** X13: [updateColumnFormatting] changes formatting and nothing else.
    The selected columns keep their table ids, column ids, aliases and
    order; every column with the given table id and column id gets the new
    formatting; every other column is left as it was; filters and sorts are
    untouched. *)
Theorem updateColumnFormatting_sets_only_formatting tableId columnId formatting config :
  let after := updateColumnFormatting tableId columnId formatting config in
  map columnKey (ReportConfig.selectedColumns after)
  = map columnKey (ReportConfig.selectedColumns config)
  /\ map ReportColumn.alias (ReportConfig.selectedColumns after)
     = map ReportColumn.alias (ReportConfig.selectedColumns config)
  /\ map ReportColumn.formatting (ReportConfig.selectedColumns after)
     = map (fun c => if sameColumn tableId columnId c then Some formatting
                     else ReportColumn.formatting c)
           (ReportConfig.selectedColumns config)
  /\ ReportConfig.filters after = ReportConfig.filters config
  /\ ReportConfig.sorts after = ReportConfig.sorts config.
Proof.
  unfold updateColumnFormatting. cbn.
  repeat split; rewrite map_map; apply map_ext; intros c;
    destruct (sameColumn tableId columnId c); reflexivity.
Qed.

(** [equals] is offered for every column type. *)
Lemma equals_always_offered (T : string) : In "equals" (operatorsFor T).
Proof.
  destruct (OperatorMatrix.operatorsFor_cases T)
    as [[_ R] | [[_ R] | [[_ R] | [[_ R] | [_ R]]]]]; rewrite R; left; reflexivity.
Qed.

(** X14: [addFilter] with no data source selected, or with one that has no
    exposed table or view, leaves the configuration as it is.  Otherwise
    it looks at the first exposed table or view (tables first): when that
    one has no column the handler throws, and when it has, one filter is
    appended, on that table and its first column, with the given identifier,
    an empty value, no second value and the operator [equals], which is
    among the operators offered for that column's type whatever the type
    is; selected columns, sorts and the rest of the configuration are
    kept. *)
Theorem addFilter_adds_a_legal_filter selectedDs uuid config :
  (selectedDs = None -> addFilter selectedDs uuid config = Done config)
  /\ (forall ds,
        selectedDs = Some ds ->
        let candidates := (DataSource.tables ds ++ Js.orEmpty (DataSource.views ds))%list in
        (Js.NoneWith (fun t => TableDef.exposed t = true) candidates ->
         addFilter selectedDs uuid config = Done config)
        /\ (forall t,
              Js.FirstWith (fun t => TableDef.exposed t = true) candidates t ->
              (TableDef.columns t = [] ->
               addFilter selectedDs uuid config = TypeError)
              /\ (forall first rest,
                    TableDef.columns t = first :: rest ->
                    exists after,
                      addFilter selectedDs uuid config = Done after
                      /\ ReportConfig.filters after
                         = (ReportConfig.filters config
                              ++ [FilterCondition.mk uuid (TableDef.id t)
                                    (ColumnDef.id first) "equals" EmptyString None])%list
                      /\ ReportConfig.selectedColumns after
                         = ReportConfig.selectedColumns config
                      /\ ReportConfig.sorts after = ReportConfig.sorts config
                      /\ ReportConfig.dataSourceId after
                         = ReportConfig.dataSourceId config
                      /\ ReportConfig.name after = ReportConfig.name config
                      /\ In "equals"
                            (operatorsFor
                               (getColumnType selectedDs (TableDef.id t)
                                  (ColumnDef.id first)))))).
Proof.
  split; [intros ->; reflexivity |].
  intros ds ->. cbv zeta. unfold addFilter, allTablesAndViews.
  pose proof (FindFacts.find_first_iff (fun t => TableDef.exposed t)
                (fun t => TableDef.exposed t = true) (fun y => iff_refl _)
                (DataSource.tables ds ++ Js.orEmpty (DataSource.views ds))%list)
    as Hfirst.
  pose proof (FindFacts.find_none_iff (fun t => TableDef.exposed t)
                (fun t => TableDef.exposed t = true) (fun y => iff_refl _)
                (DataSource.tables ds ++ Js.orEmpty (DataSource.views ds))%list)
    as Hnone.
  split.
  - intros H. apply Hnone in H. rewrite H. reflexivity.
  - intros t H. apply Hfirst in H. rewrite H. split.
    + intros ->. reflexivity.
    + intros first rest ->. eexists. split; [reflexivity |].
      repeat split. apply equals_always_offered.
Qed.

(** On the sample schema the new filter is on the column [id] of
    [users]. *)
Lemma addFilter_adds_a_legal_filter_witness :
  exists after,
    addFilter (Some mockDataSource) "uuid-1" mockReport = Done after
    /\ ReportConfig.filters after
       = [FilterCondition.mk "uuid-1" "table1" "col1" "equals" EmptyString None]
    /\ ReportConfig.selectedColumns after = mockColumns
    /\ ReportConfig.sorts after = []
    /\ ReportConfig.dataSourceId after = "ds1"
    /\ ReportConfig.name after = "Test Report"
    /\ In "equals" (operatorsFor (getColumnType (Some mockDataSource) "table1" "col1")).
Proof.
  apply (proj2 (proj2 (addFilter_adds_a_legal_filter (Some mockDataSource) "uuid-1"
                         mockReport)
                  mockDataSource eq_refl) usersTable)
    with (first := ColumnDef.mk "col1" "id" "number" None)
         (rest := [ ColumnDef.mk "col2" "name" "string" None;
                    ColumnDef.mk "col3" "email" "string" None ]).
  - exists [], []. split; [reflexivity |]. split; [constructor | reflexivity].
  - reflexivity.
Defined.

Lemma splice1_app_last {A : Type} (l : list A) (x : A) :
  splice1 (length l) (l ++ [x]) = l.
Proof. induction l as [| a rest IH]; simpl; [reflexivity | now rewrite IH]. Qed.

Lemma splice1_beyond {A : Type} (l : list A) : forall index,
  (length l <= index)%nat -> splice1 index l = l.
Proof.
  induction l as [| a rest IH]; intros index H; simpl; [reflexivity |].
  destruct index as [| i]; simpl in H; [lia |].
  rewrite IH by lia. reflexivity.
Qed.

Lemma splice1_nth {A : Type} (l : list A) : forall index j,
  nth_error (splice1 index l) j
  = if Nat.ltb j index then nth_error l j else nth_error l (S j).
Proof.
  induction l as [| a rest IH]; intros index j; simpl.
  - destruct (Nat.ltb j index); destruct j; reflexivity.
  - destruct index as [| i]; [reflexivity |].
    destruct j as [| j']; [reflexivity |].
    simpl. rewrite IH. reflexivity.
Qed.

Lemma splice1_length {A : Type} (l : list A) : forall index,
  (index < length l)%nat -> S (length (splice1 index l)) = length l.
Proof.
  induction l as [| a rest IH]; intros index H; simpl in *; [lia |].
  destruct index as [| i]; [reflexivity |].
  simpl. rewrite IH by lia. reflexivity.
Qed.

Lemma withFilters_same config :
  withFilters (ReportConfig.filters config) config = config.
Proof. destruct config. reflexivity. Qed.

(** X15: [removeFilter] removes the filter at the given position and shifts
    the later ones down by one, so that the list is one shorter; a position
    past the end changes nothing; and removing the last position after
    [addFilter] gives back the configuration from before the addition. *)
Theorem removeFilter_removes_one_position index config :
  (forall j, nth_error (ReportConfig.filters (removeFilter index config)) j
             = if Nat.ltb j index then nth_error (ReportConfig.filters config) j
               else nth_error (ReportConfig.filters config) (S j))
  /\ ((index < length (ReportConfig.filters config))%nat ->
      S (length (ReportConfig.filters (removeFilter index config)))
      = length (ReportConfig.filters config))
  /\ ((length (ReportConfig.filters config) <= index)%nat ->
      removeFilter index config = config)
  /\ (forall selectedDs uuid after,
        addFilter selectedDs uuid config = Done after ->
        removeFilter (length (ReportConfig.filters config)) after = config).
Proof.
  unfold removeFilter. cbn [ReportConfig.filters withFilters].
  split; [| split; [| split]].
  - intros j. destruct config; cbn. apply splice1_nth.
  - intros H. destruct config; cbn in *. apply splice1_length. exact H.
  - intros H. rewrite splice1_beyond by exact H. apply withFilters_same.
  - intros selectedDs uuid after Hadd. unfold addFilter in Hadd.
    assert (Hsame : withFilters (splice1 (length (ReportConfig.filters config))
                                   (ReportConfig.filters config)) config = config).
    { rewrite splice1_beyond by lia. apply withFilters_same. }
    destruct selectedDs as [ds |]; [| injection Hadd as <-; exact Hsame].
    destruct (find _ _) as [t |]; [| injection Hadd as <-; exact Hsame].
    destruct (TableDef.columns t) as [| first rest]; [discriminate Hadd |].
    injection Hadd as <-. destruct config; cbn.
    rewrite splice1_app_last. reflexivity.
Qed.

Lemma removeFilter_removes_one_position_witness :
  S (length (ReportConfig.filters (removeFilter 0 reportWithBadFilter)))
  = length (ReportConfig.filters reportWithBadFilter)
  /\ removeFilter 3 reportWithBadFilter = reportWithBadFilter.
Proof.
  split.
  - apply (proj1 (proj2 (removeFilter_removes_one_position 0 reportWithBadFilter))).
    simpl. lia.
  - apply (proj1 (proj2 (proj2 (removeFilter_removes_one_position 3 reportWithBadFilter)))).
    simpl. lia.
Defined.




(** X17: the filter panel always has the inputs its operators need, for
    the five column types.  For each of them, an operator offered for the
    type that takes a value gets a value input, and an operator that takes
    two values ([between]) gets a second input, whatever the type it is
    offered for; an operator that takes two values takes one. *)
Theorem offered_operators_have_their_inputs columnType operator :
  In operator (operatorsFor columnType) ->
  (In columnType OperatorTable.knownTypes ->
   needsValueInput operator = true ->
   valueInput columnType operator <> None)
  /\ (needsTwoValues operator = true ->
      needsValueInput operator = true
      /\ secondValueInput columnType operator <> None).
Proof.
  intros Hop.
  destruct (OperatorMatrix.operatorsFor_cases columnType)
    as [[E R] | [[E R] | [[E R] | [[E R] | [E R]]]]]; rewrite R in Hop.
  - subst columnType. split.
    + intros _ Hv. unfold valueInput. rewrite Hv. discriminate.
    + intros H2. unfold needsTwoValues, Js.strictEq in H2.
      apply String.eqb_eq in H2. subst operator. simpl in Hop.
      repeat (destruct Hop as [Hop | Hop]; [discriminate Hop |]). contradiction.
  - split.
    + intros _ Hv. unfold valueInput. rewrite Hv.
      destruct E as [-> | ->]; discriminate.
    + intros H2. unfold needsTwoValues, Js.strictEq in H2.
      apply String.eqb_eq in H2. subst operator. split; [reflexivity |].
      destruct E as [-> | ->]; discriminate.
  - subst columnType. split.
    + intros _ Hv. unfold valueInput. rewrite Hv. discriminate.
    + intros H2. unfold needsTwoValues, Js.strictEq in H2.
      apply String.eqb_eq in H2. subst operator. split; [reflexivity | discriminate].
  - subst columnType. split.
    + intros _ Hv. unfold valueInput. rewrite Hv. discriminate.
    + intros H2. unfold needsTwoValues, Js.strictEq in H2.
      apply String.eqb_eq in H2. subst operator. simpl in Hop.
      repeat (destruct Hop as [Hop | Hop]; [discriminate Hop |]). contradiction.
  - split.
    + intros Hk. contradiction.
    + intros H2. unfold needsTwoValues, Js.strictEq in H2.
      apply String.eqb_eq in H2. subst operator. simpl in Hop.
      repeat (destruct Hop as [Hop | Hop]; [discriminate Hop |]). contradiction.
Qed.

Lemma offered_operators_have_their_inputs_witness :
  needsValueInput "between" = true
  /\ secondValueInput "currency" "between" <> None.
Proof.
  apply (proj2 (offered_operators_have_their_inputs "currency" "between"
                  ltac:(vm_compute; tauto))).
  reflexivity.
Defined.

(** X18: for a column whose type is none of the five (a schema may carry
    [integer], say), the panel offers [equals], [not_equals] and
    [contains], all of which take a value, but renders no value input at
    all, whatever the operator. *)
Theorem unknown_type_has_no_value_input columnType :
  ~ In columnType OperatorTable.knownTypes ->
  (forall operator, valueInput columnType operator = None
                    /\ secondValueInput columnType operator = None)
  /\ (forall operator, In operator ["equals"; "not_equals"; "contains"] ->
        In operator (operatorsFor columnType) /\ needsValueInput operator = true).
Proof.
  intros Hunknown.
  assert (Hne : forall T, In T OperatorTable.knownTypes ->
                          Js.strictEq columnType T = false).
  { intros T HT. unfold Js.strictEq. apply String.eqb_neq. intros ->. contradiction. }
  split.
  - intros operator. unfold valueInput, secondValueInput.
    rewrite (Hne "date"), (Hne "number"), (Hne "currency"), (Hne "boolean"),
      (Hne "string") by (simpl; tauto).
    cbn. destruct (needsValueInput operator), (needsTwoValues operator); split; reflexivity.
  - intros operator Hin.
    destruct (OperatorMatrix.operatorsFor_cases columnType)
      as [[E _] | [[E _] | [[E _] | [[E _] | [_ R]]]]];
      try solve [exfalso; apply Hunknown; simpl; intuition].
    rewrite R. simpl in Hin.
    destruct Hin as [<- | [<- | [<- | []]]]; split; try reflexivity; simpl; tauto.
Qed.

Lemma unknown_type_has_no_value_input_witness :
  valueInput "integer" "equals" = None
  /\ secondValueInput "integer" "equals" = None.
Proof.
  apply (proj1 (unknown_type_has_no_value_input "integer"
                  ltac:(simpl; intuition discriminate))).
Defined.

(** X30: a column ticked in the builder can be fetched by the viewer.  On
    a live source, starting from a report with nothing selected, ticking a
    column of an exposed table (table and column being the ones their ids
    lead to) gives a report for which the viewer calls the live service
    once, for that table's name and that column's name. *)
Theorem ticked_column_is_fetched env s ds t c config :
  DataSource.type ds <> "custom" ->
  ReportConfig.selectedColumns config = [] ->
  find (fun x => Js.strictEq (TableDef.id x) (TableDef.id t)
                 || Js.strictEq (TableDef.name x) (TableDef.id t))
       (DataSource.tables ds) = Some t ->
  TableDef.exposed t = true ->
  find (fun cc => Js.strictEq (ColumnDef.id cc) (ColumnDef.id c)
                  || Js.strictEq (ColumnDef.name cc) (ColumnDef.id c))
       (TableDef.columns t) = Some c ->
  ReportViewer.callsOf env
    (toggleColumn (Some ds) (TableDef.id t) (ColumnDef.id c) config) (Some ds) s
  = [ReportViewer.CallFetchTableData ds (TableDef.name t) [ColumnDef.name c] 1000000
       (ReportConfig.filters config)].
Proof.
  intros Hty Hsel Htab Hexp Hcol.
  assert (Hfilters : ReportConfig.filters
                       (toggleColumn (Some ds) (TableDef.id t) (ColumnDef.id c) config)
                     = ReportConfig.filters config).
  { unfold toggleColumn. rewrite Hsel. reflexivity. }
  rewrite <- Hfilters.
  apply Dispatch.fetchData_live_call; [exact Hty |].
  unfold ReportViewer.PassesValidation, ReportViewer.tableIdsOf, toggleColumn.
  rewrite Hsel.
  cbn [find ReportConfig.selectedColumns withSelectedColumns app map
       ReportColumn.tableId ReportColumn.columnId Js.Array_from_Set Js.setInsertAll
       Js.includes existsb ReportViewer.findTarget].
  rewrite Htab. cbn [ReportViewer.table ReportViewer.isView ReportViewer.resolveColumns
                     ReportColumn.columnId].
  rewrite Hcol. repeat split; try assumption. discriminate.
Qed.

Lemma ticked_column_is_fetched_witness :
  ReportViewer.callsOf envRows
    (toggleColumn (Some mockDataSource) "table1" "col3" newReport)
    (Some mockDataSource) ReportViewer.initialState
  = [ReportViewer.CallFetchTableData mockDataSource "users" ["email"] 1000000 []].
Proof.
  apply (ticked_column_is_fetched envRows ReportViewer.initialState mockDataSource
           usersTable (ColumnDef.mk "col3" "email" "string" None) newReport);
    try reflexivity.
  discriminate.
Defined.

End BuilderFacts.

(* ===================================================================== *)
(** ** Schema edits in the data source form, and what the viewer makes of
    them *)
(* ===================================================================== *)

Module SchemaFacts.
Import DataSourceView ReportViewer Samples MoreSamples.

(** X19: [toggleTableExposure] flips the [exposed] flag of the tables with
    the given id and of no other, keeps ids, names, aliases, columns and
    order, and is its own inverse: toggling twice gives back the form as it
    was. *)
Theorem toggleTableExposure_is_an_involution tableId formData :
  toggleTableExposure tableId (toggleTableExposure tableId formData) = formData
  /\ option_map (map (fun t => (TableDef.id t, TableDef.name t, TableDef.alias t,
                                TableDef.columns t)))
                (tables (toggleTableExposure tableId formData))
     = option_map (map (fun t => (TableDef.id t, TableDef.name t, TableDef.alias t,
                                  TableDef.columns t)))
                  (tables formData)
  /\ option_map (map TableDef.exposed) (tables (toggleTableExposure tableId formData))
     = option_map (map (fun t => if Js.strictEq (TableDef.id t) tableId
                                 then negb (TableDef.exposed t)
                                 else TableDef.exposed t))
                  (tables formData).
Proof.
  destruct formData as [n ty [ts |]]; unfold toggleTableExposure, withTables; cbn;
    [| repeat split].
  split; [| split].
  - do 2 f_equal. rewrite map_map. rewrite <- (map_id ts) at 2.
    apply map_ext. intros t. unfold Js.strictEq.
    destruct (String.eqb (TableDef.id t) tableId) eqn:E; cbn; rewrite E;
      [| reflexivity].
    destruct t; cbn. rewrite negb_involutive. reflexivity.
  - f_equal. rewrite map_map. apply map_ext. intros t.
    destruct (Js.strictEq (TableDef.id t) tableId); reflexivity.
  - f_equal. rewrite map_map. apply map_ext. intros t.
    destruct (Js.strictEq (TableDef.id t) tableId); reflexivity.
Qed.

Lemma single_id_passes (ds : DataSource.t) (tid : string) :
  multiSourceCheck ds [tid] = None.
Proof. reflexivity. Qed.

Lemma single_id_needs_columns report tid :
  tableIdsOf report = [tid] -> ReportConfig.selectedColumns report <> [].
Proof. intros H E. unfold tableIdsOf in H. rewrite E in H. discriminate H. Qed.

(** X20: hiding a table in the form hides it from live reports.  When a
    data source is opened in the form, the exposed table a report points to
    (by its id) is toggled and the form is saved, the viewer refuses that
    report on the saved source with the not-found-or-not-exposed message
    and calls no service. *)
Theorem hidden_table_is_refused_by_viewer env report s ds saved uuid tid t :
  dataSourceToSave (Some (DataSource.id ds)) uuid
    (toggleTableExposure tid (startEdit ds)) = Some saved ->
  DataSource.type saved <> "custom" ->
  tableIdsOf report = [tid] ->
  find (fun x => Js.strictEq (TableDef.id x) tid || Js.strictEq (TableDef.name x) tid)
       (DataSource.tables ds) = Some t ->
  TableDef.id t = tid ->
  TableDef.exposed t = true ->
  callsOf env report (Some saved) s = []
  /\ data (stateAfter env report (Some saved) s) = []
  /\ error (stateAfter env report (Some saved) s)
     = Some ("Target table not found or not exposed in datasource. Looking for IDs: "
             ++ tid).
Proof.
  intros Hsave Hty Hids Hfind Hid Hexp.
  unfold dataSourceToSave, startEdit, toggleTableExposure, withTables in Hsave.
  cbn in Hsave.
  destruct (Js.truthy (DataSource.name ds)); [| discriminate Hsave].
  injection Hsave as <-.
  unfold callsOf, stateAfter, fetchData, fetchDataTry.
  rewrite (Dispatch.not_custom _ Hty),
    (Dispatch.length_not_zero _ (single_id_needs_columns report tid Hids)), Hids.
  cbn [multiSourceCheck Js.Array_length length N.of_nat N.eqb negb Pos.eqb
       Pos.of_succ_nat findTarget DataSource.tables DataSource.views].
  rewrite Rendering.find_map_same
    by (intros x; unfold Js.strictEq;
        destruct (String.eqb (TableDef.id x) tid) eqn:E; cbn; rewrite ?E; reflexivity).
  rewrite Hfind. cbn [option_map table isView].
  rewrite Hid. unfold Js.strictEq. rewrite !String.eqb_refl.
  cbn [TableDef.exposed]. rewrite Hexp. cbn. repeat split.
Qed.

Lemma hidden_table_is_refused_by_viewer_witness :
  callsOf envRows mockReport
    (dataSourceToSave (Some "ds1") "fresh-id"
       (toggleTableExposure "table1" (startEdit mockDataSource))) initialState = []
  /\ data (stateAfter envRows mockReport
             (dataSourceToSave (Some "ds1") "fresh-id"
                (toggleTableExposure "table1" (startEdit mockDataSource)))
             initialState) = []
  /\ error (stateAfter envRows mockReport
              (dataSourceToSave (Some "ds1") "fresh-id"
                 (toggleTableExposure "table1" (startEdit mockDataSource)))
              initialState)
     = Some "Target table not found or not exposed in datasource. Looking for IDs: table1".
Proof.
  apply (hidden_table_is_refused_by_viewer envRows mockReport initialState
           mockDataSource _ "fresh-id" "table1" usersTable).
  - reflexivity.
  - discriminate.
  - reflexivity.
  - reflexivity.
  - reflexivity.
  - reflexivity.
Defined.

(** X21: the data source [handleSave] builds has no views.  So after a
    data source with views is opened in the form and saved, a live report
    whose table id matches no table (by id or by name), a report on one of
    the former views for instance, is refused by the viewer with the
    not-found-or-not-exposed message, and no service is called. *)
Theorem saving_drops_views env report s ds saved editingId uuid tid :
  dataSourceToSave editingId uuid (startEdit ds) = Some saved ->
  DataSource.type saved <> "custom" ->
  tableIdsOf report = [tid] ->
  (forall t, In t (DataSource.tables ds) ->
             TableDef.id t <> tid /\ TableDef.name t <> tid) ->
  DataSource.views saved = None
  /\ callsOf env report (Some saved) s = []
  /\ error (stateAfter env report (Some saved) s)
     = Some ("Target table not found or not exposed in datasource. Looking for IDs: "
             ++ tid).
Proof.
  intros Hsave Hty Hids Hnone.
  unfold dataSourceToSave, startEdit in Hsave. cbn in Hsave.
  destruct (Js.truthy (DataSource.name ds)); [| discriminate Hsave].
  injection Hsave as <-. split; [reflexivity |].
  unfold callsOf, stateAfter, fetchData, fetchDataTry.
  rewrite (Dispatch.not_custom _ Hty),
    (Dispatch.length_not_zero _ (single_id_needs_columns report tid Hids)), Hids.
  cbn [multiSourceCheck Js.Array_length length N.of_nat N.eqb negb Pos.eqb
       Pos.of_succ_nat findTarget DataSource.tables DataSource.views Js.orEmpty].
  rewrite DispatchFacts.find_none_of.
  - cbn. split; reflexivity.
  - intros t Hin. destruct (Hnone t Hin) as [N1 N2].
    unfold Js.strictEq. apply orb_false_iff. split; apply String.eqb_neq; assumption.
Qed.

Lemma saving_drops_views_witness :
  DataSource.views dsOrders = Some [recentOrdersView]
  /\ callsOf envRows reportOnView (Some dsOrders) initialState
     = [CallFetchTableData dsOrders "recent_orders" ["id"] 1000000 []]
  /\ callsOf envRows reportOnView
       (dataSourceToSave (Some "ds3") "fresh-id" (startEdit dsOrders)) initialState = []
  /\ error (stateAfter envRows reportOnView
              (dataSourceToSave (Some "ds3") "fresh-id" (startEdit dsOrders))
              initialState)
     = Some "Target table not found or not exposed in datasource. Looking for IDs: v-recent".
Proof.
  split; [reflexivity |]. split; [reflexivity |].
  apply (saving_drops_views envRows reportOnView initialState dsOrders _
           (Some "ds3") "fresh-id" "v-recent").
  - reflexivity.
  - discriminate.
  - reflexivity.
  - intros t [<- | []]. split; discriminate.
Defined.

(** *** Edits that keep ids, names and exposure *)

(** Column resolution reads the table's name and, of its columns, ids and
    names only. *)
Lemma resolveColumns_same_names (h : ColumnDef.t -> ColumnDef.t) (t t' : TableDef.t)
    isView selected :
  TableDef.name t' = TableDef.name t ->
  TableDef.columns t' = map h (TableDef.columns t) ->
  (forall c, ColumnDef.id (h c) = ColumnDef.id c
             /\ ColumnDef.name (h c) = ColumnDef.name c) ->
  forall acc, resolveColumns t' isView selected acc = resolveColumns t isView selected acc.
Proof.
  intros Hname Hcols Hh.
  induction selected as [| rc rest IH]; intros acc; simpl; [reflexivity |].
  set (byIdOrName := fun cc : ColumnDef.t =>
         Js.strictEq (ColumnDef.id cc) (ReportColumn.columnId rc)
         || Js.strictEq (ColumnDef.name cc) (ReportColumn.columnId rc)).
  set (byName := fun cc : ColumnDef.t =>
         Js.strictEq (ColumnDef.name cc) (ReportColumn.columnId rc)).
  rewrite Hcols.
  rewrite (Rendering.find_map_same byIdOrName h)
    by (intros c; unfold byIdOrName; destruct (Hh c) as [E1 E2];
        rewrite E1, E2; reflexivity).
  rewrite (Rendering.find_map_same byName h)
    by (intros c; unfold byName; destruct (Hh c) as [E1 E2];
        rewrite E2; reflexivity).
  destruct (find byIdOrName (TableDef.columns t)) as [col |]; cbn [option_map].
  - rewrite (proj2 (Hh col)). apply IH.
  - destruct (find byName (TableDef.columns t)) as [col |]; cbn [option_map].
    + rewrite (proj2 (Hh col)). apply IH.
    + unfold columnMessage. rewrite Hname. reflexivity.
Qed.

Section ShapePreservingEdit.

Variable g : TableDef.t -> TableDef.t.
Hypothesis g_id : forall t, TableDef.id (g t) = TableDef.id t.
Hypothesis g_name : forall t, TableDef.name (g t) = TableDef.name t.
Hypothesis g_exposed : forall t, TableDef.exposed (g t) = TableDef.exposed t.
Hypothesis g_columns : forall t isView selected acc,
  resolveColumns (g t) isView selected acc = resolveColumns t isView selected acc.

Variables (i n ty : string) (ts : list TableDef.t).

Lemma edited_names id :
  tableViewNameOf (DataSource.mk i n ty (map g ts) None) id
  = tableViewNameOf (DataSource.mk i n ty ts None) id.
Proof.
  unfold tableViewNameOf. cbn [DataSource.tables DataSource.views].
  rewrite Rendering.find_map_same by (intros t; rewrite g_id; reflexivity).
  destruct (find _ ts) as [t |]; cbn [option_map]; [apply g_name | reflexivity].
Qed.

Lemma edited_check ids :
  multiSourceCheck (DataSource.mk i n ty (map g ts) None) ids
  = multiSourceCheck (DataSource.mk i n ty ts None) ids.
Proof.
  unfold multiSourceCheck, allTableViewNamesOf.
  rewrite (map_ext _ _ edited_names). reflexivity.
Qed.

Lemma edited_target ids : forall isView0,
  findTarget (DataSource.mk i n ty (map g ts) None) isView0 ids
  = let target := findTarget (DataSource.mk i n ty ts None) isView0 ids in
    mkTarget (option_map g (table target)) (isView target) (foundTableId target).
Proof.
  induction ids as [| id rest IH]; intros isView0; [reflexivity |].
  cbn [findTarget DataSource.tables DataSource.views Js.orEmpty find].
  rewrite Rendering.find_map_same
    by (intros t; rewrite g_id, g_name; reflexivity).
  destruct (find _ ts) as [t |]; cbn [option_map]; [reflexivity | apply IH].
Qed.

(** Such an edit changes neither whether the live service is called nor
    what it is asked for. *)
Lemma edited_requests env report s :
  map requestOf (callsOf env report (Some (DataSource.mk i n ty (map g ts) None)) s)
  = map requestOf (callsOf env report (Some (DataSource.mk i n ty ts None)) s).
Proof.
  unfold callsOf, fetchData, fetchDataTry. cbn [DataSource.type].
  destruct (Js.strictEq ty "custom").
  - destruct (generateReportData env _ report 100);
      destruct (generateReportData env _ report 100); reflexivity.
  - destruct (N.eqb (Js.Array_length (ReportConfig.selectedColumns report)) 0);
      [reflexivity |].
    rewrite edited_check.
    destruct (multiSourceCheck _ (tableIdsOf report)); [reflexivity |].
    rewrite edited_target. cbn zeta. cbn [table isView].
    destruct (table (findTarget (DataSource.mk i n ty ts None) false (tableIdsOf report)))
      as [t |]; cbn [option_map]; [| reflexivity].
    rewrite g_exposed.
    destruct (TableDef.exposed t); cbn [negb]; [| reflexivity].
    rewrite g_columns, g_name.
    destruct (resolveColumns t _ (ReportConfig.selectedColumns report) [])
      as [msg | cols]; [reflexivity |].
    destruct (fetchTableData env _ (TableDef.name t) cols 1000000 _);
      destruct (fetchTableData env _ (TableDef.name t) cols 1000000 _); reflexivity.
Qed.

End ShapePreservingEdit.

(** X22: editing metadata in the form never changes what a live report
    fetches.  Take a data source opened in the form and saved as it is, and
    the same saved after [updateTableMetadata] or [updateColumnMetadata]
    (any table, column, field and value): for every report the viewer
    makes the same calls on both, with the same table name, column names,
    limit and filters. *)
Theorem metadata_edits_keep_the_request env report s ds uuid plain :
  dataSourceToSave (Some (DataSource.id ds)) uuid (startEdit ds) = Some plain ->
  (forall id field value edited,
     dataSourceToSave (Some (DataSource.id ds)) uuid
       (updateTableMetadata id field value (startEdit ds)) = Some edited ->
     map requestOf (callsOf env report (Some edited) s)
     = map requestOf (callsOf env report (Some plain) s))
  /\ (forall tableId colId field value edited,
        dataSourceToSave (Some (DataSource.id ds)) uuid
          (updateColumnMetadata tableId colId field value (startEdit ds)) = Some edited ->
        map requestOf (callsOf env report (Some edited) s)
        = map requestOf (callsOf env report (Some plain) s)).
Proof.
  intros Hplain.
  unfold dataSourceToSave, startEdit in Hplain. cbn in Hplain.
  destruct (Js.truthy (DataSource.name ds)) eqn:Hname; [| discriminate Hplain].
  injection Hplain as <-. split.
  - intros id field value edited Hsave.
    unfold dataSourceToSave, startEdit, updateTableMetadata, withTables in Hsave.
    cbn in Hsave. rewrite Hname in Hsave. injection Hsave as <-.
    apply edited_requests.
    + intros t. destruct (Js.strictEq (TableDef.id t) id), field; reflexivity.
    + intros t. destruct (Js.strictEq (TableDef.id t) id), field; reflexivity.
    + intros t. destruct (Js.strictEq (TableDef.id t) id), field; reflexivity.
    + intros t isView selected acc.
      apply (resolveColumns_same_names (fun c => c)).
      * destruct (Js.strictEq (TableDef.id t) id), field; reflexivity.
      * rewrite map_id.
        destruct (Js.strictEq (TableDef.id t) id), field; reflexivity.
      * intros c. split; reflexivity.
  - intros tableId colId field value edited Hsave.
    unfold dataSourceToSave, startEdit, updateColumnMetadata, withTables in Hsave.
    cbn in Hsave. rewrite Hname in Hsave. injection Hsave as <-.
    apply edited_requests.
    + intros t. destruct (negb (Js.strictEq (TableDef.id t) tableId)); reflexivity.
    + intros t. destruct (negb (Js.strictEq (TableDef.id t) tableId)); reflexivity.
    + intros t. destruct (negb (Js.strictEq (TableDef.id t) tableId)); reflexivity.
    + intros t isView selected acc.
      destruct (negb (Js.strictEq (TableDef.id t) tableId)); [reflexivity |].
      apply (resolveColumns_same_names
               (fun c => if Js.strictEq (ColumnDef.id c) colId then
                           match field with
                           | column_alias =>
                               ColumnDef.mk (ColumnDef.id c) (ColumnDef.name c)
                                 (ColumnDef.type c) (Some value)
                           | _ => c
                           end
                         else c)).
      * reflexivity.
      * reflexivity.
      * intros c. destruct (Js.strictEq (ColumnDef.id c) colId), field;
          split; reflexivity.
Qed.

Lemma metadata_edits_keep_the_request_witness :
  map requestOf
    (callsOf envRows reportOnOrders
       (dataSourceToSave (Some "ds3") "fresh-id"
          (updateColumnMetadata "t-orders" "c-total" column_alias "Amount"
             (startEdit dsOrders)))
       initialState)
  = map requestOf
      (callsOf envRows reportOnOrders
         (dataSourceToSave (Some "ds3") "fresh-id" (startEdit dsOrders))
         initialState).
Proof.
  apply (proj2 (metadata_edits_keep_the_request envRows reportOnOrders initialState
                  dsOrders "fresh-id" _ eq_refl)
           "t-orders" "c-total" column_alias "Amount").
  reflexivity.
Defined.

(** X23: an alias typed into the form is the label the viewer shows.  When
    a data source is opened in the form, a non-empty alias is set on a
    column with [updateColumnMetadata] and the form is saved, then for a
    report on that table (its one table id leads to it, and it carries the
    given id), the label of a field that the schema lookup resolves to that
    column is the new alias, unless the report column has an alias of its
    own. *)
Theorem column_alias_becomes_the_label report ds saved uuid
    tableId colId value ref t col fieldName :
  dataSourceToSave (Some (DataSource.id ds)) uuid
    (updateColumnMetadata tableId colId column_alias value (startEdit ds)) = Some saved ->
  value <> EmptyString ->
  tableIdsOf report = [ref] -> ref <> EmptyString ->
  find (fun x => Js.strictEq (TableDef.id x) ref || Js.strictEq (TableDef.name x) ref)
       (DataSource.tables ds) = Some t ->
  TableDef.id t = tableId ->
  schemaColOf t fieldName = Some col ->
  ColumnDef.id col = colId ->
  (forall rc, reportColOf report fieldName = Some rc ->
              truthyAlias (ReportColumn.alias rc) = None) ->
  getAliasForField report (Some saved) fieldName = value.
Proof.
  intros Hsave Hvalue Hids Href Hfind Hid Hcol Hcid Hnone.
  unfold dataSourceToSave, startEdit, updateColumnMetadata, withTables in Hsave.
  cbn in Hsave.
  destruct (Js.truthy (DataSource.name ds)); [| discriminate Hsave].
  injection Hsave as <-.
  unfold getAliasForField.
  assert (E : truthyAlias (match reportColOf report fieldName with
                           | Some rc => ReportColumn.alias rc
                           | None => None
                           end) = None).
  { destruct (reportColOf report fieldName) as [rc |];
      [apply Hnone; reflexivity | reflexivity]. }
  rewrite E. unfold aliasTableOf. rewrite Hids.
  assert (Htruthy : Js.truthy ref = true).
  { unfold Js.truthy. apply String.eqb_neq in Href. rewrite Href. reflexivity. }
  rewrite Htruthy. cbn [DataSource.tables].
  rewrite Rendering.find_map_same
    by (intros x; destruct (negb (Js.strictEq (TableDef.id x) tableId)); reflexivity).
  rewrite Hfind. cbn [option_map].
  unfold Js.strictEq at 1. rewrite Hid, String.eqb_refl. cbn [negb].
  unfold schemaColOf in *. cbn [TableDef.columns TableDef.name].
  rewrite Rendering.find_map_same
    by (intros c; destruct (Js.strictEq (ColumnDef.id c) colId); reflexivity).
  rewrite Hcol. cbn [option_map].
  unfold Js.strictEq at 1. rewrite Hcid, String.eqb_refl. cbn [ColumnDef.alias].
  rewrite (Labels.truthyAlias_Some value Hvalue). reflexivity.
Qed.

Lemma column_alias_becomes_the_label_witness :
  getAliasForField reportOnOrders
    (dataSourceToSave (Some "ds3") "fresh-id"
       (updateColumnMetadata "t-orders" "c-total" column_alias "Amount"
          (startEdit dsOrders)))
    "orders.total" = "Amount".
Proof.
  apply (column_alias_becomes_the_label reportOnOrders dsOrders _ "fresh-id"
           "t-orders" "c-total" "Amount" "t-orders" ordersTable
           (ColumnDef.mk "c-total" "total" "currency" None) "orders.total").
  - reflexivity.
  - discriminate.
  - reflexivity.
  - discriminate.
  - reflexivity.
  - reflexivity.
  - reflexivity.
  - reflexivity.
  - intros rc H. vm_compute in H. discriminate H.
Defined.

End SchemaFacts.

(* ===================================================================== *)
(** ** Request URLs of the data source service *)
(* ===================================================================== *)

Module UrlFacts.
Import DatasourceService.

Lemma strip_ignores_trailing_slashes (b tail : string) :
  stripTrailingSlashes tail = EmptyString ->
  stripTrailingSlashes (b ++ tail) = stripTrailingSlashes b.
Proof.
  intros Htail. induction b as [| c rest IH]; simpl; [exact Htail |].
  rewrite IH. reflexivity.
Qed.

Lemma strip_after_dropping_last_slash (raw : string) :
  Js.endsWith raw "/" = true ->
  stripTrailingSlashes (Js.sliceDropLast raw) = stripTrailingSlashes raw.
Proof.
  induction raw as [| c rest IH]; intros H; [reflexivity |].
  destruct rest as [| d rest'].
  - simpl in H. rewrite orb_false_r in H.
    destruct (Ascii.eqb_spec c "/"%char) as [-> | N]; [reflexivity |].
    simpl in H. destruct (Ascii.eqb c "/"%char) eqn:E; [| discriminate H].
    apply Ascii.eqb_eq in E. contradiction.
  - assert (Hrest : Js.endsWith (String d rest') "/" = true).
    { cbn [Js.endsWith] in H. apply orb_true_iff in H. destruct H as [H | H]; [| exact H].
      apply String.eqb_eq in H. discriminate H. }
    change (Js.sliceDropLast (String c (String d rest')))
      with (String c (Js.sliceDropLast (String d rest'))).
    cbn [stripTrailingSlashes]. rewrite (IH Hrest). reflexivity.
Qed.

Lemma strip_of_apiUrl (raw : string) :
  stripTrailingSlashes (apiUrlOf raw) = stripTrailingSlashes raw.
Proof.
  unfold apiUrlOf, Js.truthy.
  destruct (String.eqb_spec raw EmptyString) as [-> | N]; cbn [negb]; [reflexivity |].
  destruct (Js.endsWith raw "/") eqn:E; [| reflexivity].
  apply strip_after_dropping_last_slash. exact E.
Qed.

Lemma endsWith_append (b suffix : string) : Js.endsWith (b ++ suffix) suffix = true.
Proof.
  induction b as [| c rest IH]; simpl.
  - destruct suffix; simpl; [reflexivity |].
    rewrite Ascii.eqb_refl, String.eqb_refl. reflexivity.
  - rewrite IH. apply orb_true_r.
Qed.

Lemma strip_keeps_api_suffix (b : string) :
  stripTrailingSlashes (b ++ "/api") = b ++ "/api".
Proof.
  induction b as [| c rest IH]; [reflexivity |].
  cbn [append stripTrailingSlashes]. rewrite IH.
  destruct rest; reflexivity.
Qed.

Lemma append_assoc (a b c : string) : (a ++ b) ++ c = a ++ (b ++ c).
Proof. induction a as [| x rest IH]; simpl; [reflexivity | now rewrite IH]. Qed.

(** The URL for a configured base: [b] without trailing slash, followed by
    any run of slashes. *)
Lemma buildUrl_configured (b tail p : string) :
  b <> EmptyString ->
  stripTrailingSlashes b = b ->
  stripTrailingSlashes tail = EmptyString ->
  buildUrl (apiUrlOf (b ++ tail)) ("/" ++ p)
  = if Js.endsWith b "/api"
    then b ++ "/" ++ match Js.stripPrefix "api/" p with
                     | Some rest => rest
                     | None => p
                     end
    else b ++ "/api/" ++ p.
Proof.
  intros Hb Hstrip Htail.
  assert (Hbase : stripTrailingSlashes (apiUrlOf (b ++ tail)) = b).
  { rewrite strip_of_apiUrl, strip_ignores_trailing_slashes by exact Htail.
    exact Hstrip. }
  unfold buildUrl. rewrite Hbase.
  assert (Htruthy : Js.truthy (apiUrlOf (b ++ tail)) = true).
  { unfold Js.truthy. apply negb_true_iff, String.eqb_neq.
    intros E. rewrite E in Hbase. simpl in Hbase. congruence. }
  rewrite Htruthy. cbn [negb]. reflexivity.
Qed.

(** X24: the URL of a request does not depend on how the API base is
    written.  For a non-empty base [b] that ends neither in a slash nor in
    [/api], and a path [/p] whose [p] does not start with [api/], the
    bases [b] and [b/api], each followed by any number of slashes, all
    give the URL [b/api/p]; with no base configured (or just [/]) the URL
    is the relative path [/p]. *)
Theorem buildUrl_normalises_the_base (b tail tail' p : string) :
  b <> EmptyString ->
  stripTrailingSlashes b = b ->
  Js.endsWith b "/api" = false ->
  stripTrailingSlashes tail = EmptyString ->
  stripTrailingSlashes tail' = EmptyString ->
  Js.stripPrefix "api/" p = None ->
  buildUrl (apiUrlOf (b ++ tail)) ("/" ++ p) = b ++ "/api/" ++ p
  /\ buildUrl (apiUrlOf ((b ++ "/api") ++ tail')) ("/" ++ p) = b ++ "/api/" ++ p
  /\ buildUrl (apiUrlOf EmptyString) ("/" ++ p) = "/" ++ p
  /\ buildUrl (apiUrlOf "/") ("/" ++ p) = "/" ++ p.
Proof.
  intros Hb Hstrip Hapi Htail Htail' Hp. split; [| split; [| split; reflexivity]].
  - rewrite (buildUrl_configured b tail p Hb Hstrip Htail), Hapi. reflexivity.
  - rewrite (buildUrl_configured (b ++ "/api") tail' p).
    + rewrite endsWith_append, Hp, append_assoc. reflexivity.
    + destruct b; discriminate.
    + apply strip_keeps_api_suffix.
    + exact Htail'.
Qed.

Lemma buildUrl_normalises_the_base_witness :
  buildUrl (apiUrlOf ("http://localhost:4000" ++ "/")) ("/" ++ "datasources/query")
  = "http://localhost:4000" ++ "/api/" ++ "datasources/query"
  /\ buildUrl (apiUrlOf (("http://localhost:4000" ++ "/api") ++ "//"))
       ("/" ++ "datasources/query")
     = "http://localhost:4000" ++ "/api/" ++ "datasources/query"
  /\ buildUrl (apiUrlOf EmptyString) ("/" ++ "datasources/query")
     = "/" ++ "datasources/query"
  /\ buildUrl (apiUrlOf "/") ("/" ++ "datasources/query") = "/" ++ "datasources/query".
Proof.
  apply (buildUrl_normalises_the_base "http://localhost:4000" "/" "//"
           "datasources/query"); try reflexivity.
  discriminate.
Defined.

End UrlFacts.

(* ===================================================================== *)
(** ** Chart keys and the Excel export of the viewer *)
(* ===================================================================== *)

Module ExportFacts.
Import ReportViewer Samples MoreSamples.





Lemma fold_max_ge_init (l : list nat) : forall init,
  (init <= fold_left Nat.max l init)%nat.
Proof.
  induction l as [| a rest IH]; intros init; simpl; [lia |].
  specialize (IH (Nat.max init a)). lia.
Qed.

Lemma fold_max_ge_elem (l : list nat) : forall init x,
  In x l -> (x <= fold_left Nat.max l init)%nat.
Proof.
  induction l as [| a rest IH]; intros init x Hin; simpl; [destruct Hin |].
  destruct Hin as [-> | Hin]; [| apply IH; exact Hin].
  pose proof (fold_max_ge_init rest (Nat.max init x)). lia.
Qed.

(** X26: the column widths of the export.  There is one width per key of
    the first exported row; every width lies between 2 and 50; a width is
    at least the length of its key plus 2 and at least the length of the
    text of each of the first 100 rows in that column plus 2, unless that
    exceeds 50, the cap. *)
Theorem export_column_widths_are_bounded (exportData : list Js.Row) :
  length (colWidthsOf exportData) = length (Js.Object_keys (hd [] exportData))
  /\ Forall (fun w => (2 <= w <= 50)%nat) (colWidthsOf exportData)
  /\ (forall key,
        (Nat.min (String.length key + 2) 50 <= columnWidth exportData key)%nat
        /\ (forall row, In row (firstn 100 exportData) ->
              (Nat.min (cellLength row key + 2) 50 <= columnWidth exportData key)%nat)).
Proof.
  split; [| split].
  - unfold colWidthsOf. apply length_map.
  - unfold colWidthsOf. apply Forall_forall. intros w Hin.
    apply in_map_iff in Hin. destruct Hin as (key & <- & _).
    unfold columnWidth. lia.
  - intros key. unfold columnWidth. split.
    + pose proof (fold_max_ge_init
                    (map (fun row => cellLength row key) (firstn 100 exportData))
                    (String.length key)). lia.
    + intros row Hin.
      pose proof (fold_max_ge_elem
                    (map (fun row => cellLength row key) (firstn 100 exportData))
                    (String.length key) (cellLength row key)
                    (in_map (fun row => cellLength row key) _ row Hin)). lia.
Qed.

Lemma export_column_widths_are_bounded_witness :
  (Nat.min (cellLength (exportRow mockReport (Some mockDataSource) oddRow) "total" + 2) 50
   <= columnWidth [exportRow mockReport (Some mockDataSource) oddRow] "total")%nat.
Proof.
  apply (proj2 (proj2 (proj2 (export_column_widths_are_bounded
                                [exportRow mockReport (Some mockDataSource) oddRow]))
                      "total")).
  left. reflexivity.
Defined.

Lemma set_entries (row : Js.Row) (key : string) (v : Js.JsValue) : forall k x,
  In (k, x) (Js.set row key v) -> (k = key /\ x = v) \/ In (k, x) row.
Proof.
  induction row as [| [k0 v0] rest IH]; intros k x Hin; simpl in Hin.
  - destruct Hin as [E | []]. injection E as <- <-. left. split; reflexivity.
  - destruct (Js.strictEq k0 key) eqn:E.
    + destruct Hin as [Hin | Hin].
      * injection Hin as <- <-. left. split; [| reflexivity].
        unfold Js.strictEq in E. apply String.eqb_eq in E. exact E.
      * right. right. exact Hin.
    + destruct Hin as [Hin | Hin]; [right; left; exact Hin |].
      destruct (IH k x Hin) as [H | H]; [left; exact H | right; right; exact H].
Qed.

Lemma exportValue_primitive (v : Js.JsValue) :
  Js.typeofIsObject (exportValue v) = false /\ exportValue v <> Js.JUndefined.
Proof. destruct v; split; simpl; try reflexivity; discriminate. Qed.

Lemma exportRow_entries report ds (row : Js.Row) (keys : list string) :
  forall (acc : Js.Row) k x,
    In (k, x)
       (fold_left
          (fun formattedRow key =>
             Js.set formattedRow (getAliasForField report ds key)
                    (exportValue (Js.get row key)))
          keys acc) ->
    In (k, x) acc
    \/ exists key, In key keys
         /\ k = getAliasForField report ds key
         /\ x = exportValue (Js.get row key).
Proof.
  induction keys as [| key rest IH]; intros acc k x Hin; simpl in Hin; [left; exact Hin |].
  destruct (IH _ k x Hin) as [Hacc | (key' & Hk & E1 & E2)].
  - destruct (set_entries _ _ _ k x Hacc) as [[-> ->] | Hold]; [| left; exact Hold].
    right. exists key. split; [left; reflexivity | split; reflexivity].
  - right. exists key'. split; [right; exact Hk | split; assumption].
Qed.

Lemma get_set_same (row : Js.Row) (key : string) (v : Js.JsValue) :
  Js.get (Js.set row key v) key = v.
Proof.
  induction row as [| [k0 v0] rest IH]; simpl.
  - unfold Js.strictEq. rewrite String.eqb_refl. reflexivity.
  - destruct (Js.strictEq k0 key) eqn:E; simpl; rewrite E; [reflexivity | exact IH].
Qed.

Lemma get_set_other (row : Js.Row) (key other : string) (v : Js.JsValue) :
  other <> key -> Js.get (Js.set row key v) other = Js.get row other.
Proof.
  intros Hne. induction row as [| [k0 v0] rest IH]; simpl.
  - unfold Js.strictEq. destruct (String.eqb_spec key other) as [E | _];
      [congruence | reflexivity].
  - destruct (Js.strictEq k0 key) eqn:E; simpl.
    + unfold Js.strictEq in *. apply String.eqb_eq in E. subst k0.
      destruct (String.eqb_spec key other) as [E | _]; [congruence | reflexivity].
    + rewrite IH. reflexivity.
Qed.

Lemma keys_set (row : Js.Row) (key : string) (v : Js.JsValue) (x : string) :
  In x (Js.Object_keys (Js.set row key v)) <-> x = key \/ In x (Js.Object_keys row).
Proof.
  induction row as [| [k0 v0] rest IH]; simpl.
  - split; [intros [E | []]; left; symmetry; exact E | intros [E | []]; left; symmetry; exact E].
  - destruct (Js.strictEq k0 key) eqn:E; simpl.
    + unfold Js.strictEq in E. apply String.eqb_eq in E. subst k0.
      split; [intros H; right; exact H |].
      intros [-> | H]; [left; reflexivity | exact H].
    + rewrite IH. tauto.
Qed.

Lemma NoDup_keys_set (row : Js.Row) (key : string) (v : Js.JsValue) :
  NoDup (Js.Object_keys row) -> NoDup (Js.Object_keys (Js.set row key v)).
Proof.
  induction row as [| [k0 v0] rest IH]; simpl; intros H.
  - repeat constructor. intros [].
  - inversion H as [| ? ? Hnotin Hrest]; subst.
    destruct (Js.strictEq k0 key) eqn:E; simpl; [exact H |].
    constructor; [| apply IH; exact Hrest].
    intros Hin. apply keys_set in Hin. destruct Hin as [-> | Hin]; [| contradiction].
    unfold Js.strictEq in E. rewrite String.eqb_refl in E. discriminate E.
Qed.

Section ExportedRow.
Variables (report : ReportConfig.t) (dataSource : option DataSource.t) (row : Js.Row).

Let label := getAliasForField report dataSource.
Let step := fun (formattedRow : Js.Row) (key : string) =>
  Js.set formattedRow (label key) (exportValue (Js.get row key)).

Lemma fold_keys (keys : list string) : forall (acc : Js.Row) (x : string),
  In x (Js.Object_keys (fold_left step keys acc))
  <-> In x (Js.Object_keys acc) \/ exists key, In key keys /\ x = label key.
Proof.
  induction keys as [| key rest IH]; intros acc x; simpl.
  - split; [intros H; left; exact H | intros [H | (key & [] & _)]; exact H].
  - rewrite IH. unfold step at 1. rewrite keys_set. split.
    + intros [[-> | H] | (key' & Hin & ->)].
      * right. exists key. split; [left; reflexivity | reflexivity].
      * left. exact H.
      * right. exists key'. split; [right; exact Hin | reflexivity].
    + intros [H | (key' & [<- | Hin] & ->)].
      * left. right. exact H.
      * left. left. reflexivity.
      * right. exists key'. split; [exact Hin | reflexivity].
Qed.

Lemma fold_NoDup (keys : list string) : forall (acc : Js.Row),
  NoDup (Js.Object_keys acc) -> NoDup (Js.Object_keys (fold_left step keys acc)).
Proof.
  induction keys as [| key rest IH]; intros acc H; simpl; [exact H |].
  apply IH. apply NoDup_keys_set. exact H.
Qed.

Lemma fold_get_untouched (keys : list string) (l : string) : forall (acc : Js.Row),
  (forall key, In key keys -> label key <> l) ->
  Js.get (fold_left step keys acc) l = Js.get acc l.
Proof.
  induction keys as [| key rest IH]; intros acc H; simpl; [reflexivity |].
  rewrite IH by (intros k Hk; apply H; right; exact Hk).
  apply get_set_other. intros E. apply (H key (or_introl eq_refl)). symmetry. exact E.
Qed.

Lemma fold_get_last (before after : list string) (key : string) (acc : Js.Row) :
  (forall later, In later after -> label later <> label key) ->
  Js.get (fold_left step (before ++ key :: after) acc) (label key)
  = exportValue (Js.get row key).
Proof.
  intros H. rewrite fold_left_app. simpl.
  rewrite fold_get_untouched by exact H.
  apply get_set_same.
Qed.

End ExportedRow.

(** What is written for a value: a string, number or boolean as it is,
    [null] and [undefined] as the empty string, an array or object as its
    JSON text. *)
Lemma exportValue_cases (value : Js.JsValue) :
  (Js.typeofIsObject value = false -> value <> Js.JUndefined ->
   exportValue value = value)
  /\ (value = Js.JNull \/ value = Js.JUndefined ->
      exportValue value = Js.JString EmptyString)
  /\ (Js.typeofIsObject value = true -> value <> Js.JNull ->
      exists text, Js.JSON_stringify value = Some text
                   /\ exportValue value = Js.JString text).
Proof.
  split; [| split].
  - destruct value; simpl; intros H N; try reflexivity; try discriminate H.
    contradiction.
  - intros [-> | ->]; reflexivity.
  - destruct value; simpl; intros H N; try discriminate H.
    + contradiction.
    + eexists. split; reflexivity.
    + eexists. split; reflexivity.
Qed.

(** X27: what the export writes.  With no rows it writes nothing and
    alerts [No data available to export].  Otherwise it writes one row per
    data row.  The keys of a written row are the labels
    ([getAliasForField]) of the keys of the data row, each once.  Under
    the label of a key there is the value of that key (of the last key with
    that label, when several keys of the row share a label): a string,
    number or boolean as it is, [null] and [undefined] as the empty
    string, an array or object as its JSON text.  No written value is
    structured or [undefined]. *)
Theorem export_writes_labelled_primitives report dataSource timestamp data :
  let label := getAliasForField report dataSource in
  (data = [] ->
   handleExportToExcel report dataSource timestamp data
   = Alerted "No data available to export")
  /\ (data <> [] ->
      exists workbook,
        handleExportToExcel report dataSource timestamp data = Written workbook
        /\ length (rows workbook) = length data
        /\ Forall2
             (fun row written =>
                NoDup (Js.Object_keys written)
                /\ (forall k, In k (Js.Object_keys written)
                              <-> exists key, In key (Js.Object_keys row) /\ k = label key)
                /\ (forall before key after,
                      Js.Object_keys row = (before ++ key :: after)%list ->
                      (forall later, In later after -> label later <> label key) ->
                      let value := Js.get row key in
                      let cell := Js.get written (label key) in
                      (Js.typeofIsObject value = false -> value <> Js.JUndefined ->
                       cell = value)
                      /\ (value = Js.JNull \/ value = Js.JUndefined ->
                          cell = Js.JString EmptyString)
                      /\ (Js.typeofIsObject value = true -> value <> Js.JNull ->
                          exists text, Js.JSON_stringify value = Some text
                                       /\ cell = Js.JString text))
                /\ (forall k x, In (k, x) written ->
                      Js.typeofIsObject x = false /\ x <> Js.JUndefined))
             data (rows workbook)).
Proof.
  cbv zeta. split.
  - intros ->. reflexivity.
  - intros Hne. unfold handleExportToExcel.
    rewrite (Dispatch.length_not_zero _ Hne).
    eexists. split; [reflexivity |]. cbn [rows].
    split; [unfold exportDataOf; apply length_map |].
    unfold exportDataOf. clear Hne.
    induction data as [| row rest IH]; simpl; constructor; [| exact IH].
    unfold exportRow.
    split; [apply fold_NoDup; constructor |].
    split; [| split].
    + intros k. rewrite fold_keys. simpl. tauto.
    + intros before key after Hkeys Hlast. cbv zeta.
      rewrite Hkeys, (fold_get_last report dataSource row before after key [] Hlast).
      apply exportValue_cases.
    + intros k x Hin.
      destruct (exportRow_entries report dataSource row _ [] k x Hin)
        as [[] | (key & Hk & E1 & E2)].
      subst x. apply exportValue_primitive.
Qed.

(** The row of the sample with a structured and a missing value, exported
    for the report on [orders]: the number is written under the alias of
    the column [id], the missing value as the empty string, the array as
    its JSON text. *)
Lemma export_writes_labelled_primitives_witness :
  exists workbook written,
    handleExportToExcel reportOnOrders (Some dsOrders) "2024-01-15_101500" [oddRow]
    = Written workbook
    /\ rows workbook = [written]
    /\ Js.get written "Order No" = Js.JNumber 7
    /\ Js.get written "note" = Js.JString EmptyString
    /\ exists text,
         Js.JSON_stringify (Js.JArray [Js.JString "a"; Js.JString "b"]) = Some text
         /\ Js.get written "tags" = Js.JString text.
Proof.
  destruct (proj2 (export_writes_labelled_primitives reportOnOrders (Some dsOrders)
                     "2024-01-15_101500" [oddRow]))
    as (workbook & Hwritten & Hlength & Hrows); [discriminate |].
  destruct (rows workbook) as [| written [| other more]] eqn:Erows;
    [discriminate Hlength | | discriminate Hlength].
  apply Forall2_cons_iff in Hrows. destruct Hrows as [(_ & _ & Hcells & _) _].
  exists workbook, written. split; [exact Hwritten |].
  split; [exact Erows |].
  split; [| split].
  - apply (proj1 (Hcells [] "id" ["tags"; "note"; "total"] eq_refl
                    ltac:(intros later [<- | [<- | [<- | []]]]; vm_compute; discriminate)));
      [reflexivity | discriminate].
  - apply (proj1 (proj2 (Hcells ["id"; "tags"] "note" ["total"] eq_refl
                           ltac:(intros later [<- | []]; vm_compute; discriminate)))).
    left. reflexivity.
  - apply (proj2 (proj2 (Hcells ["id"] "tags" ["note"; "total"] eq_refl
                           ltac:(intros later [<- | [<- | []]]; vm_compute; discriminate))));
      [reflexivity | discriminate].
Defined.

Lemma orElse_cases (a b : option string) :
  (exists s, a = Some s /\ s <> EmptyString /\ Js.orElse a b = Some s)
  \/ Js.orElse a b = b.
Proof.
  unfold Js.orElse, Js.truthy. destruct a as [s |]; [| right; reflexivity].
  destruct (String.eqb_spec s EmptyString) as [E | N]; cbn [negb];
    [right; reflexivity |].
  left. exists s. repeat split. exact N.
Qed.

(** X28: the keys the charts are drawn from.  With no rows both are the
    empty string.  Otherwise [getNumericKey] and [getLabelKey] return a key
    of the first row, or [undefined] exactly when that row has no keys;
    when the first key of the row that holds a number (a string, for
    [getLabelKey]) is not the empty string, it is that key. *)
Theorem chart_keys_come_from_the_first_row (first : Js.Row) (rest : list Js.Row) :
  getNumericKey [] = Some EmptyString /\ getLabelKey [] = Some EmptyString
  /\ (forall k, getNumericKey (first :: rest) = Some k -> In k (Js.Object_keys first))
  /\ (forall k, getLabelKey (first :: rest) = Some k -> In k (Js.Object_keys first))
  /\ (getNumericKey (first :: rest) = None <-> first = [])
  /\ (getLabelKey (first :: rest) = None <-> first = [])
  /\ (forall k,
        find (fun k => Js.typeofIsNumber (Js.get first k)) (Js.Object_keys first) = Some k ->
        k <> EmptyString ->
        getNumericKey (first :: rest) = Some k
        /\ Js.typeofIsNumber (Js.get first k) = true)
  /\ (forall k,
        find (fun k => Js.typeofIsString (Js.get first k)) (Js.Object_keys first) = Some k ->
        k <> EmptyString ->
        getLabelKey (first :: rest) = Some k
        /\ Js.typeofIsString (Js.get first k) = true).
Proof.
  assert (Hnth : forall i k, nth_error (Js.Object_keys first) i = Some k ->
                             In k (Js.Object_keys first)).
  { intros i k H. apply (nth_error_In _ _ H). }
  assert (Hfind : forall p k, find p (Js.Object_keys first) = Some k ->
                              In k (Js.Object_keys first)).
  { intros p k H. apply (find_some _ _ H). }
  assert (Hzero : nth_error (Js.Object_keys first) 0 = None <-> first = []).
  { destruct first; simpl; split; intros H; try reflexivity; discriminate H. }
  split; [reflexivity |]. split; [reflexivity |].
  unfold getNumericKey, getLabelKey.
  set (keys := Js.Object_keys first) in *.
  set (num := find (fun k => Js.typeofIsNumber (Js.get first k)) keys).
  set (str := find (fun k => Js.typeofIsString (Js.get first k)) keys).
  split; [| split; [| split; [| split; [| split]]]].
  - intros k H.
    destruct (orElse_cases (Js.orElse num (nth_error keys 1)) (nth_error keys 0))
      as [(s & E & _ & R) | R]; rewrite R in H.
    + injection H as <-.
      destruct (orElse_cases num (nth_error keys 1)) as [(s' & E' & _ & R') | R'];
        rewrite R' in E.
      * injection E as <-. apply (Hfind _ _ E').
      * apply (Hnth _ _ E).
    + apply (Hnth _ _ H).
  - intros k H.
    destruct (orElse_cases str (nth_error keys 0)) as [(s & E & _ & R) | R];
      rewrite R in H.
    + injection H as <-. apply (Hfind _ _ E).
    + apply (Hnth _ _ H).
  - split.
    + intros H.
      destruct (orElse_cases (Js.orElse num (nth_error keys 1)) (nth_error keys 0))
        as [(s & _ & _ & R) | R]; rewrite R in H; [discriminate H |].
      apply Hzero. exact H.
    + intros ->. reflexivity.
  - split.
    + intros H.
      destruct (orElse_cases str (nth_error keys 0)) as [(s & _ & _ & R) | R];
        rewrite R in H; [discriminate H |].
      apply Hzero. exact H.
    + intros ->. reflexivity.
  - intros k H Hk. fold num in H. rewrite H.
    apply find_some in H. destruct H as [_ Hnum]. split; [| exact Hnum].
    unfold Js.orElse, Js.truthy. apply String.eqb_neq in Hk.
    rewrite Hk. cbn [negb]. rewrite Hk. reflexivity.
  - intros k H Hk. fold str in H. rewrite H.
    apply find_some in H. destruct H as [_ Hstr]. split; [| exact Hstr].
    unfold Js.orElse, Js.truthy. apply String.eqb_neq in Hk. rewrite Hk. reflexivity.
Qed.

Lemma chart_keys_come_from_the_first_row_witness :
  getNumericKey [alice; bob] = Some "id"
  /\ Js.typeofIsNumber (Js.get alice "id") = true.
Proof.
  destruct (chart_keys_come_from_the_first_row alice [bob])
    as (_ & _ & _ & _ & _ & _ & Hnum & _).
  apply Hnum; [reflexivity | discriminate].
Defined.

End ExportFacts.
